(** * The function-consensus reactor (package [fnConsensus])

    A shallow embedding of the reactor state machine: configuration
    check, proposer rotation, the commit routine, vote-set comparison and
    the two gossip handlers.  Maps of the Go code are [gmap]s, [int64]
    values are integers with the wrap-around written out, pointers that
    may be [nil] are options, and every handler returns the reactor it
    leaves behind together with the calls it made on its collaborators. *)

From Stdlib Require Import ZArith Lia.
From stdpp Require Import gmap strings list fin_maps sorting.

#[local] Open Scope Z_scope.

(** ** Machine integers and byte slices *)

Module Int64.
Definition min_int : Z := - 2 ^ 63.
Definition max_int : Z := 2 ^ 63 - 1.

(** Two's complement wrap-around of a 64-bit signed integer. *)
Definition wrap (z : Z) : Z := (z + 2 ^ 63) mod 2 ^ 64 - 2 ^ 63.

Definition add (a b : Z) : Z := wrap (a + b).
Definition sub (a b : Z) : Z := wrap (a - b).

(** Go's [%] truncates towards zero; the divisor is checked by the caller. *)
Definition rem (a b : Z) : Z := Z.rem a b.

Definition in_range (z : Z) : Prop := min_int <= z <= max_int.
End Int64.

Definition bytes := list Byte.byte.

#[global] Instance byte_eq_dec : EqDecision Byte.byte := Byte.byte_eq_dec.

(** [bytes.Equal]: a nil slice and an empty slice are both the empty list. *)
Definition bytes_Equal (a b : bytes) : bool := bool_decide (a = b).

(** A function result that may instead be a run-time panic (nil
    dereference, close of a nil channel, division by zero). *)
Inductive Run (A : Type) : Type :=
| Ret (a : A)
| Panic.
Arguments Ret {A} a.
Arguments Panic {A}.

#[global] Instance run_ret : MRet Run := fun _ a => Ret a.
#[global] Instance run_bind : MBind Run := fun _ _ k m =>
  match m with
  | Ret a => k a
  | Panic => Panic
  end.

(** ** Constants of the reactor *)

Definition SigningThreshold := string.

Definition FnVoteSetChannel : Z := 80.          (* 0x50 *)
Definition FnMaj23Channel : Z := 81.            (* 0x51 *)
Definition FnProposalInfoSyncChannel : Z := 82. (* 0x52 *)

Definition StartingNonce : Z := 1.

(** Durations are [time.Duration] values, that is nanoseconds. *)
Definition Millisecond : Z := 1000000.
Definition Second : Z := 1000 * Millisecond.

Definition CommitRoutineExecutionBufferSeconds : Z := 1.
Definition CommitRoutineExecutionBuffer : Z := CommitRoutineExecutionBufferSeconds * Second.
Definition ProgressIntervalInSeconds : Z := 60 + CommitRoutineExecutionBufferSeconds.
Definition ExpiresIn : Z := 50 * Second + CommitRoutineExecutionBuffer.
Definition ExpiresInForSync : Z := 40 * Second.
Definition MaxContextSize : Z := 1024.
Definition MaxAllowedTimeDriftInFuture : Z := 10 * Second.

Definition Maj23SigningThreshold : SigningThreshold := "Maj23".
Definition AllSigningThreshold : SigningThreshold := "All".

Inductive error : Type :=
| ErrInvalidReactorConfiguration
| ErrLoadReactorState
| ErrSaveReactorState.

(** ** Reactor configuration *)

Record OverrideValidator := {
  ov_Address : bytes;
  ov_Power : Z
}.

Module ReactorConfig.
Record t := {
  OverrideValidatorSet : option (list OverrideValidator);
  FnVoteSigningThreshold : SigningThreshold
}.

(** The receiver is a pointer: [None] is the nil configuration. *)
Definition IsValid (r : option t) : bool :=
  match r with
  | None => true
  | Some c =>
      negb (bool_decide (FnVoteSigningThreshold c = AllSigningThreshold))
      && negb (bool_decide (FnVoteSigningThreshold c = Maj23SigningThreshold))
  end.
End ReactorConfig.

(** ** Validator sets of the host chain *)

Record Validator := {
  Address : bytes;
  VotingPower : Z
}.

Module ValidatorSet.
Definition Size (vals : list Validator) : Z := Z.of_nat (length vals).

Fixpoint index_from (addr : bytes) (vals : list Validator) (i : Z) : Z :=
  match vals with
  | [] => -1
  | v :: rest => if bytes_Equal (Address v) addr then i else index_from addr rest (i + 1)
  end.

(** [GetByAddress] returns the index of the validator, or -1. *)
Definition GetByAddress (vals : list Validator) (addr : bytes) : Z :=
  index_from addr vals 0.

Definition TotalVotingPower (vals : list Validator) : Z :=
  foldr (fun v acc => VotingPower v + acc) 0 vals.
End ValidatorSet.

(** ** Proposal info: the rotation cursor *)

Module ProposalInfo.
Record t := {
  LastActiveValidators : list bytes;
  CurrentTurn : Z                (* a Go [int], 64 bits wide *)
}.
End ProposalInfo.

(** ** Collaborators declared by the host *)

(** The pluggable callback object.  [PrepareContext] and
    [GetMessageAndSignature] answer [None] for a non-nil error;
    [MapMessage] answers [false] for a non-nil error.
    [SubmitMultiSignedMessage] returns nothing and is recorded as an event. *)
Record Fn := {
  PrepareContext : option (bool * bytes);
  GetMessageAndSignature : bytes -> option (bytes * bytes);
  MapMessage : bytes -> bytes -> bytes -> bool
}.

(** The registry: [Get] is the lookup, a missing FnID reads as nil. *)
Abbreviation FnRegistry := (gmap string Fn).

(** The private validator: its address and its signing primitive
    ([None] for a signing error). *)
Record PrivValidator := {
  GetAddress : bytes;
  SignBytes : bytes -> option bytes
}.

(** ** Vote sets *)

Inductive VoteType : Type :=
| VoteTypeUnvoted
| VoteTypeAgree
| VoteTypeDisAgree.

#[global] Instance VoteType_eq_dec : EqDecision VoteType.
Proof. solve_decision. Defined.

Record FnIndividualExecutionResponse := {
  ind_Status : Z;
  ind_Error : string;
  ind_Hash : bytes;
  ind_OracleSignature : bytes
}.

Record FnExecutionResponse := {
  Status : Z;
  Error : string;
  Hash : bytes;
  OracleSignatures : list bytes
}.

Record FnVotePayload := {
  Request : string;              (* the FnID of the execution request *)
  Response : FnExecutionResponse
}.

Module FnVoteSet.
(** Modelled from the spec: the vote-set structure is declared outside
    the reactor file; its fields are those of the data model (ID, FnID
    carried by the payload request, Nonce, ChainID, CreationTime,
    ExpiresIn, ValidatorsHash, ExecutionContext, Payload, one vote slot
    and one signature per validator index, ProposalInfo). *)
Record t := {
  ID : string;
  Nonce : Z;
  ChainID : string;
  CreationTime : Z;            (* Unix seconds *)
  ExpiresIn : Z;
  ValidatorsHash : bytes;
  ExecutionContext : bytes;
  Payload : FnVotePayload;
  VoteTypes : list VoteType;
  ValidatorSignatures : list bytes;
  ProposalInfo : option ProposalInfo.t
}.

(** The clock, the hash of a validator set, the signature scheme and the
    codec: used by the vote set, never interpreted by it. *)
Class Env := {
  (** wall clock at the time of the run, nanoseconds since the epoch *)
  Now : Z;
  (** [ValidatorSet.Hash] *)
  ValidatorSetHash : list Validator -> bytes;
  (** canonical encoding of the vote set for one slot: what is signed *)
  CanonicalSignBytes : t -> nat -> bytes;
  (** the validator's public key accepts the signature over the bytes *)
  VerifySignature : Validator -> bytes -> bytes -> bool;
  ActiveValidators : t -> list bytes;
  Marshal : t -> option bytes;
  Unmarshal : bytes -> option t
}.
(** The operations of the vote set are declared with it, outside the
    reactor file: each of them is modelled below from what the
    specification says about it. *)
Section ops.
Context `{Env}.

(** Modelled from the spec: the vote of slot [i], Unvoted when there is no
    such slot. *)
Definition slot (vs : t) (i : nat) : VoteType :=
  default VoteTypeUnvoted (VoteTypes vs !! i).

Definition hasVoted (v : VoteType) : bool := negb (bool_decide (v = VoteTypeUnvoted)).
Definition isAgreeVote (v : VoteType) : bool := bool_decide (v = VoteTypeAgree).
Definition isDisagreeVote (v : VoteType) : bool := bool_decide (v = VoteTypeDisAgree).

(** Modelled from the spec: the voting power of the validators whose slot
    satisfies [p]. *)
Fixpoint powerOf (p : VoteType -> bool) (vals : list Validator) (votes : list VoteType) : Z :=
  match vals, votes with
  | v :: vals', x :: votes' =>
      (if p x then VotingPower v else 0) + powerOf p vals' votes'
  | _, _ => 0
  end.

(** Modelled from the spec: the threshold test, which lives with the vote
    set outside the reactor file.  [Maj23] is strictly more than two thirds
    of the total power, [All] is the whole of it. *)
Definition meetsThreshold (th : SigningThreshold) (power total : Z) : bool :=
  if bool_decide (th = Maj23SigningThreshold) then 2 * total <? 3 * power
  else if bool_decide (th = AllSigningThreshold) then power =? total
  else false.

(** Modelled from the spec: the test applied to the slots selected by [p],
    for the validator set the vote set is bound to (a converged vote set
    carries the hash of that set). *)
Definition thresholdCheck (p : VoteType -> bool) (vs : t)
    (th : SigningThreshold) (vals : list Validator) : bool :=
  bytes_Equal (ValidatorsHash vs) (ValidatorSetHash vals)
  && meetsThreshold th (powerOf p vals (VoteTypes vs)) (ValidatorSet.TotalVotingPower vals).

(** Modelled from the spec: [HasConverged] holds when the voting power of
    the non-Unvoted slots meets the threshold, and only for the validator
    set the vote set is bound to. *)
Definition HasConverged (vs : t) (th : SigningThreshold) (vals : list Validator) : bool :=
  thresholdCheck hasVoted vs th vals.

(** Modelled from the spec: [IsAgree] and [IsDisagree] apply the same test
    to the Agree and to the Disagree votes. *)
Definition IsAgree (vs : t) (th : SigningThreshold) (vals : list Validator) : bool :=
  thresholdCheck isAgreeVote vs th vals.

(** Modelled from the spec: as [IsAgree], on the Disagree votes. *)
Definition IsDisagree (vs : t) (th : SigningThreshold) (vals : list Validator) : bool :=
  thresholdCheck isDisagreeVote vs th vals.

Definition countVotes (p : VoteType -> bool) (votes : list VoteType) : Z :=
  Z.of_nat (length (filter (fun v => p v = true) votes)).

(** Modelled from the spec: the number of slots that hold a vote. *)
Definition NumberOfVotes (vs : t) : Z := countVotes hasVoted (VoteTypes vs).

(** Modelled from the spec: the number of slots that hold an Agree vote. *)
Definition NumberOfAgreeVotes (vs : t) : Z := countVotes isAgreeVote (VoteTypes vs).

(** Modelled from the spec: whether the slot of validator [i] holds a vote. *)
Definition HaveWeAlreadySigned (vs : t) (i : Z) : bool :=
  (0 <=? i) && hasVoted (slot vs (Z.to_nat i)).

(** Modelled from the spec: the FnID of the payload request. *)
Definition GetFnID (vs : t) : string := Request (Payload vs).

(** Modelled from the spec: the hash of the payload response. *)
Definition GetMessageHash (vs : t) : bytes := Hash (Response (Payload vs)).

(** Modelled from the spec: a vote set is expired once the clock has
    reached [CreationTime] plus the bound. *)
Definition IsExpired (vs : t) (bound : Z) : bool :=
  CreationTime vs * Second + bound <=? Now.

(** Modelled from the spec: the dense rank of a validator among the Agree
    voters, that is the number of Agree slots before its own; a validator
    whose slot is not Agree has no rank and gets the error. *)
Definition agreeRank (votes : list VoteType) (i : nat) : option Z :=
  if isAgreeVote (default VoteTypeUnvoted (votes !! i))
  then Some (countVotes isAgreeVote (take i votes))
  else None.

Definition GetAgreeVoteIndexForValidatorIndex (vs : t) (i : Z) : option Z :=
  if 0 <=? i then agreeRank (VoteTypes vs) (Z.to_nat i) else None.

(** Modelled from the spec: the signature stored for slot [i] verifies
    against the validator of that index. *)
Definition slotVerifies (vals : list Validator) (vs : t) (i : nat) : bool :=
  match vals !! i, ValidatorSignatures vs !! i with
  | Some v, Some sig => VerifySignature v (CanonicalSignBytes vs i) sig
  | _, _ => false
  end.

Definition allSignaturesVerify (vals : list Validator) (vs : t) : bool :=
  forallb (fun i => negb (hasVoted (slot vs i)) || slotVerifies vals vs i)
          (seq 0 (length (VoteTypes vs))).

(** Modelled from the spec: [IsValid] rejects a vote set whose ChainID
    mismatches, whose CreationTime is more than
    [MaxAllowedTimeDriftInFuture] in the future, whose context exceeds the
    size bound, whose ValidatorsHash does not match the set, whose FnID is
    not registered, or one of whose signatures does not verify; with
    [checkExpiration] it also rejects an expired one. *)
Definition IsValid (vs : t) (chainID : string) (maxContextSize : Z)
    (checkExpiration : bool) (validityPeriod : Z)
    (vals : list Validator) (registry : FnRegistry) : bool :=
  bool_decide (ChainID vs = chainID)
  && (CreationTime vs * Second <=? Now + MaxAllowedTimeDriftInFuture)
  && (Z.of_nat (length (ExecutionContext vs)) <=? maxContextSize)
  && bytes_Equal (ValidatorsHash vs) (ValidatorSetHash vals)
  && bool_decide (is_Some (registry !! GetFnID vs))
  && allSignaturesVerify vals vs
  && (negb checkExpiration || negb (IsExpired vs validityPeriod)).

Definition setVotes (vs : t) (votes : list VoteType) (sigs : list bytes)
    (oracle : list bytes) : t :=
  {| ID := ID vs; Nonce := Nonce vs; ChainID := ChainID vs;
     CreationTime := CreationTime vs; ExpiresIn := ExpiresIn vs;
     ValidatorsHash := ValidatorsHash vs;
     ExecutionContext := ExecutionContext vs;
     Payload :=
       {| Request := Request (Payload vs);
          Response :=
            {| Status := Status (Response (Payload vs));
               Error := Error (Response (Payload vs));
               Hash := Hash (Response (Payload vs));
               OracleSignatures := oracle |} |};
     VoteTypes := votes;
     ValidatorSignatures := sigs;
     ProposalInfo := ProposalInfo vs |}.

Definition oracleSignatures (vs : t) : list bytes :=
  OracleSignatures (Response (Payload vs)).

(** Modelled from the spec: the fields two vote sets must share to be
    merged. *)
Definition sameProposal (a b : t) : bool :=
  bool_decide (ID a = ID b)
  && bool_decide (GetFnID a = GetFnID b)
  && (Nonce a =? Nonce b)
  && bool_decide (ChainID a = ChainID b)
  && (CreationTime a =? CreationTime b)
  && bytes_Equal (ExecutionContext a) (ExecutionContext b)
  && bytes_Equal (GetMessageHash a) (GetMessageHash b)
  && bytes_Equal (ValidatorsHash a) (ValidatorsHash b).

Definition adoptable (vals : list Validator) (ours theirs : t) (i : nat) : bool :=
  negb (hasVoted (slot ours i)) && hasVoted (slot theirs i) && slotVerifies vals theirs i.

Definition adopt (ours theirs : t) (i : nat) : t :=
  setVotes ours
    (<[i := slot theirs i]> (VoteTypes ours))
    (<[i := default [] (ValidatorSignatures theirs !! i)]> (ValidatorSignatures ours))
    (<[i := default [] (oracleSignatures theirs !! i)]> (oracleSignatures ours)).

Definition mergeStep (vals : list Validator) (theirs : t) (acc : bool * t) (i : nat) : bool * t :=
  if adoptable vals acc.2 theirs i then (true, adopt acc.2 theirs i) else acc.

(** Modelled from the spec: [Merge] fails when ID, FnID, Nonce, ChainID,
    CreationTime, ExecutionContext, the response hash or ValidatorsHash
    differ; otherwise every slot that is Unvoted here, voted there and
    whose signature verifies is adopted.  The result tells whether a slot
    was adopted, together with the merged vote set. *)
Definition Merge (ours : t) (vals : list Validator) (theirs : t) : option (bool * t) :=
  if sameProposal ours theirs
  then Some (foldl (mergeStep vals theirs) (false, ours) (seq 0 (length (VoteTypes ours))))
  else None.

(** Modelled from the spec: [AddVote] fails when the nonce differs from the
    vote set's, when the slot has already voted or when the signature
    cannot be produced; on success it fills the slot, stores the signature
    and, for an Agree vote, the oracle signature. *)
Definition AddVote (vs : t) (nonce : Z) (resp : FnIndividualExecutionResponse)
    (vals : list Validator) (ownIndex : Z) (voteType : VoteType)
    (signer : PrivValidator) : option t :=
  if negb (nonce =? Nonce vs) then None
  else if HaveWeAlreadySigned vs ownIndex then None
  else if negb ((0 <=? ownIndex) && (ownIndex <? Z.of_nat (length (VoteTypes vs)))) then None
  else
    let i := Z.to_nat ownIndex in
    let voted :=
      setVotes vs (<[i := voteType]> (VoteTypes vs)) (ValidatorSignatures vs)
        (if isAgreeVote voteType
         then <[i := ind_OracleSignature resp]> (oracleSignatures vs)
         else oracleSignatures vs) in
    match SignBytes signer (CanonicalSignBytes voted i) with
    | None => None
    | Some sig =>
        Some (setVotes voted (VoteTypes voted)
                (<[i := sig]> (ValidatorSignatures voted)) (oracleSignatures voted))
    end.

(** Modelled from the spec: [NewVoteSet] builds the empty slots for the
    validator set, installs the proposer's own Agree vote and signs the
    canonical encoding. *)
Definition NewVoteSet (id : string) (nonce : Z) (chainID : string) (expiresIn : Z)
    (validatorIndex : Z) (ctx : bytes) (payload : FnVotePayload)
    (signer : PrivValidator) (vals : list Validator)
    (proposalInfo : option ProposalInfo.t) : option t :=
  if negb ((0 <=? validatorIndex) && (validatorIndex <? ValidatorSet.Size vals)) then None
  else
    let i := Z.to_nat validatorIndex in
    let fresh :=
      {| ID := id; Nonce := nonce; ChainID := chainID;
         CreationTime := Now / Second; ExpiresIn := expiresIn;
         ValidatorsHash := ValidatorSetHash vals;
         ExecutionContext := ctx;
         Payload := payload;
         VoteTypes := <[i := VoteTypeAgree]> (replicate (length vals) VoteTypeUnvoted);
         ValidatorSignatures := replicate (length vals) [];
         ProposalInfo := proposalInfo |} in
    match SignBytes signer (CanonicalSignBytes fresh i) with
    | None => None
    | Some sig =>
        Some (setVotes fresh (VoteTypes fresh)
                (<[i := sig]> (ValidatorSignatures fresh)) (oracleSignatures fresh))
    end.

End ops.
End FnVoteSet.

(** Modelled from the spec: the constructors of the payload, declared with
    the vote set.  The request names a registered FnID; the response holds
    one oracle-signature slot per validator, the proposer's filled in. *)
Definition NewFnExecutionRequest (fnID : string) (registry : FnRegistry) : option string :=
  if bool_decide (is_Some (registry !! fnID)) then Some fnID else None.

Definition NewFnExecutionResponse (r : FnIndividualExecutionResponse)
    (validatorIndex : Z) (vals : list Validator) : FnExecutionResponse :=
  {| Status := ind_Status r; Error := ind_Error r; Hash := ind_Hash r;
     OracleSignatures :=
       if 0 <=? validatorIndex
       then <[Z.to_nat validatorIndex := ind_OracleSignature r]> (replicate (length vals) [])
       else replicate (length vals) [] |}.

Definition NewFnVotePayload (req : string) (resp : FnExecutionResponse) : FnVotePayload :=
  {| Request := req; Response := resp |}.

(** ** Persistent reactor state *)

Module ReactorState.
Record t := {
  CurrentVoteSets : gmap string FnVoteSet.t;
  PreviousMaj23VoteSets : gmap string FnVoteSet.t;
  PreviousTimedOutVoteSets : gmap string FnVoteSet.t;
  CurrentNonces : gmap string Z;
  CurrentProposalInfo : gmap string (option ProposalInfo.t);
  PreviousValidatorSet : option (list Validator)
}.

Definition empty : t :=
  {| CurrentVoteSets := ∅; PreviousMaj23VoteSets := ∅;
     PreviousTimedOutVoteSets := ∅; CurrentNonces := ∅;
     CurrentProposalInfo := ∅; PreviousValidatorSet := None |}.

Definition setCurrentVoteSets (m : gmap string FnVoteSet.t) (s : t) : t :=
  {| CurrentVoteSets := m;
     PreviousMaj23VoteSets := PreviousMaj23VoteSets s;
     PreviousTimedOutVoteSets := PreviousTimedOutVoteSets s;
     CurrentNonces := CurrentNonces s;
     CurrentProposalInfo := CurrentProposalInfo s;
     PreviousValidatorSet := PreviousValidatorSet s |}.

Definition setPreviousMaj23VoteSets (m : gmap string FnVoteSet.t) (s : t) : t :=
  {| CurrentVoteSets := CurrentVoteSets s;
     PreviousMaj23VoteSets := m;
     PreviousTimedOutVoteSets := PreviousTimedOutVoteSets s;
     CurrentNonces := CurrentNonces s;
     CurrentProposalInfo := CurrentProposalInfo s;
     PreviousValidatorSet := PreviousValidatorSet s |}.

Definition setPreviousTimedOutVoteSets (m : gmap string FnVoteSet.t) (s : t) : t :=
  {| CurrentVoteSets := CurrentVoteSets s;
     PreviousMaj23VoteSets := PreviousMaj23VoteSets s;
     PreviousTimedOutVoteSets := m;
     CurrentNonces := CurrentNonces s;
     CurrentProposalInfo := CurrentProposalInfo s;
     PreviousValidatorSet := PreviousValidatorSet s |}.

Definition setCurrentNonces (m : gmap string Z) (s : t) : t :=
  {| CurrentVoteSets := CurrentVoteSets s;
     PreviousMaj23VoteSets := PreviousMaj23VoteSets s;
     PreviousTimedOutVoteSets := PreviousTimedOutVoteSets s;
     CurrentNonces := m;
     CurrentProposalInfo := CurrentProposalInfo s;
     PreviousValidatorSet := PreviousValidatorSet s |}.

Definition setCurrentProposalInfo (m : gmap string (option ProposalInfo.t)) (s : t) : t :=
  {| CurrentVoteSets := CurrentVoteSets s;
     PreviousMaj23VoteSets := PreviousMaj23VoteSets s;
     PreviousTimedOutVoteSets := PreviousTimedOutVoteSets s;
     CurrentNonces := CurrentNonces s;
     CurrentProposalInfo := m;
     PreviousValidatorSet := PreviousValidatorSet s |}.

Definition setPreviousValidatorSet (v : option (list Validator)) (s : t) : t :=
  {| CurrentVoteSets := CurrentVoteSets s;
     PreviousMaj23VoteSets := PreviousMaj23VoteSets s;
     PreviousTimedOutVoteSets := PreviousTimedOutVoteSets s;
     CurrentNonces := CurrentNonces s;
     CurrentProposalInfo := CurrentProposalInfo s;
     PreviousValidatorSet := v |}.

(** [m[k]] on a map of pointers: a missing key reads as nil. *)
Definition proposalInfoAt (s : t) (fnID : string) : option ProposalInfo.t :=
  default None (CurrentProposalInfo s !! fnID).

(** [m[k]] on a map of [int64]: a missing key reads as zero. *)
Definition nonceAt (s : t) (fnID : string) : Z :=
  default 0 (CurrentNonces s !! fnID).
End ReactorState.


(** ** The reactor *)

(** The store, the hash function and the source of randomness. *)
Class Host := {
  SHA512 : bytes -> bytes;
  (** [generateVoteSetID], drawing on [crypto/rand]; [None] for an error *)
  NewVoteSetID : option string;
  (** [LoadReactorState f.db]; [None] for an error *)
  LoadReactorState : option ReactorState.t;
  (** [SaveReactorState f.db st true]: [true] when the write succeeded *)
  SaveReactorState : ReactorState.t -> bool
}.

(** Calls the reactor makes on its collaborators, in program order. *)
Inductive Event : Type :=
| CallMapMessage (fnID : string) (ctx hash message : bytes)
| CallSubmitMultiSignedMessage (fnID : string) (ctx hash : bytes) (signatures : list bytes)
| PeerSend (peer : string) (chID : Z) (msg : bytes)
| CallSaveReactorState (st : ReactorState.t)
| GoCommitRoutine (fnID : string) (monitoringTill : Z)
| CloseQuitCh (fnID : string)
| GoProgressRoutine.

(** The event is a message handed to a peer. *)
Definition isPeerSend (e : Event) : Prop :=
  match e with
  | PeerSend _ _ _ => True
  | _ => False
  end.

Record FnConsensusReactor := {
  connectedPeers : gset string;
  state : option ReactorState.t;             (* nil until [OnStart] *)
  chainID : string;
  fnRegistry : FnRegistry;
  privValidator : PrivValidator;
  commitRoutineQuitCh : gset string;         (* FnIDs holding a quit channel *)
  staticValidators : option (list Validator);
  tmValidators : list Validator;             (* validators of the loaded host state *)
  cfg : option ReactorConfig.t
}.

Definition setState (st : ReactorState.t) (f : FnConsensusReactor) : FnConsensusReactor :=
  {| connectedPeers := connectedPeers f; state := Some st; chainID := chainID f;
     fnRegistry := fnRegistry f; privValidator := privValidator f;
     commitRoutineQuitCh := commitRoutineQuitCh f;
     staticValidators := staticValidators f; tmValidators := tmValidators f;
     cfg := cfg f |}.

Definition setQuitCh (q : gset string) (f : FnConsensusReactor) : FnConsensusReactor :=
  {| connectedPeers := connectedPeers f; state := state f; chainID := chainID f;
     fnRegistry := fnRegistry f; privValidator := privValidator f;
     commitRoutineQuitCh := q;
     staticValidators := staticValidators f; tmValidators := tmValidators f;
     cfg := cfg f |}.

Definition NewFnConsensusReactor (chainID : string) (privValidator : PrivValidator)
    (fnRegistry : FnRegistry) (tmValidators : list Validator)
    (cfg : option ReactorConfig.t) : FnConsensusReactor + error :=
  if negb (ReactorConfig.IsValid cfg) then inr ErrInvalidReactorConfiguration
  else inl {| connectedPeers := ∅; state := None; chainID := chainID;
              fnRegistry := fnRegistry; privValidator := privValidator;
              commitRoutineQuitCh := ∅; staticValidators := None;
              tmValidators := tmValidators; cfg := cfg |}.

Section reactor.
Context `{FnVoteSet.Env} `{Host}.

Import ReactorState.

(** [f.state.X]: a nil state pointer panics. *)
Definition theState (f : FnConsensusReactor) : Run ReactorState.t :=
  match state f with
  | Some st => Ret st
  | None => Panic
  end.

(** [f.cfg.FnVoteSigningThreshold]: a nil configuration panics. *)
Definition theThreshold (f : FnConsensusReactor) : Run SigningThreshold :=
  match cfg f with
  | Some c => Ret (ReactorConfig.FnVoteSigningThreshold c)
  | None => Panic
  end.

Definition myAddress (f : FnConsensusReactor) : bytes := GetAddress (privValidator f).

Definition areWeValidator (f : FnConsensusReactor) (currentValidatorSet : list Validator)
    : bool * Z :=
  let validatorIndex := ValidatorSet.GetByAddress currentValidatorSet (myAddress f) in
  (negb (validatorIndex =? -1), validatorIndex).

(** [calculateMessageHash]: writing to the hash never fails. *)
Definition calculateMessageHash (message : bytes) : bytes := SHA512 message.

Definition getValidatorSet (f : FnConsensusReactor) : list Validator :=
  match staticValidators f with
  | None => tmValidators f
  | Some vals => vals
  end.

(** Send to every connected peer, but for the one to skip. *)
Definition broadcast (f : FnConsensusReactor) (skip : option string) (chID : Z)
    (msg : bytes) : list Event :=
  (fun p => PeerSend p chID msg)
    <$> filter (fun p => skip ≠ Some p) (elements (connectedPeers f)).

(** *** Start-up *)

Definition dropExpired (cur : gmap string FnVoteSet.t) (fnID : string)
    : gmap string FnVoteSet.t :=
  match cur !! fnID with
  | Some currentVoteState =>
      if FnVoteSet.IsExpired currentVoteState ExpiresIn then delete fnID cur else cur
  | None => cur
  end.

Definition OnStart (f : FnConsensusReactor)
    : FnConsensusReactor * list Event * option error :=
  match LoadReactorState with
  | None => (f, [], Some ErrLoadReactorState)
  | Some reactorState =>
      let fnIDs := elements (dom (fnRegistry f)) in
      let st := setCurrentVoteSets
                  (foldl dropExpired (CurrentVoteSets reactorState) fnIDs) reactorState in
      if SaveReactorState st
      then (setState st f, [CallSaveReactorState st; GoProgressRoutine], None)
      else (setState st f, [CallSaveReactorState st], Some ErrSaveReactorState)
  end.

(** *** Proposer rotation *)

Definition emptyProposalInfo : ProposalInfo.t :=
  {| ProposalInfo.LastActiveValidators := []; ProposalInfo.CurrentTurn := 0 |}.

Definition setLastActiveValidators (l : list bytes) (p : ProposalInfo.t) : ProposalInfo.t :=
  {| ProposalInfo.LastActiveValidators := l;
     ProposalInfo.CurrentTurn := ProposalInfo.CurrentTurn p |}.

Definition setCurrentTurn (n : Z) (p : ProposalInfo.t) : ProposalInfo.t :=
  {| ProposalInfo.LastActiveValidators := ProposalInfo.LastActiveValidators p;
     ProposalInfo.CurrentTurn := n |}.

(** The loop comparing the two address lists, entered when the lengths agree. *)
Fixpoint sameAddresses (a b : list bytes) : bool :=
  match a, b with
  | x :: a', y :: b' => if bytes_Equal x y then sameAddresses a' b' else false
  | _, _ => true
  end.

Definition getNextProposalInfo (fnID : string) (state : ReactorState.t)
    (currentValidatorSet : list Validator) : option ProposalInfo.t :=
  let currentProposalInfo := proposalInfoAt state fnID in
  let nextProposalInfo := emptyProposalInfo in
  match PreviousMaj23VoteSets state !! fnID with
  | None => None
  | Some lastMaj23VoteSet =>
      if negb (bytes_Equal (FnVoteSet.ValidatorsHash lastMaj23VoteSet)
                           (FnVoteSet.ValidatorSetHash currentValidatorSet))
      then
        Some (setCurrentTurn 0
                (setLastActiveValidators (Address <$> currentValidatorSet) nextProposalInfo))
      else
        let lastMaj23ActiveValidators := FnVoteSet.ActiveValidators lastMaj23VoteSet in
        match currentProposalInfo with
        | None =>
            Some (setCurrentTurn 0
                    (setLastActiveValidators lastMaj23ActiveValidators nextProposalInfo))
        | Some cpi =>
            let areActiveValidatorsUnchanged :=
              if negb (Nat.eqb (length lastMaj23ActiveValidators)
                               (length (ProposalInfo.LastActiveValidators cpi)))
              then false
              else sameAddresses lastMaj23ActiveValidators
                                 (ProposalInfo.LastActiveValidators cpi) in
            if negb areActiveValidatorsUnchanged
            then Some (setCurrentTurn 0
                         (setLastActiveValidators lastMaj23ActiveValidators nextProposalInfo))
            else
              let next := setCurrentTurn (Int64.add (ProposalInfo.CurrentTurn cpi) 1)
                                         nextProposalInfo in
              if ProposalInfo.CurrentTurn next
                 >=? Z.of_nat (length (ProposalInfo.LastActiveValidators next))
              then Some (setCurrentTurn 0 next)
              else Some next
        end
  end.

(** *** Progress tick: the body of the loop over the sorted FnIDs.
    The boolean tells whether the FnID is eligible for a proposal. *)
Definition progressStep (currentValidators : list Validator) (st : ReactorState.t)
    (fnID : string) : ReactorState.t * bool :=
  let advance (s : ReactorState.t) :=
    (setCurrentProposalInfo
       (<[fnID := getNextProposalInfo fnID s currentValidators]> (CurrentProposalInfo s)) s,
     true) in
  match CurrentVoteSets st !! fnID with
  | Some currentVoteState =>
      if FnVoteSet.IsExpired currentVoteState ExpiresIn
      then advance
             (setCurrentVoteSets (delete fnID (CurrentVoteSets st))
                (setPreviousTimedOutVoteSets
                   (<[fnID := currentVoteState]> (PreviousTimedOutVoteSets st)) st))
      else (st, false)
  | None => advance st
  end.

(** *** The commit routine, run when the commit timer fires *)

(** The state a successful commit leaves behind. *)
Definition committed (st : ReactorState.t) (fnIDToMonitor : string)
    (currentVoteSet : FnVoteSet.t) (currentValidators : list Validator) : ReactorState.t :=
  setCurrentVoteSets (delete fnIDToMonitor (CurrentVoteSets st))
    (setPreviousMaj23VoteSets
       (<[fnIDToMonitor := currentVoteSet]> (PreviousMaj23VoteSets st))
       (setPreviousValidatorSet (Some currentValidators)
          (setCurrentNonces
             (<[fnIDToMonitor := Int64.add (nonceAt st fnIDToMonitor) 1]> (CurrentNonces st))
             st))).

(** The state a timed-out vote set leaves behind. *)
Definition timedOut (st : ReactorState.t) (fnIDToMonitor : string)
    (currentVoteSet : FnVoteSet.t) : ReactorState.t :=
  setCurrentVoteSets (delete fnIDToMonitor (CurrentVoteSets st))
    (setPreviousTimedOutVoteSets
       (<[fnIDToMonitor := currentVoteSet]> (PreviousTimedOutVoteSets st)) st).

(** The closing [SaveReactorState]: its failure is only logged. *)
Definition saveAndReturn (f : FnConsensusReactor) (st : ReactorState.t)
    (evs : list Event) : Run (FnConsensusReactor * list Event) :=
  Ret (setState st f, evs ++ [CallSaveReactorState st]).

Definition submitEvent (fnID : string) (vs : FnVoteSet.t) : Event :=
  CallSubmitMultiSignedMessage fnID (FnVoteSet.ExecutionContext vs)
    (Hash (Response (FnVoteSet.Payload vs)))
    (OracleSignatures (Response (FnVoteSet.Payload vs))).

Definition handleCommit (f : FnConsensusReactor) (fnIDToMonitor : string)
    : Run (FnConsensusReactor * list Event) :=
  match fnRegistry f !! fnIDToMonitor with
  | None => Ret (f, [])
  | Some fn =>
      let currentValidators := getValidatorSet f in
      let '(areWeValidator, ownValidatorIndex) := areWeValidator f currentValidators in
      st ← theState f;
      match CurrentVoteSets st !! fnIDToMonitor with
      | None => Panic          (* the validity check reads through a nil vote set *)
      | Some currentVoteSet =>
          let currentNonce := nonceAt st fnIDToMonitor in
          if negb (FnVoteSet.IsValid currentVoteSet (chainID f) MaxContextSize true ExpiresIn
                     currentValidators (fnRegistry f))
          then Ret (f, [])
          else
            th ← theThreshold f;
            if negb (FnVoteSet.HasConverged currentVoteSet th currentValidators)
            then
              let st' := timedOut st fnIDToMonitor currentVoteSet in
              match PreviousMaj23VoteSets st' !! fnIDToMonitor with
              | Some previousMaj23VoteSet =>
                  match FnVoteSet.Marshal previousMaj23VoteSet with
                  | None => Ret (setState st' f, [])
                  | Some marshalledBytes =>
                      saveAndReturn f st' (broadcast f None FnMaj23Channel marshalledBytes)
                  end
              | None => saveAndReturn f st' []
              end
            else
              let st' := committed st fnIDToMonitor currentVoteSet currentValidators in
              if areWeValidator && FnVoteSet.IsAgree currentVoteSet th currentValidators
              then
                let numberOfAgreeVotes := FnVoteSet.NumberOfAgreeVotes currentVoteSet in
                match FnVoteSet.GetAgreeVoteIndexForValidatorIndex currentVoteSet
                        ownValidatorIndex with
                | None => Ret (f, [])
                | Some agreeVoteIndex =>
                    if numberOfAgreeVotes =? 0 then Panic      (* integer divide by zero *)
                    else if Int64.rem currentNonce numberOfAgreeVotes =? agreeVoteIndex
                    then saveAndReturn f st' [submitEvent fnIDToMonitor currentVoteSet]
                    else saveAndReturn f st' []
                end
              else saveAndReturn f st' []
      end
  end.

(** *** Comparing the remote vote set with the current one *)

Definition compareVoteSets (f : FnConsensusReactor) (remoteVoteSet : FnVoteSet.t)
    (currentVoteSet : option FnVoteSet.t) (currentNonce : Z)
    (currentValidators : list Validator) : Run Z :=
  match currentVoteSet with
  | None =>
      if currentNonce =? FnVoteSet.Nonce remoteVoteSet then Ret 1
      else
        th ← theThreshold f;
        if FnVoteSet.HasConverged remoteVoteSet th currentValidators then Ret 1 else Ret (-1)
  | Some currentVoteSet =>
      if bool_decide (FnVoteSet.ID currentVoteSet = FnVoteSet.ID remoteVoteSet) then Ret 0
      else
        th ← theThreshold f;
        let currentVoteSetMaj23Agree := FnVoteSet.IsAgree currentVoteSet th currentValidators in
        let currentVoteSetMaj23Disagree :=
          FnVoteSet.IsDisagree currentVoteSet th currentValidators in
        let currentVoteSetMaj23 := currentVoteSetMaj23Agree || currentVoteSetMaj23Disagree in
        let remoteVoteSetMaj23Agree := FnVoteSet.IsAgree remoteVoteSet th currentValidators in
        let remoteVoteSetMaj23Disagree :=
          FnVoteSet.IsDisagree remoteVoteSet th currentValidators in
        let remoteVoteSetMaj23 := remoteVoteSetMaj23Agree || remoteVoteSetMaj23Disagree in
        if currentVoteSetMaj23 && negb remoteVoteSetMaj23 then Ret (-1)
        else if negb currentVoteSetMaj23 && remoteVoteSetMaj23 then Ret 1
        else if negb currentVoteSetMaj23 && negb remoteVoteSetMaj23 then Ret (-1)
        else if currentVoteSetMaj23Agree && negb remoteVoteSetMaj23Agree then Ret (-1)
        else if negb currentVoteSetMaj23Agree && remoteVoteSetMaj23Agree then Ret 1
        else if negb currentVoteSetMaj23Agree && negb remoteVoteSetMaj23Agree then Ret (-1)
        else
          let currentNumberOfVotes := FnVoteSet.NumberOfVotes currentVoteSet in
          let currentNumberOfAgreeVotes := FnVoteSet.NumberOfAgreeVotes currentVoteSet in
          let remoteNumberOfVotes := FnVoteSet.NumberOfVotes remoteVoteSet in
          let remoteNumberOfAgreeVotes := FnVoteSet.NumberOfAgreeVotes remoteVoteSet in
          if remoteNumberOfVotes <? currentNumberOfVotes then Ret (-1)
          else if remoteNumberOfVotes >? currentNumberOfVotes then Ret 1
          else if remoteNumberOfAgreeVotes <? currentNumberOfAgreeVotes then Ret (-1)
          else if remoteNumberOfAgreeVotes >? currentNumberOfAgreeVotes then Ret 1
          else if FnVoteSet.CreationTime currentVoteSet >? FnVoteSet.CreationTime remoteVoteSet
          then Ret (-1)
          else if FnVoteSet.CreationTime currentVoteSet <? FnVoteSet.CreationTime remoteVoteSet
          then Ret 1
          else Ret (-1)
  end.

(** *** The Maj23 channel *)

Definition installMaj23 (st : ReactorState.t) (remoteFnID : string)
    (remoteMaj23VoteSet : FnVoteSet.t) (signedBy : list Validator) : ReactorState.t :=
  setCurrentProposalInfo
    (<[remoteFnID := FnVoteSet.ProposalInfo remoteMaj23VoteSet]> (CurrentProposalInfo st))
    (setPreviousValidatorSet (Some signedBy)
       (setPreviousMaj23VoteSets
          (<[remoteFnID := remoteMaj23VoteSet]> (PreviousMaj23VoteSets st)) st)).

Definition handleMaj23VoteSetChannel (f : FnConsensusReactor) (sender : string)
    (msgBytes : bytes) : Run (FnConsensusReactor * list Event) :=
  let currentValidatorSet := getValidatorSet f in
  st ← theState f;
  let previousValidatorSet := PreviousValidatorSet st in
  match FnVoteSet.Unmarshal msgBytes with
  | None => Ret (f, [])
  | Some remoteMaj23VoteSet =>
      let validFor vals :=
        FnVoteSet.IsValid remoteMaj23VoteSet (chainID f) MaxContextSize false ExpiresInForSync
          vals (fnRegistry f) in
      let signedBy : option (list Validator) :=
        if validFor currentValidatorSet then Some currentValidatorSet
        else match previousValidatorSet with
             | Some prev => if validFor prev then Some prev else None
             | None => None
             end in
      match signedBy with
      | None => Ret (f, [])
      | Some validatorSetWhichSignedRemoteVoteSet =>
          let remoteFnID := FnVoteSet.GetFnID remoteMaj23VoteSet in
          let currentNonce := default 1 (CurrentNonces st !! remoteFnID) in
          let currentMaj23VoteSet := PreviousMaj23VoteSets st !! remoteFnID in
          if negb (FnVoteSet.IsExpired remoteMaj23VoteSet ExpiresIn) then Ret (f, [])
          else
            th ← theThreshold f;
            if negb (FnVoteSet.HasConverged remoteMaj23VoteSet th
                       validatorSetWhichSignedRemoteVoteSet)
            then Ret (f, [])
            else
              let '(st', needToBroadcast) :=
                if FnVoteSet.Nonce remoteMaj23VoteSet <? currentNonce
                then
                  if (FnVoteSet.Nonce remoteMaj23VoteSet =? Int64.sub currentNonce 1)
                     && bool_decide (currentMaj23VoteSet = None)
                  then (installMaj23 st remoteFnID remoteMaj23VoteSet
                          validatorSetWhichSignedRemoteVoteSet, false)
                  else (st, false)
                else
                  (setCurrentNonces
                     (<[remoteFnID := Int64.add (FnVoteSet.Nonce remoteMaj23VoteSet) 1]>
                        (CurrentNonces st))
                     (installMaj23 st remoteFnID remoteMaj23VoteSet
                        validatorSetWhichSignedRemoteVoteSet), true) in
              if negb (SaveReactorState st')
              then Ret (setState st' f, [CallSaveReactorState st'])
              else if negb needToBroadcast
              then Ret (setState st' f, [CallSaveReactorState st'])
              else
                match FnVoteSet.Marshal remoteMaj23VoteSet with
                | None => Ret (setState st' f, [CallSaveReactorState st'])
                | Some marshalledBytes =>
                    Ret (setState st' f,
                         CallSaveReactorState st'
                         :: broadcast f None FnMaj23Channel marshalledBytes)
                end
      end
  end.

(** *** The vote-set channel *)

Definition commitDeadline (vs : FnVoteSet.t) : Z :=
  FnVoteSet.CreationTime vs * Second + (ExpiresInForSync + CommitRoutineExecutionBuffer).

(** What the handler carries from the comparison to the gossip: the
    reactor, the current vote set (an alias of the one in the state), the
    current nonce, the two flags and the calls made so far. *)
Record Decided := {
  d_reactor : FnConsensusReactor;
  d_state : ReactorState.t;
  d_currentVoteSet : FnVoteSet.t;
  d_currentNonce : Z;
  d_didWeContribute : bool;
  d_hasOurVoteSetChanged : bool;
  d_events : list Event
}.

(** The switch on the result of [compareVoteSets]: [inl] is an early
    return of the handler, [inr] goes on to the vote. *)
Definition decide_switch (f : FnConsensusReactor) (st : ReactorState.t) (fnID : string)
    (remoteVoteSet : FnVoteSet.t) (currentVoteSet : option FnVoteSet.t)
    (currentNonce : Z) (currentValidators : list Validator) (cmp : Z)
    : Run ((FnConsensusReactor * list Event) + Decided) :=
  if cmp =? 0 then
    match CurrentVoteSets st !! fnID with
    | None => Panic
    | Some ours =>
        match FnVoteSet.Merge ours currentValidators remoteVoteSet with
        | None => Ret (inl (setState st f, []))
        | Some (didWeContribute, merged) =>
            let st' := setCurrentVoteSets (<[fnID := merged]> (CurrentVoteSets st)) st in
            Ret (inr {| d_reactor := f; d_state := st'; d_currentVoteSet := merged;
                        d_currentNonce := nonceAt st' fnID;
                        d_didWeContribute := didWeContribute;
                        d_hasOurVoteSetChanged := didWeContribute;
                        d_events := [] |})
        end
    end
  else if cmp =? 1 then
    closed ← match currentVoteSet with
             | Some _ =>
                 if bool_decide (fnID ∈ commitRoutineQuitCh f)
                 then Ret [CloseQuitCh fnID]
                 else Panic      (* close of a nil channel *)
             | None => Ret []
             end;
    let st' :=
      setCurrentProposalInfo
        (<[fnID := FnVoteSet.ProposalInfo remoteVoteSet]> (CurrentProposalInfo st))
        (setCurrentNonces (<[fnID := FnVoteSet.Nonce remoteVoteSet]> (CurrentNonces st))
           (setCurrentVoteSets (<[fnID := remoteVoteSet]> (CurrentVoteSets st)) st)) in
    Ret (inr {| d_reactor := setQuitCh ({[fnID]} ∪ commitRoutineQuitCh f) f;
                d_state := st'; d_currentVoteSet := remoteVoteSet;
                d_currentNonce := nonceAt st' fnID;
                d_didWeContribute := false;
                d_hasOurVoteSetChanged := true;
                d_events := closed ++ [GoCommitRoutine fnID (commitDeadline remoteVoteSet)] |})
  else if cmp =? -1 then
    match currentVoteSet with
    | None => Ret (inl (setState st f, []))
    | Some ours =>
        Ret (inr {| d_reactor := f; d_state := st; d_currentVoteSet := ours;
                    d_currentNonce := currentNonce;
                    d_didWeContribute := false; d_hasOurVoteSetChanged := false;
                    d_events := [] |})
    end
  else
    match currentVoteSet with
    | None => Panic
    | Some ours =>
        Ret (inr {| d_reactor := f; d_state := st; d_currentVoteSet := ours;
                    d_currentNonce := currentNonce;
                    d_didWeContribute := false; d_hasOurVoteSetChanged := false;
                    d_events := [] |})
    end.

Definition stopped (d : Decided) (evs : list Event)
    : Run ((FnConsensusReactor * list Event) + Decided) :=
  Ret (inl (setState (d_state d) (d_reactor d), d_events d ++ evs)).

(** The node's own vote, added when it is a validator that has not signed
    the current vote set yet.  The vote set is shared with the state, so
    the vote lands in [CurrentVoteSets]. *)
Definition addOwnVote (fnID : string) (currentValidators : list Validator)
    (areWeValidator : bool) (ownValidatorIndex : Z) (d : Decided)
    : Run ((FnConsensusReactor * list Event) + Decided) :=
  let f := d_reactor d in
  let currentVoteSet := d_currentVoteSet d in
  if areWeValidator && negb (FnVoteSet.HaveWeAlreadySigned currentVoteSet ownValidatorIndex)
  then
    match fnRegistry f !! fnID with
    | None => Panic                 (* method call on a nil callback object *)
    | Some fn =>
        match GetMessageAndSignature fn (FnVoteSet.ExecutionContext currentVoteSet) with
        | None => stopped d []
        | Some (message, signature) =>
            let hash := calculateMessageHash message in
            let areWeAgreed := bytes_Equal (FnVoteSet.GetMessageHash currentVoteSet) hash in
            let mapped :=
              CallMapMessage fnID (FnVoteSet.ExecutionContext currentVoteSet) hash message in
            if negb (MapMessage fn (FnVoteSet.ExecutionContext currentVoteSet) hash message)
            then stopped d [mapped]
            else
              let added :=
                if areWeAgreed
                then FnVoteSet.AddVote currentVoteSet (d_currentNonce d)
                       {| ind_Status := 0; ind_Error := ""; ind_Hash := hash;
                          ind_OracleSignature := signature |}
                       currentValidators ownValidatorIndex VoteTypeAgree (privValidator f)
                else FnVoteSet.AddVote currentVoteSet (d_currentNonce d)
                       {| ind_Status := 0; ind_Error := ""; ind_Hash := hash;
                          ind_OracleSignature := [] |}
                       currentValidators ownValidatorIndex VoteTypeDisAgree (privValidator f) in
              match added with
              | None => stopped d [mapped]
              | Some voted =>
                  Ret (inr {| d_reactor := f;
                              d_state :=
                                setCurrentVoteSets
                                  (<[fnID := voted]> (CurrentVoteSets (d_state d)))
                                  (d_state d);
                              d_currentVoteSet := voted;
                              d_currentNonce := d_currentNonce d;
                              d_didWeContribute := true;
                              d_hasOurVoteSetChanged := true;
                              d_events := d_events d ++ [mapped] |})
              end
        end
    end
  else Ret (inr d).

(** The closing gossip: nothing when the vote set did not change; all the
    peers otherwise, but for the sender when [didWeContribute] is false. *)
Definition gossip (fnID : string) (sender : string) (d : Decided)
    : FnConsensusReactor * list Event :=
  let f := setState (d_state d) (d_reactor d) in
  if negb (d_hasOurVoteSetChanged d) then (f, d_events d)
  else
    match FnVoteSet.Marshal (d_currentVoteSet d) with
    | None => (f, d_events d)
    | Some marshalledBytes =>
        (f, d_events d
            ++ broadcast f (if negb (d_didWeContribute d) then Some sender else None)
                 FnVoteSetChannel marshalledBytes)
    end.

Definition handleVoteSetChannelMessage (f : FnConsensusReactor) (sender : string)
    (msgBytes : bytes) : Run (FnConsensusReactor * list Event) :=
  let currentValidators := getValidatorSet f in
  let '(areWeValidator, ownValidatorIndex) := areWeValidator f currentValidators in
  match FnVoteSet.Unmarshal msgBytes with
  | None => Ret (f, [])
  | Some remoteVoteSet =>
      if negb (FnVoteSet.IsValid remoteVoteSet (chainID f) MaxContextSize true ExpiresInForSync
                 currentValidators (fnRegistry f))
      then Ret (f, [])
      else
        let fnID := FnVoteSet.GetFnID remoteVoteSet in
        st0 ← theState f;
        let '(currentNonce, st) :=
          match CurrentNonces st0 !! fnID with
          | Some n => (n, st0)
          | None => (1, setCurrentNonces (<[fnID := 1]> (CurrentNonces st0)) st0)
          end in
        let currentVoteSet := CurrentVoteSets st !! fnID in
        if negb (currentNonce =? FnVoteSet.Nonce remoteVoteSet)
           && (currentNonce >? FnVoteSet.Nonce remoteVoteSet)
        then Ret (setState st f, [])
        else
          cmp ← compareVoteSets f remoteVoteSet currentVoteSet currentNonce currentValidators;
          r ← decide_switch f st fnID remoteVoteSet currentVoteSet currentNonce
                currentValidators cmp;
          match r with
          | inl out => Ret out
          | inr d =>
              r' ← addOwnVote fnID currentValidators areWeValidator ownValidatorIndex d;
              match r' with
              | inl out => Ret out
              | inr d' => Ret (gossip fnID sender d')
              end
          end
  end.

(** *** Proposing *)

Definition propose (f : FnConsensusReactor) (fnID : string) (fn : Fn)
    (currentValidators : list Validator) (currentProposalInfo : option ProposalInfo.t)
    (validatorIndex : Z) : Run (FnConsensusReactor * list Event) :=
  match PrepareContext fn with
  | None => Ret (f, [])
  | Some (shouldExecuteFn, ctx) =>
      if Z.of_nat (length ctx) >? MaxContextSize then Ret (f, [])
      else if negb shouldExecuteFn then Ret (f, [])
      else
        match GetMessageAndSignature fn ctx with
        | None => Ret (f, [])
        | Some (message, signature) =>
            let hash := calculateMessageHash message in
            let mapped := CallMapMessage fnID ctx hash message in
            if negb (MapMessage fn ctx hash message) then Ret (f, [mapped])
            else
              match NewFnExecutionRequest fnID (fnRegistry f) with
              | None => Ret (f, [mapped])
              | Some executionRequest =>
                  let executionResponse :=
                    NewFnExecutionResponse
                      {| ind_Status := 0; ind_Error := ""; ind_Hash := hash;
                         ind_OracleSignature := signature |}
                      validatorIndex currentValidators in
                  let votesetPayload := NewFnVotePayload executionRequest executionResponse in
                  st ← theState f;
                  let currentNonce := default 1 (CurrentNonces st !! fnID) in
                  match NewVoteSetID with
                  | None => Ret (f, [mapped])
                  | Some newVoteSetID =>
                      match FnVoteSet.NewVoteSet newVoteSetID currentNonce (chainID f)
                              ExpiresIn validatorIndex ctx votesetPayload (privValidator f)
                              currentValidators currentProposalInfo with
                      | None => Ret (f, [mapped])
                      | Some voteSet =>
                          th ← theThreshold f;
                          if FnVoteSet.IsAgree voteSet th currentValidators
                          then
                            Ret (f, [mapped;
                                     CallSubmitMultiSignedMessage fnID ctx
                                       (Hash (Response (FnVoteSet.Payload voteSet)))
                                       (OracleSignatures
                                          (Response (FnVoteSet.Payload voteSet)))])
                          else
                            let st' :=
                              setCurrentVoteSets (<[fnID := voteSet]> (CurrentVoteSets st)) st in
                            let f' :=
                              setState st' (setQuitCh ({[fnID]} ∪ commitRoutineQuitCh f) f) in
                            let started :=
                              [mapped; GoCommitRoutine fnID (commitDeadline voteSet);
                               CallSaveReactorState st'] in
                            if negb (SaveReactorState st') then Ret (f', started)
                            else
                              match FnVoteSet.Marshal voteSet with
                              | None => Ret (f', started)
                              | Some marshalledBytes =>
                                  Ret (f', started
                                           ++ broadcast f' None FnVoteSetChannel marshalledBytes)
                              end
                      end
                  end
              end
        end
  end.

End reactor.

(** ** The rest of the reactor: channels, peers, timers, validator override *)

Definition VoteSetIDSize : Z := 32.
Definition maxMsgSize : Z := 1000 * 1024.
Definition BaseProposalDelay : Z := 500 * Millisecond.
Definition ProgressLoopStartDelay : Z := 2 * Second.

(** Multiplication of two [int64] (or [time.Duration]) values. *)
Definition mul64 (a b : Z) : Z := Int64.wrap (a * b).

Record ChannelDescriptor := {
  ch_ID : Z;
  ch_Priority : Z;
  ch_SendQueueCapacity : Z;
  ch_RecvMessageCapacity : Z
}.

Definition GetChannels : list ChannelDescriptor :=
  [ {| ch_ID := FnMaj23Channel; ch_Priority := 20;
       ch_SendQueueCapacity := 100; ch_RecvMessageCapacity := maxMsgSize |};
    {| ch_ID := FnVoteSetChannel; ch_Priority := 25;
       ch_SendQueueCapacity := 100; ch_RecvMessageCapacity := maxMsgSize |};
    {| ch_ID := FnProposalInfoSyncChannel; ch_Priority := 30;
       ch_SendQueueCapacity := 100; ch_RecvMessageCapacity := maxMsgSize |} ].

Definition setPeers (peers : gset string) (f : FnConsensusReactor) : FnConsensusReactor :=
  {| connectedPeers := peers; state := state f; chainID := chainID f;
     fnRegistry := fnRegistry f; privValidator := privValidator f;
     commitRoutineQuitCh := commitRoutineQuitCh f;
     staticValidators := staticValidators f; tmValidators := tmValidators f;
     cfg := cfg f |}.


(** The event is a step local to the node: a quit channel closed, a commit
    routine started, a message mapped. *)
Definition isLocalStep (e : Event) : Prop :=
  match e with
  | CloseQuitCh _ | GoCommitRoutine _ _ | CallMapMessage _ _ _ _ => True
  | _ => False
  end.

(** [f.connectedPeers[peer.ID()] = peer]: the map is keyed by the peer ID. *)
Definition AddPeer (f : FnConsensusReactor) (peer : string) : FnConsensusReactor :=
  setPeers ({[ peer ]} ∪ connectedPeers f) f.

(** [delete(f.connectedPeers, peer.ID())] *)
Definition RemovePeer (f : FnConsensusReactor) (peer : string) : FnConsensusReactor :=
  setPeers (connectedPeers f ∖ {[ peer ]}) f.

(** [hex.EncodeToString]: two lower-case digits per byte, high nibble first. *)
Definition hextable : string := "0123456789abcdef".

Definition hexDigit (n : N) : Ascii.ascii :=
  default Ascii.zero (String.get (N.to_nat n) hextable).

Fixpoint EncodeToString (src : bytes) : string :=
  match src with
  | [] => EmptyString
  | b :: rest =>
      String (hexDigit (N.shiftr (Byte.to_N b) 4))
        (String (hexDigit (N.land (Byte.to_N b) 15)) (EncodeToString rest))
  end.

(** [generateVoteSetID]; [randRead n] is [rand.Read] on a buffer of [n]
    bytes: the filled buffer, or [None] for an error. *)
Definition generateVoteSetID (randRead : Z -> option bytes) : option string :=
  match randRead VoteSetIDSize with
  | None => None
  | Some randomBytes => Some (EncodeToString randomBytes)
  end.

(** [sort.Strings]: ascending, byte by byte. *)
Definition stringLe (a b : string) : Prop := String.leb a b = true.

#[global] Instance stringLe_dec (a b : string) : Decision (stringLe a b).
Proof. unfold stringLe. apply _. Defined.

Definition sortStrings (l : list string) : list string := merge_sort stringLe l.

Section rest.
Context `{FnVoteSet.Env} `{Host}.

Import ReactorState.

(** [time.Now().Unix()] is the clock in whole seconds. *)
Definition calculateProgressRoutineSleepTime (areWeValidator : bool) (ownValidatorIndex : Z)
    : Z :=
  let currentEpochTime := FnVoteSet.Now / Second in
  let baseTimeToSleep :=
    Int64.sub ProgressIntervalInSeconds
      (Int64.rem currentEpochTime ProgressIntervalInSeconds) in
  if negb areWeValidator
  then Int64.add (mul64 baseTimeToSleep Second) BaseProposalDelay
  else Int64.add (mul64 baseTimeToSleep Second)
         (mul64 (Int64.add ownValidatorIndex 1) BaseProposalDelay).




(** One step of the loop of the tick, with the list of the FnIDs eligible
    for a proposal. *)
Definition progressLoopStep (currentValidators : list Validator)
    (acc : ReactorState.t * list string) (fnID : string) : ReactorState.t * list string :=
  let '(st', eligible) := progressStep currentValidators acc.1 fnID in
  (st', if eligible then acc.2 ++ [fnID] else acc.2).

(** The part of a tick of [progressRoutine] that runs under the state
    mutex: the loop over the sorted FnIDs, then the save.  The list is that
    of the FnIDs to propose for, empty when the save failed. *)
Definition progressTickLocked (f : FnConsensusReactor)
    : Run (FnConsensusReactor * list string * list Event) :=
  let currentValidators := getValidatorSet f in
  st ← theState f;
  let fnIDs := sortStrings (elements (dom (fnRegistry f))) in
  let '(st', fnsEligibleForProposal) :=
    foldl (progressLoopStep currentValidators) (st, []) fnIDs in
  if SaveReactorState st'
  then Ret (setState st' f, fnsEligibleForProposal, [CallSaveReactorState st'])
  else Ret (setState st' f, [], [CallSaveReactorState st']).

(** [commitRoutine]: the quit channel or the timer, whichever comes first. *)
Definition commitRoutine (f : FnConsensusReactor) (fnIDToMonitor : string)
    (timerFired : bool) : Run (FnConsensusReactor * list Event) :=
  if timerFired then handleCommit f fnIDToMonitor else Ret (f, []).

Definition Receive (f : FnConsensusReactor) (chID : Z) (sender : string) (msgBytes : bytes)
    : Run (FnConsensusReactor * list Event) :=
  if chID =? FnVoteSetChannel then handleVoteSetChannelMessage f sender msgBytes
  else if chID =? FnMaj23Channel then handleMaj23VoteSetChannel f sender msgBytes
  else Ret (f, []).

End rest.

(** ** The tie-break as the specification words it

    Votes first, then Agree votes, then the older [CreationTime]; the local
    vote set on an exact tie.  Kept apart from [compareVoteSets] to be
    compared with it. *)
Definition tieBreakOlderWins (remote current : FnVoteSet.t) : Z :=
  if FnVoteSet.NumberOfVotes remote >? FnVoteSet.NumberOfVotes current then 1
  else if FnVoteSet.NumberOfVotes remote <? FnVoteSet.NumberOfVotes current then -1
  else if FnVoteSet.NumberOfAgreeVotes remote >? FnVoteSet.NumberOfAgreeVotes current then 1
  else if FnVoteSet.NumberOfAgreeVotes remote <? FnVoteSet.NumberOfAgreeVotes current then -1
  else if FnVoteSet.CreationTime remote <? FnVoteSet.CreationTime current then 1
  else -1.

(** ** Fixtures: a concrete host for the worked runs *)

Module Fixture.

Definition chain : string := "chain".

Definition b (n : N) : bytes := [default Byte.x00 (Byte.of_N n)].

Definition validator (n : N) (power : Z) : Validator :=
  {| Address := b n; VotingPower := power |}.

(** A host whose hash of a validator set is the list of its addresses,
    whose signatures always verify and whose codec hands out [wire]. *)
Definition env (now : Z) (wire : option FnVoteSet.t) : FnVoteSet.Env :=
  {| FnVoteSet.Now := now;
     FnVoteSet.ValidatorSetHash := fun vals => mjoin (Address <$> vals);
     FnVoteSet.CanonicalSignBytes := fun _ _ => [];
     FnVoteSet.VerifySignature := fun _ _ _ => true;
     FnVoteSet.ActiveValidators := fun _ => [b 1; b 2; b 3];
     FnVoteSet.Marshal := fun vs => Some (b 0);
     FnVoteSet.Unmarshal := fun _ => wire |}.

Definition host (loaded : option ReactorState.t) : Host :=
  {| SHA512 := fun m => m;
     NewVoteSetID := Some "fresh";
     LoadReactorState := loaded;
     SaveReactorState := fun _ => true |}.

Definition fn : Fn :=
  {| PrepareContext := Some (true, b 7);
     GetMessageAndSignature := fun _ => Some (b 170, b 187);
     MapMessage := fun _ _ _ => true |}.

Definition registry : FnRegistry := {[ "f" := fn ]}.

Definition signer (n : N) : PrivValidator :=
  {| GetAddress := b n; SignBytes := fun _ => Some (b n) |}.

Definition three : list Validator := [validator 1 1; validator 2 1; validator 3 1].
Definition four : list Validator := three ++ [validator 4 1].

Definition voteSet (id : string) (nonce created : Z) (vals : list Validator)
    (votes : list VoteType) : FnVoteSet.t :=
  {| FnVoteSet.ID := id; FnVoteSet.Nonce := nonce; FnVoteSet.ChainID := chain;
     FnVoteSet.CreationTime := created; FnVoteSet.ExpiresIn := ExpiresIn;
     FnVoteSet.ValidatorsHash := mjoin (Address <$> vals);
     FnVoteSet.ExecutionContext := b 7;
     FnVoteSet.Payload :=
       {| Request := "f";
          Response := {| Status := 0; Error := ""; Hash := b 170;
                         OracleSignatures :=
                           (fun v => if bool_decide (v = VoteTypeAgree) then b 187 else [])
                             <$> votes |} |};
     FnVoteSet.VoteTypes := votes;
     FnVoteSet.ValidatorSignatures := (fun _ => b 9) <$> votes;
     FnVoteSet.ProposalInfo := None |}.

Definition reactor (self : N) (vals : list Validator) (th : SigningThreshold)
    (peers : gset string) (quit : gset string) (st : ReactorState.t) : FnConsensusReactor :=
  {| connectedPeers := peers; state := Some st; chainID := chain;
     fnRegistry := registry; privValidator := signer self;
     commitRoutineQuitCh := quit; staticValidators := None; tmValidators := vals;
     cfg := Some {| ReactorConfig.OverrideValidatorSet := None;
                    ReactorConfig.FnVoteSigningThreshold := th |} |}.

Definition withCurrent (fnID : string) (vs : FnVoteSet.t) (nonce : Z) : ReactorState.t :=
  ReactorState.setCurrentNonces {[ fnID := nonce ]}
    (ReactorState.setCurrentVoteSets {[ fnID := vs ]} ReactorState.empty).

(** A state whose last committed vote set and rotation cursor agree on the
    three active validators, the cursor standing at turn 0. *)
Definition rotating : ReactorState.t :=
  ReactorState.setCurrentProposalInfo
    {[ "f" := Some {| ProposalInfo.LastActiveValidators := [b 1; b 2; b 3];
                      ProposalInfo.CurrentTurn := 0 |} ]}
    (ReactorState.setPreviousMaj23VoteSets
       {[ "f" := voteSet "a" 1 0 three [VoteTypeAgree; VoteTypeAgree; VoteTypeAgree] ]}
       ReactorState.empty).

End Fixture.

(** ** Configuration *)

Lemma IsValid_inverted (c : ReactorConfig.t) :
  ReactorConfig.IsValid (Some c) = true <->
  ReactorConfig.FnVoteSigningThreshold c <> AllSigningThreshold /\
  ReactorConfig.FnVoteSigningThreshold c <> Maj23SigningThreshold.
Proof.
  unfold ReactorConfig.IsValid.
  rewrite andb_true_iff, !negb_true_iff, !bool_decide_eq_false. tauto.
Qed.

(** C2 (the code departs from the claim).  The constructor returns
    [ErrInvalidReactorConfiguration] exactly when the threshold IS one of
    the two named constants, and builds a reactor for any other value: the
    polarity of [ReactorConfig.IsValid] is the reverse of the stated one.
    In particular a configuration with threshold "Maj23" is refused. *)
Theorem NewFnConsensusReactor_refuses_named_thresholds
    (chainID : string) (pv : PrivValidator) (reg : FnRegistry)
    (vals : list Validator) (c : ReactorConfig.t) :
  (NewFnConsensusReactor chainID pv reg vals (Some c) = inr ErrInvalidReactorConfiguration
   <-> ReactorConfig.FnVoteSigningThreshold c = AllSigningThreshold
       \/ ReactorConfig.FnVoteSigningThreshold c = Maj23SigningThreshold)
  /\ NewFnConsensusReactor chainID pv reg vals
       (Some {| ReactorConfig.OverrideValidatorSet := ReactorConfig.OverrideValidatorSet c;
                ReactorConfig.FnVoteSigningThreshold := Maj23SigningThreshold |})
     = inr ErrInvalidReactorConfiguration.
Proof.
  split; [|reflexivity].
  unfold NewFnConsensusReactor.
  destruct (ReactorConfig.IsValid (Some c)) eqn:E; simpl.
  - apply IsValid_inverted in E as [? ?]. split; [discriminate | tauto].
  - split; [|reflexivity]. intros _.
    destruct (decide (ReactorConfig.FnVoteSigningThreshold c = AllSigningThreshold)); [tauto|].
    destruct (decide (ReactorConfig.FnVoteSigningThreshold c = Maj23SigningThreshold)); [tauto|].
    assert (ReactorConfig.IsValid (Some c) = true) by (apply IsValid_inverted; tauto).
    congruence.
Qed.

(** ** Proposer rotation *)

Section rotation.
Context `{FnVoteSet.Env}.

Lemma sameAddresses_refl (l : list bytes) : sameAddresses l l = true.
Proof.
  induction l as [|x l IH]; simpl; [reflexivity|].
  unfold bytes_Equal. rewrite bool_decide_eq_true_2 by reflexivity. exact IH.
Qed.

(** C3 (the code departs from the claim).  With a previous Maj23 vote set
    bound to the current validator set and an unchanged active-validator
    list, the turn is compared with the length of the list of the freshly
    allocated result, which is empty: the function returns an EMPTY
    lastActiveValidators list and turn 0, not the stored list with the
    turn advanced modulo its length. *)
Theorem getNextProposalInfo_unchanged_list_is_dropped
    (fnID : string) (st : ReactorState.t) (vals : list Validator)
    (last : FnVoteSet.t) (cpi : ProposalInfo.t) :
  ReactorState.PreviousMaj23VoteSets st !! fnID = Some last ->
  FnVoteSet.ValidatorsHash last = FnVoteSet.ValidatorSetHash vals ->
  ReactorState.proposalInfoAt st fnID = Some cpi ->
  FnVoteSet.ActiveValidators last = ProposalInfo.LastActiveValidators cpi ->
  -1 <= ProposalInfo.CurrentTurn cpi < Int64.max_int ->
  getNextProposalInfo fnID st vals
  = Some {| ProposalInfo.LastActiveValidators := [];
            ProposalInfo.CurrentTurn := 0 |}.
Proof.
  intros Hlast Hhash Hcpi Hact Hturn.
  unfold getNextProposalInfo. rewrite Hlast, Hcpi, Hhash, Hact.
  unfold bytes_Equal at 1. rewrite bool_decide_eq_true_2 by reflexivity. simpl.
  rewrite Nat.eqb_refl, sameAddresses_refl. simpl.
  assert (Hadd : Int64.add (ProposalInfo.CurrentTurn cpi) 1 = ProposalInfo.CurrentTurn cpi + 1).
  { unfold Int64.add, Int64.wrap, Int64.max_int in *.
    rewrite Z.mod_small by lia. lia. }
  rewrite Hadd. change (Z.of_nat 0) with 0.
  assert (E : (ProposalInfo.CurrentTurn cpi + 1 >=? 0) = true)
    by (rewrite Z.geb_leb; apply Z.leb_le; lia).
  rewrite E. reflexivity.
Qed.

End rotation.

(** The stored list is [b 1; b 2; b 3] and the stored turn is 0: the
    claimed result is that list with turn 1, the code returns the empty
    list with turn 0. *)
Lemma getNextProposalInfo_unchanged_list_is_dropped_witness :
  getNextProposalInfo (H := Fixture.env 0 None) "f" Fixture.rotating Fixture.three
  = Some {| ProposalInfo.LastActiveValidators := [];
            ProposalInfo.CurrentTurn := 0 |}.
Proof.
  apply (getNextProposalInfo_unchanged_list_is_dropped (H := Fixture.env 0 None)
           "f" Fixture.rotating Fixture.three
           (Fixture.voteSet "a" 1 0 Fixture.three [VoteTypeAgree; VoteTypeAgree; VoteTypeAgree])
           {| ProposalInfo.LastActiveValidators := [Fixture.b 1; Fixture.b 2; Fixture.b 3];
              ProposalInfo.CurrentTurn := 0 |}).
  - reflexivity.
  - reflexivity.
  - reflexivity.
  - reflexivity.
  - unfold Int64.max_int. simpl. lia.
Defined.

(** ** Comparing vote sets *)

Section compare.
Context `{FnVoteSet.Env}.

(** C5 (amended).  For two vote sets with different IDs that both meet
    the threshold: when both meet the Agree threshold the winner is the one
    with more votes, then the one with more Agree votes, then the one with
    the NEWER CreationTime, and the local one on an exact tie; when neither
    meets the Agree threshold the local one is kept whatever the counts. *)
Theorem compareVoteSets_threshold_met
    (f : FnConsensusReactor) (c : ReactorConfig.t)
    (remote current : FnVoteSet.t) (currentNonce : Z) (vals : list Validator) :
  cfg f = Some c ->
  FnVoteSet.ID current <> FnVoteSet.ID remote ->
  let th := ReactorConfig.FnVoteSigningThreshold c in
  let result := compareVoteSets f remote (Some current) currentNonce vals in
  FnVoteSet.IsAgree current th vals || FnVoteSet.IsDisagree current th vals = true ->
  FnVoteSet.IsAgree remote th vals || FnVoteSet.IsDisagree remote th vals = true ->
  (FnVoteSet.IsAgree current th vals = false ->
   FnVoteSet.IsAgree remote th vals = false -> result = Ret (-1))
  /\ (FnVoteSet.IsAgree current th vals = true ->
      FnVoteSet.IsAgree remote th vals = true ->
      (FnVoteSet.NumberOfVotes remote > FnVoteSet.NumberOfVotes current -> result = Ret 1)
      /\ (FnVoteSet.NumberOfVotes remote < FnVoteSet.NumberOfVotes current -> result = Ret (-1))
      /\ (FnVoteSet.NumberOfVotes remote = FnVoteSet.NumberOfVotes current ->
          (FnVoteSet.NumberOfAgreeVotes remote > FnVoteSet.NumberOfAgreeVotes current ->
           result = Ret 1)
          /\ (FnVoteSet.NumberOfAgreeVotes remote < FnVoteSet.NumberOfAgreeVotes current ->
              result = Ret (-1))
          /\ (FnVoteSet.NumberOfAgreeVotes remote = FnVoteSet.NumberOfAgreeVotes current ->
              (FnVoteSet.CreationTime remote > FnVoteSet.CreationTime current ->
               result = Ret 1)
              /\ (FnVoteSet.CreationTime remote <= FnVoteSet.CreationTime current ->
                  result = Ret (-1))))).
Proof.
  intros Hcfg Hid th result Hcur Hrem. subst result.
  unfold compareVoteSets, theThreshold. rewrite Hcfg.
  rewrite bool_decide_eq_false_2 by exact Hid. simpl. fold th.
  rewrite Hcur, Hrem. simpl.
  split.
  - intros Hc Hr. rewrite Hc, Hr. reflexivity.
  - intros Hc Hr. rewrite Hc, Hr. simpl.
    repeat split; intros;
      repeat match goal with
             | |- context [?a <? ?b] => destruct (Z.ltb_spec a b)
             | |- context [?a >? ?b] =>
                 rewrite (Z.gtb_ltb a b); destruct (Z.ltb_spec b a)
             end; try reflexivity; lia.
Qed.

End compare.

(** The amended rule at work: both vote sets carry three Agree votes of
    three validators, the remote one is the newer and wins. *)
Lemma compareVoteSets_threshold_met_witness :
  compareVoteSets (H := Fixture.env 0 None)
    (Fixture.reactor 1 Fixture.three Maj23SigningThreshold ∅ ∅ ReactorState.empty)
    (Fixture.voteSet "b" 1 150 Fixture.three [VoteTypeAgree; VoteTypeAgree; VoteTypeAgree])
    (Some (Fixture.voteSet "a" 1 100 Fixture.three
             [VoteTypeAgree; VoteTypeAgree; VoteTypeAgree]))
    1 Fixture.three
  = Ret 1.
Proof.
  refine (proj1 (proj2 (proj2 (proj2 (proj2 (proj2
    (compareVoteSets_threshold_met (H := Fixture.env 0 None)
       (Fixture.reactor 1 Fixture.three Maj23SigningThreshold ∅ ∅ ReactorState.empty)
       _ _ _ 1 Fixture.three eq_refl _ _ _) _ _)) _)) _) _).
  - discriminate.
  - reflexivity.
  - reflexivity.
  - reflexivity.
  - reflexivity.
  - reflexivity.
  - reflexivity.
  - reflexivity.
Defined.

(** C5 as stated fails twice.  With both vote sets at the Agree threshold
    and equal counts, the OLDER remote vote set does not win; with both at
    the Disagree threshold only, the remote vote set with more votes does
    not win either. *)
Lemma compareVoteSets_older_does_not_win :
  let f := Fixture.reactor 1 Fixture.three Maj23SigningThreshold ∅ ∅ ReactorState.empty in
  let agree := [VoteTypeAgree; VoteTypeAgree; VoteTypeAgree] in
  let local1 := Fixture.voteSet "a" 1 100 Fixture.three agree in
  let remote1 := Fixture.voteSet "b" 1 50 Fixture.three agree in
  let g := Fixture.reactor 1 Fixture.four Maj23SigningThreshold ∅ ∅ ReactorState.empty in
  let local2 := Fixture.voteSet "a" 1 100 Fixture.four
                  [VoteTypeDisAgree; VoteTypeDisAgree; VoteTypeDisAgree; VoteTypeUnvoted] in
  let remote2 := Fixture.voteSet "b" 1 100 Fixture.four
                   [VoteTypeDisAgree; VoteTypeDisAgree; VoteTypeDisAgree; VoteTypeDisAgree] in
  (FnVoteSet.IsAgree (H := Fixture.env 0 None) local1 Maj23SigningThreshold Fixture.three = true
   /\ FnVoteSet.IsAgree (H := Fixture.env 0 None) remote1 Maj23SigningThreshold Fixture.three = true
   /\ tieBreakOlderWins remote1 local1 = 1
   /\ compareVoteSets (H := Fixture.env 0 None) f remote1 (Some local1) 1 Fixture.three
      <> Ret (tieBreakOlderWins remote1 local1))
  /\ (FnVoteSet.IsDisagree (H := Fixture.env 0 None) local2 Maj23SigningThreshold Fixture.four = true
      /\ FnVoteSet.IsDisagree (H := Fixture.env 0 None) remote2 Maj23SigningThreshold Fixture.four = true
      /\ FnVoteSet.IsAgree (H := Fixture.env 0 None) local2 Maj23SigningThreshold Fixture.four = false
      /\ FnVoteSet.IsAgree (H := Fixture.env 0 None) remote2 Maj23SigningThreshold Fixture.four = false
      /\ tieBreakOlderWins remote2 local2 = 1
      /\ compareVoteSets (H := Fixture.env 0 None) g remote2 (Some local2) 1 Fixture.four
         <> Ret (tieBreakOlderWins remote2 local2)).
Proof.
  vm_compute. repeat split; discriminate.
Qed.

(** ** The commit routine *)

Lemma Int64_add_1 (n : Z) :
  Int64.min_int <= n < Int64.max_int -> Int64.add n 1 = n + 1.
Proof.
  unfold Int64.add, Int64.wrap, Int64.min_int, Int64.max_int. intros Hn.
  rewrite Z.mod_small by lia. lia.
Qed.

Section commit.
Context `{FnVoteSet.Env}.

Lemma IsValid_hash (vs : FnVoteSet.t) chainID maxCtx chk period vals (reg : FnRegistry) :
  FnVoteSet.IsValid vs chainID maxCtx chk period vals reg = true ->
  bytes_Equal (FnVoteSet.ValidatorsHash vs) (FnVoteSet.ValidatorSetHash vals) = true.
Proof.
  unfold FnVoteSet.IsValid. rewrite !andb_true_iff. tauto.
Qed.

(** The routine past its guards: registered callback, loaded state, a
    current vote set that passes the re-validation, a configuration. *)
Lemma handleCommit_past_guards (f : FnConsensusReactor) (fnID : string) (fn : Fn)
    (st : ReactorState.t) (vs : FnVoteSet.t) (c : ReactorConfig.t) :
  fnRegistry f !! fnID = Some fn ->
  state f = Some st ->
  ReactorState.CurrentVoteSets st !! fnID = Some vs ->
  cfg f = Some c ->
  FnVoteSet.IsValid vs (chainID f) MaxContextSize true ExpiresIn
    (getValidatorSet f) (fnRegistry f) = true ->
  let vals := getValidatorSet f in
  let th := ReactorConfig.FnVoteSigningThreshold c in
  handleCommit f fnID =
  if negb (FnVoteSet.HasConverged vs th vals)
  then
    match ReactorState.PreviousMaj23VoteSets (timedOut st fnID vs) !! fnID with
    | Some previousMaj23VoteSet =>
        match FnVoteSet.Marshal previousMaj23VoteSet with
        | None => Ret (setState (timedOut st fnID vs) f, [])
        | Some marshalledBytes =>
            saveAndReturn f (timedOut st fnID vs)
              (broadcast f None FnMaj23Channel marshalledBytes)
        end
    | None => saveAndReturn f (timedOut st fnID vs) []
    end
  else if (areWeValidator f vals).1 && FnVoteSet.IsAgree vs th vals
  then
    match FnVoteSet.GetAgreeVoteIndexForValidatorIndex vs (areWeValidator f vals).2 with
    | None => Ret (f, [])
    | Some agreeVoteIndex =>
        if FnVoteSet.NumberOfAgreeVotes vs =? 0 then Panic
        else if Int64.rem (ReactorState.nonceAt st fnID) (FnVoteSet.NumberOfAgreeVotes vs)
                =? agreeVoteIndex
        then saveAndReturn f (committed st fnID vs vals) [submitEvent fnID vs]
        else saveAndReturn f (committed st fnID vs vals) []
    end
  else saveAndReturn f (committed st fnID vs vals) [].
Proof.
  intros Hfn Hst Hcur Hcfg Hvalid vals th. subst vals th.
  unfold handleCommit, theState, theThreshold.
  rewrite Hfn, Hst, Hcfg.
  destruct (areWeValidator f (getValidatorSet f)) as [aw own] eqn:Eaw. simpl.
  rewrite Hcur, Hvalid. simpl. reflexivity.
Qed.

(** Three validators of equal power, two Agree votes and one Disagree
    vote: converged under [Maj23], but not at the Agree threshold. *)
Lemma two_agree_one_disagree (vs : FnVoteSet.t) (v1 v2 v3 : Validator) (p : Z) :
  0 < p ->
  VotingPower v1 = p -> VotingPower v2 = p -> VotingPower v3 = p ->
  length (FnVoteSet.VoteTypes vs) = 3%nat ->
  FnVoteSet.NumberOfAgreeVotes vs = 2 ->
  FnVoteSet.NumberOfVotes vs = 3 ->
  bytes_Equal (FnVoteSet.ValidatorsHash vs) (FnVoteSet.ValidatorSetHash [v1; v2; v3]) = true ->
  FnVoteSet.HasConverged vs Maj23SigningThreshold [v1; v2; v3] = true
  /\ FnVoteSet.IsAgree vs Maj23SigningThreshold [v1; v2; v3] = false.
Proof.
  intros Hp H1 H2 H3 Hlen Hagree Hvotes Hhash.
  unfold FnVoteSet.HasConverged, FnVoteSet.IsAgree, FnVoteSet.thresholdCheck.
  rewrite Hhash. simpl.
  unfold FnVoteSet.NumberOfAgreeVotes, FnVoteSet.NumberOfVotes in *.
  destruct (FnVoteSet.VoteTypes vs) as [|a [|b [|c [|? ?]]]]; try discriminate Hlen.
  unfold FnVoteSet.meetsThreshold, ValidatorSet.TotalVotingPower. simpl.
  rewrite H1, H2, H3.
  destruct a, b, c; vm_compute in Hagree; vm_compute in Hvotes;
    try discriminate Hagree; try discriminate Hvotes; simpl;
    (split; [apply Z.ltb_lt; lia | apply Z.ltb_ge; lia]).
Qed.

End commit.

Section commit_two_thirds.
Context `{FnVoteSet.Env}.

(** C1 (amended).  With threshold Maj23 and three validators of equal
    power, a current vote set that passes the re-validation and carries two
    Agree votes and one Disagree vote has converged: the commit routine
    makes no call to SubmitMultiSignedMessage, stores the vote set into
    PreviousMaj23VoteSets (PreviousTimedOutVoteSets is left as it was),
    clears the current slot and increments CurrentNonces[FnID] by one. *)
Theorem handleCommit_exact_two_thirds_commits
    (f : FnConsensusReactor) (fnID : string) (fn : Fn) (st : ReactorState.t)
    (vs : FnVoteSet.t) (c : ReactorConfig.t) (v1 v2 v3 : Validator) (p : Z) :
  fnRegistry f !! fnID = Some fn ->
  state f = Some st ->
  ReactorState.CurrentVoteSets st !! fnID = Some vs ->
  cfg f = Some c ->
  ReactorConfig.FnVoteSigningThreshold c = Maj23SigningThreshold ->
  getValidatorSet f = [v1; v2; v3] ->
  0 < p ->
  VotingPower v1 = p -> VotingPower v2 = p -> VotingPower v3 = p ->
  length (FnVoteSet.VoteTypes vs) = 3%nat ->
  FnVoteSet.NumberOfAgreeVotes vs = 2 ->
  FnVoteSet.NumberOfVotes vs = 3 ->
  FnVoteSet.IsValid vs (chainID f) MaxContextSize true ExpiresIn
    (getValidatorSet f) (fnRegistry f) = true ->
  exists st',
    handleCommit f fnID = Ret (setState st' f, [CallSaveReactorState st'])
    /\ ReactorState.PreviousMaj23VoteSets st' !! fnID = Some vs
    /\ ReactorState.PreviousTimedOutVoteSets st' = ReactorState.PreviousTimedOutVoteSets st
    /\ ReactorState.CurrentVoteSets st' !! fnID = None
    /\ ReactorState.CurrentNonces st' !! fnID
       = Some (Int64.add (ReactorState.nonceAt st fnID) 1)
    /\ (Int64.min_int <= ReactorState.nonceAt st fnID < Int64.max_int ->
        ReactorState.nonceAt st' fnID = ReactorState.nonceAt st fnID + 1).
Proof.
  intros Hfn Hst Hcur Hcfg Hth Hvals Hp H1 H2 H3 Hlen Hagree Hvotes Hvalid.
  pose proof (IsValid_hash _ _ _ _ _ _ _ Hvalid) as Hhash.
  rewrite Hvals in Hhash.
  destruct (two_agree_one_disagree vs v1 v2 v3 p Hp H1 H2 H3 Hlen Hagree Hvotes Hhash)
    as [Hconv Hnot].
  exists (committed st fnID vs [v1; v2; v3]).
  rewrite (handleCommit_past_guards f fnID fn st vs c Hfn Hst Hcur Hcfg Hvalid).
  rewrite Hth, Hvals, Hconv, Hnot, andb_false_r. simpl.
  split; [reflexivity|].
  unfold committed, ReactorState.nonceAt. simpl.
  rewrite !lookup_insert_eq, lookup_delete_eq. simpl.
  repeat split; try reflexivity.
  intros Hrange. apply Int64_add_1. exact Hrange.
Qed.

End commit_two_thirds.

(** The run of scenario S2: validators 1 and 2 agree, validator 3
    disagrees, the timer fires 41 seconds after the creation. *)
Lemma handleCommit_exact_two_thirds_commits_witness :
  let vs := Fixture.voteSet "a" 1 100 Fixture.three
              [VoteTypeAgree; VoteTypeAgree; VoteTypeDisAgree] in
  let st := Fixture.withCurrent "f" vs 1 in
  let f := Fixture.reactor 1 Fixture.three Maj23SigningThreshold ∅ ∅ st in
  exists st',
    handleCommit (H := Fixture.env (141 * Second) None) f "f"
    = Ret (setState st' f, [CallSaveReactorState st'])
    /\ ReactorState.PreviousMaj23VoteSets st' !! "f" = Some vs
    /\ ReactorState.PreviousTimedOutVoteSets st' = ReactorState.PreviousTimedOutVoteSets st
    /\ ReactorState.CurrentVoteSets st' !! "f" = None
    /\ ReactorState.CurrentNonces st' !! "f" = Some (Int64.add (ReactorState.nonceAt st "f") 1)
    /\ (Int64.min_int <= ReactorState.nonceAt st "f" < Int64.max_int ->
        ReactorState.nonceAt st' "f" = ReactorState.nonceAt st "f" + 1).
Proof.
  intros vs st f.
  apply (handleCommit_exact_two_thirds_commits (H := Fixture.env (141 * Second) None)
           f "f" Fixture.fn st vs
           {| ReactorConfig.OverrideValidatorSet := None;
              ReactorConfig.FnVoteSigningThreshold := Maj23SigningThreshold |}
           (Fixture.validator 1 1) (Fixture.validator 2 1) (Fixture.validator 3 1) 1);
    try reflexivity.
Defined.

(** C1 as stated fails on that run: the vote set is not in
    PreviousTimedOutVoteSets afterwards and the nonce has moved. *)
Lemma handleCommit_exact_two_thirds_not_timed_out :
  let vs := Fixture.voteSet "a" 1 100 Fixture.three
              [VoteTypeAgree; VoteTypeAgree; VoteTypeDisAgree] in
  let st := Fixture.withCurrent "f" vs 1 in
  let f := Fixture.reactor 1 Fixture.three Maj23SigningThreshold ∅ ∅ st in
  ~ (exists f' evs st',
       handleCommit (H := Fixture.env (141 * Second) None) f "f" = Ret (f', evs)
       /\ state f' = Some st'
       /\ ReactorState.PreviousTimedOutVoteSets st' !! "f" = Some vs
       /\ ReactorState.CurrentNonces st' !! "f" = ReactorState.CurrentNonces st !! "f").
Proof.
  intros vs st f (f' & evs & st' & Hrun & Hst & Harch & Hnonce).
  vm_compute in Hrun. injection Hrun as <- <-.
  injection Hst as <-.
  vm_compute in Hnonce. discriminate Hnonce.
Qed.

(** ** Ranks among the Agree voters *)

Section ranks.
Context `{FnVoteSet.Env}.

(** The rank of slot [i] in a list of votes, on natural numbers. *)
Lemma rank_cons_S (x : VoteType) (votes : list VoteType) (i : nat) :
  FnVoteSet.countVotes FnVoteSet.isAgreeVote (take (S i) (x :: votes))
  = (if FnVoteSet.isAgreeVote x then 1 else 0)
    + FnVoteSet.countVotes FnVoteSet.isAgreeVote (take i votes).
Proof.
  unfold FnVoteSet.countVotes. simpl. rewrite filter_cons.
  destruct (FnVoteSet.isAgreeVote x) eqn:E.
  - rewrite decide_True by reflexivity. simpl length. lia.
  - rewrite decide_False by discriminate. lia.
Qed.

Lemma countVotes_nonneg (p : VoteType -> bool) (votes : list VoteType) :
  0 <= FnVoteSet.countVotes p votes.
Proof. unfold FnVoteSet.countVotes. lia. Qed.

Lemma countVotes_cons (p : VoteType -> bool) (x : VoteType) (votes : list VoteType) :
  FnVoteSet.countVotes p (x :: votes)
  = (if p x then 1 else 0) + FnVoteSet.countVotes p votes.
Proof.
  unfold FnVoteSet.countVotes. rewrite filter_cons.
  destruct (p x) eqn:E.
  - rewrite decide_True by reflexivity. simpl length. lia.
  - rewrite decide_False by discriminate. lia.
Qed.

Lemma agreeRank_bound (votes : list VoteType) (i : nat) (r : Z) :
  FnVoteSet.agreeRank votes i = Some r ->
  0 <= r < FnVoteSet.countVotes FnVoteSet.isAgreeVote votes /\ (i < length votes)%nat.
Proof.
  revert i r. induction votes as [|x votes IH]; intros i r.
  - unfold FnVoteSet.agreeRank. rewrite lookup_nil. simpl. discriminate.
  - unfold FnVoteSet.agreeRank. destruct i as [|i].
    + simpl. destruct (FnVoteSet.isAgreeVote x) eqn:E; [|discriminate].
      intros [= <-]. rewrite countVotes_cons, E.
      pose proof (countVotes_nonneg FnVoteSet.isAgreeVote votes).
      change (FnVoteSet.countVotes FnVoteSet.isAgreeVote []) with 0. lia.
    + change ((x :: votes) !! S i) with (votes !! i).
      rewrite rank_cons_S, countVotes_cons.
      destruct (FnVoteSet.isAgreeVote (default VoteTypeUnvoted (votes !! i))) eqn:E;
        [|discriminate].
      intros [= <-].
      destruct (IH i _ ltac:(unfold FnVoteSet.agreeRank; rewrite E; reflexivity)) as [? ?].
      simpl length. destruct (FnVoteSet.isAgreeVote x); lia.
Qed.

Lemma agreeRank_inj (votes : list VoteType) (i j : nat) (r : Z) :
  FnVoteSet.agreeRank votes i = Some r -> FnVoteSet.agreeRank votes j = Some r -> i = j.
Proof.
  revert i j r. induction votes as [|x votes IH]; intros i j r.
  - unfold FnVoteSet.agreeRank. rewrite lookup_nil. simpl. discriminate.
  - intros Hi Hj. destruct i as [|i], j as [|j]; [reflexivity| | |].
    + exfalso. revert Hi Hj. unfold FnVoteSet.agreeRank.
      change ((x :: votes) !! S j) with (votes !! j). rewrite rank_cons_S. simpl.
      destruct (FnVoteSet.isAgreeVote x); [|discriminate].
      destruct (FnVoteSet.isAgreeVote (default VoteTypeUnvoted (votes !! j)));
        [|discriminate].
      intros [= <-] [= E].
      pose proof (countVotes_nonneg FnVoteSet.isAgreeVote (take j votes)).
      change (FnVoteSet.countVotes FnVoteSet.isAgreeVote []) with 0 in E. lia.
    + exfalso. revert Hi Hj. unfold FnVoteSet.agreeRank.
      change ((x :: votes) !! S i) with (votes !! i). rewrite rank_cons_S. simpl.
      destruct (FnVoteSet.isAgreeVote x); [|discriminate].
      destruct (FnVoteSet.isAgreeVote (default VoteTypeUnvoted (votes !! i)));
        [|discriminate].
      intros [= E] [= <-].
      pose proof (countVotes_nonneg FnVoteSet.isAgreeVote (take i votes)).
      change (FnVoteSet.countVotes FnVoteSet.isAgreeVote []) with 0 in E. lia.
    + f_equal. revert Hi Hj. unfold FnVoteSet.agreeRank.
      change ((x :: votes) !! S i) with (votes !! i).
      change ((x :: votes) !! S j) with (votes !! j).
      rewrite !rank_cons_S.
      destruct (FnVoteSet.isAgreeVote (default VoteTypeUnvoted (votes !! i))) eqn:Ei;
        [|discriminate].
      destruct (FnVoteSet.isAgreeVote (default VoteTypeUnvoted (votes !! j))) eqn:Ej;
        [|discriminate].
      intros [= <-] [= E].
      apply (IH i j (FnVoteSet.countVotes FnVoteSet.isAgreeVote (take i votes)));
        unfold FnVoteSet.agreeRank; [rewrite Ei; reflexivity | rewrite Ej; f_equal; lia].
Qed.

Lemma agreeRank_surj (votes : list VoteType) (k : Z) :
  0 <= k < FnVoteSet.countVotes FnVoteSet.isAgreeVote votes ->
  exists i : nat, FnVoteSet.agreeRank votes i = Some k.
Proof.
  revert k. induction votes as [|x votes IH]; intros k Hk.
  - change (FnVoteSet.countVotes FnVoteSet.isAgreeVote []) with 0 in Hk. lia.
  - rewrite countVotes_cons in Hk.
    destruct (FnVoteSet.isAgreeVote x) eqn:E.
    + destruct (decide (k = 0)) as [->|Hne].
      * exists 0%nat. unfold FnVoteSet.agreeRank. simpl. rewrite E. reflexivity.
      * destruct (IH (k - 1) ltac:(lia)) as [i Hi]. exists (S i).
        revert Hi. unfold FnVoteSet.agreeRank. change ((x :: votes) !! S i) with (votes !! i).
        rewrite rank_cons_S, E.
        destruct (FnVoteSet.isAgreeVote (default VoteTypeUnvoted (votes !! i)));
          [|discriminate].
        intros [= Hi]. f_equal. lia.
    + destruct (IH k ltac:(lia)) as [i Hi]. exists (S i).
      revert Hi. unfold FnVoteSet.agreeRank. change ((x :: votes) !! S i) with (votes !! i).
      rewrite rank_cons_S, E.
      destruct (FnVoteSet.isAgreeVote (default VoteTypeUnvoted (votes !! i)));
        [|discriminate].
      intros [= Hi]. f_equal. lia.
Qed.

Lemma GetAgreeVoteIndex_agreeRank (vs : FnVoteSet.t) (i : Z) (r : Z) :
  FnVoteSet.GetAgreeVoteIndexForValidatorIndex vs i = Some r <->
  0 <= i /\ FnVoteSet.agreeRank (FnVoteSet.VoteTypes vs) (Z.to_nat i) = Some r.
Proof.
  unfold FnVoteSet.GetAgreeVoteIndexForValidatorIndex.
  destruct (Z.leb_spec 0 i).
  - tauto.
  - split; [discriminate | lia].
Qed.

End ranks.

Section submitter.
Context `{FnVoteSet.Env}.

Lemma powerOf_no_vote (p : VoteType -> bool) (vals : list Validator) (votes : list VoteType) :
  FnVoteSet.countVotes p votes = 0 -> FnVoteSet.powerOf p vals votes = 0.
Proof.
  revert vals. induction votes as [|x votes IH]; intros vals Hc.
  - destruct vals; reflexivity.
  - rewrite countVotes_cons in Hc.
    pose proof (countVotes_nonneg p votes).
    destruct vals as [|v vals]; [reflexivity|]. simpl.
    destruct (p x); [lia|]. rewrite IH by lia. reflexivity.
Qed.

Lemma IsAgree_has_agree_vote (vs : FnVoteSet.t) (th : SigningThreshold)
    (vals : list Validator) :
  FnVoteSet.IsAgree vs th vals = true ->
  0 < ValidatorSet.TotalVotingPower vals ->
  0 < FnVoteSet.NumberOfAgreeVotes vs.
Proof.
  unfold FnVoteSet.IsAgree, FnVoteSet.thresholdCheck, FnVoteSet.NumberOfAgreeVotes.
  rewrite andb_true_iff. intros [_ Hmeets] Htotal.
  pose proof (countVotes_nonneg FnVoteSet.isAgreeVote (FnVoteSet.VoteTypes vs)) as Hge.
  destruct (decide (FnVoteSet.countVotes FnVoteSet.isAgreeVote (FnVoteSet.VoteTypes vs) = 0))
    as [Hz|Hnz]; [|lia].
  exfalso. rewrite (powerOf_no_vote _ vals _ Hz) in Hmeets.
  unfold FnVoteSet.meetsThreshold in Hmeets.
  repeat case_bool_decide; try discriminate.
  - apply Z.ltb_lt in Hmeets. lia.
  - apply Z.eqb_eq in Hmeets. lia.
Qed.

Lemma IsValid_voted_slot_is_validator (vs : FnVoteSet.t) chainID maxCtx chk period
    (vals : list Validator) (reg : FnRegistry) (i : nat) :
  FnVoteSet.IsValid vs chainID maxCtx chk period vals reg = true ->
  (i < length (FnVoteSet.VoteTypes vs))%nat ->
  FnVoteSet.hasVoted (FnVoteSet.slot vs i) = true ->
  (i < length vals)%nat.
Proof.
  unfold FnVoteSet.IsValid. rewrite !andb_true_iff.
  intros [[_ Hsigs] _] Hi Hvoted.
  unfold FnVoteSet.allSignaturesVerify in Hsigs.
  rewrite forallb_forall in Hsigs.
  specialize (Hsigs i ltac:(apply in_seq; lia)).
  rewrite Hvoted in Hsigs. simpl in Hsigs.
  unfold FnVoteSet.slotVerifies in Hsigs.
  destruct (vals !! i) eqn:E; [|discriminate].
  eapply lookup_lt_Some. exact E.
Qed.

(** C4 (amended).  When the commit routine fires on a vote set that passes
    the re-validation and has converged, the local node calls
    SubmitMultiSignedMessage if and only if it is a validator of the
    current set, the vote set meets the Agree threshold and the node's
    dense rank r among the Agree voters satisfies
    CurrentNonce mod numberOfAgreeVotes == r.  Ranks are unique, so at most
    one validator index is selected; one is selected, hence exactly one
    validator submits, when the vote set meets the Agree threshold (total
    power positive, nonce not negative).  A converged vote set below the
    Agree threshold is committed without any submission. *)
Theorem handleCommit_single_submitter
    (f : FnConsensusReactor) (fnID : string) (fn : Fn) (st : ReactorState.t)
    (vs : FnVoteSet.t) (c : ReactorConfig.t) :
  fnRegistry f !! fnID = Some fn ->
  state f = Some st ->
  ReactorState.CurrentVoteSets st !! fnID = Some vs ->
  cfg f = Some c ->
  FnVoteSet.IsValid vs (chainID f) MaxContextSize true ExpiresIn
    (getValidatorSet f) (fnRegistry f) = true ->
  let vals := getValidatorSet f in
  let th := ReactorConfig.FnVoteSigningThreshold c in
  let nonce := ReactorState.nonceAt st fnID in
  let n := FnVoteSet.NumberOfAgreeVotes vs in
  let selected (i : Z) :=
    exists r, FnVoteSet.GetAgreeVoteIndexForValidatorIndex vs i = Some r
              /\ Int64.rem nonce n = r in
  FnVoteSet.HasConverged vs th vals = true ->
  (exists f' evs,
      handleCommit f fnID = Ret (f', evs)
      /\ (submitEvent fnID vs ∈ evs <->
          (areWeValidator f vals).1 = true
          /\ FnVoteSet.IsAgree vs th vals = true
          /\ selected (areWeValidator f vals).2)
      /\ (forall e, e ∈ evs ->
          e = submitEvent fnID vs \/ exists s, e = CallSaveReactorState s))
  /\ (forall i j, selected i -> selected j -> i = j)
  /\ (FnVoteSet.IsAgree vs th vals = false ->
      handleCommit f fnID
      = Ret (setState (committed st fnID vs vals) f,
             [CallSaveReactorState (committed st fnID vs vals)]))
  /\ (FnVoteSet.IsAgree vs th vals = true ->
      0 < ValidatorSet.TotalVotingPower vals ->
      0 <= nonce ->
      exists i, 0 <= i < ValidatorSet.Size vals /\ selected i).
Proof.
  intros Hfn Hst Hcur Hcfg Hvalid vals th nonce n selected Hconv.
  pose proof (handleCommit_past_guards f fnID fn st vs c Hfn Hst Hcur Hcfg Hvalid) as Hrun.
  cbv zeta in Hrun. fold vals th nonce n in Hrun. rewrite Hconv in Hrun.
  change (negb true) with false in Hrun. cbv iota in Hrun.
  assert (Hsel : forall i r,
             FnVoteSet.GetAgreeVoteIndexForValidatorIndex vs i = Some r ->
             0 <= i /\ 0 <= r < n /\ (Z.to_nat i < length (FnVoteSet.VoteTypes vs))%nat).
  { intros i r Hr. apply GetAgreeVoteIndex_agreeRank in Hr as [Hi Hr].
    apply agreeRank_bound in Hr. tauto. }
  repeat split.
  - (* what the local node does *)
    destruct ((areWeValidator f vals).1 && FnVoteSet.IsAgree vs th vals) eqn:Eboth;
      try rewrite Eboth in Hrun.
    + apply andb_true_iff in Eboth as [Eaw Eagree].
      destruct (FnVoteSet.GetAgreeVoteIndexForValidatorIndex vs (areWeValidator f vals).2)
        as [r|] eqn:Er; try rewrite Er in Hrun.
      * destruct (Hsel _ _ Er) as (_ & Hr & _).
        destruct (n =? 0) eqn:Hn0; [apply Z.eqb_eq in Hn0; lia|].
        try rewrite Hn0 in Hrun.
        destruct (Int64.rem nonce n =? r) eqn:Hrem; try rewrite Hrem in Hrun;
          [apply Z.eqb_eq in Hrem | apply Z.eqb_neq in Hrem].
        -- eexists _, _. split; [exact Hrun|]. split.
           ++ split; [intros _ | intros _; (apply elem_of_cons; left; reflexivity)].
              repeat split; try assumption. exists r. split; [exact Er | exact Hrem].
           ++ intros e He. apply elem_of_cons in He as [->|He]; [left; reflexivity|].
              apply list_elem_of_singleton in He as ->. right. eexists. reflexivity.
        -- eexists _, _. split; [exact Hrun|]. split.
           ++ split.
              ** intros He. apply list_elem_of_singleton in He. discriminate He.
              ** intros (_ & _ & r' & Er' & Hrem'). congruence.
           ++ intros e He. apply list_elem_of_singleton in He as ->.
              right. eexists. reflexivity.
      * eexists _, _. split; [exact Hrun|]. split.
        -- split.
           ++ intros He. apply elem_of_nil in He. destruct He.
           ++ intros (_ & _ & r' & Er' & _). congruence.
        -- intros e He. apply elem_of_nil in He. destruct He.
    + eexists _, _. split; [exact Hrun|]. split.
      * split.
        -- intros He. apply list_elem_of_singleton in He. discriminate He.
        -- intros (Eaw & Eagree & _). rewrite Eaw, Eagree in Eboth. discriminate.
      * intros e He. apply list_elem_of_singleton in He as ->.
        right. eexists. reflexivity.
  - (* at most one index is selected *)
    intros i j (r & Hi & Hri) (r' & Hj & Hrj).
    assert (r' = r) as -> by congruence.
    apply GetAgreeVoteIndex_agreeRank in Hi as [Hi0 Hi].
    apply GetAgreeVoteIndex_agreeRank in Hj as [Hj0 Hj].
    pose proof (agreeRank_inj _ _ _ _ Hi Hj). lia.
  - (* below the Agree threshold: committed, nobody submits *)
    intros Hnot. rewrite Hnot, andb_false_r in Hrun. exact Hrun.
  - (* at the Agree threshold one index is selected *)
    intros Hagree Htotal Hnonce.
    pose proof (IsAgree_has_agree_vote vs th vals Hagree Htotal) as Hn. fold n in Hn.
    assert (Hrem : 0 <= Int64.rem nonce n < n)
      by (unfold Int64.rem; apply Z.rem_bound_pos; lia).
    destruct (agreeRank_surj (FnVoteSet.VoteTypes vs) (Int64.rem nonce n) Hrem) as [i Hi].
    pose proof (agreeRank_bound _ _ _ Hi) as [_ Hlen].
    assert (Hvoted : FnVoteSet.hasVoted (FnVoteSet.slot vs i) = true).
    { revert Hi. unfold FnVoteSet.agreeRank, FnVoteSet.slot.
      destruct (default VoteTypeUnvoted (FnVoteSet.VoteTypes vs !! i)); try discriminate.
      reflexivity. }
    pose proof (IsValid_voted_slot_is_validator _ _ _ _ _ _ _ i Hvalid Hlen Hvoted) as Hval.
    exists (Z.of_nat i). split; [unfold ValidatorSet.Size; fold vals in Hval; lia|].
    exists (Int64.rem nonce n). split; [|reflexivity].
    apply GetAgreeVoteIndex_agreeRank. rewrite Nat2Z.id. split; [lia | exact Hi].
Qed.

End submitter.

(** Scenario S3: three Agree votes, nonce 1; the validator of index 1
    (rank 1 among 3) is the one that submits. *)
Lemma handleCommit_single_submitter_witness :
  let vs := Fixture.voteSet "a" 1 100 Fixture.three
              [VoteTypeAgree; VoteTypeAgree; VoteTypeAgree] in
  let f := Fixture.reactor 2 Fixture.three Maj23SigningThreshold ∅ ∅
             (Fixture.withCurrent "f" vs 1) in
  exists f' evs,
    handleCommit (H := Fixture.env (141 * Second) None) f "f" = Ret (f', evs)
    /\ submitEvent "f" vs ∈ evs.
Proof.
  intros vs f.
  destruct (handleCommit_single_submitter (H := Fixture.env (141 * Second) None)
              f "f" Fixture.fn (Fixture.withCurrent "f" vs 1) vs
              {| ReactorConfig.OverrideValidatorSet := None;
                 ReactorConfig.FnVoteSigningThreshold := Maj23SigningThreshold |}
              eq_refl eq_refl eq_refl eq_refl eq_refl eq_refl)
    as [(f' & evs & Hrun & Hiff & _) _].
  exists f', evs. split; [exact Hrun|].
  apply Hiff. split; [reflexivity|]. split; [reflexivity|].
  exists 1. split; reflexivity.
Defined.

(** C4 as stated fails on scenario S2: the vote set has converged and the
    nonce is committed (it moves from 1 to 2), yet none of the three
    validators calls SubmitMultiSignedMessage. *)
Lemma handleCommit_committed_nonce_without_submitter :
  let vs := Fixture.voteSet "a" 1 100 Fixture.three
              [VoteTypeAgree; VoteTypeAgree; VoteTypeDisAgree] in
  let st := Fixture.withCurrent "f" vs 1 in
  let node (self : N) := Fixture.reactor self Fixture.three Maj23SigningThreshold ∅ ∅ st in
  FnVoteSet.HasConverged (H := Fixture.env (141 * Second) None) vs
    Maj23SigningThreshold Fixture.three = true
  /\ Forall (fun self =>
       (areWeValidator (node self) Fixture.three).1 = true
       /\ exists st',
            handleCommit (H := Fixture.env (141 * Second) None) (node self) "f"
            = Ret (setState st' (node self), [CallSaveReactorState st'])
            /\ ReactorState.CurrentNonces st' !! "f" = Some 2)
       [1%N; 2%N; 3%N]
  /\ ~ (exists self f' evs,
          self ∈ [1%N; 2%N; 3%N]
          /\ handleCommit (H := Fixture.env (141 * Second) None) (node self) "f"
             = Ret (f', evs)
          /\ submitEvent "f" vs ∈ evs).
Proof.
  intros vs st node. split; [reflexivity|]. split.
  - repeat constructor;
      (exists (committed st "f" vs Fixture.three); split; reflexivity).
  - intros (self & f' & evs & Hin & Hrun & He).
    repeat (apply elem_of_cons in Hin as [->|Hin]);
      try (vm_compute in Hrun; injection Hrun as <- <-;
           apply list_elem_of_singleton in He; discriminate He).
    apply elem_of_nil in Hin. destruct Hin.
Qed.

Section commit_nonce.
Context `{FnVoteSet.Env}.

(** Whatever the routine returns, the reactor is untouched, or the current
    vote set was retired as timed out, or it was committed. *)
Lemma handleCommit_outcomes (f f' : FnConsensusReactor) (fnID : string)
    (evs : list Event) (st : ReactorState.t) :
  state f = Some st ->
  handleCommit f fnID = Ret (f', evs) ->
  f' = f
  \/ exists vs,
       ReactorState.CurrentVoteSets st !! fnID = Some vs
       /\ (f' = setState (timedOut st fnID vs) f
           \/ f' = setState (committed st fnID vs (getValidatorSet f)) f).
Proof.
  intros Hst.
  unfold handleCommit, theState, theThreshold, saveAndReturn. rewrite Hst.
  destruct (fnRegistry f !! fnID); [|intros [= <- _]; left; reflexivity].
  destruct (areWeValidator f (getValidatorSet f)) as [aw own]. simpl.
  destruct (ReactorState.CurrentVoteSets st !! fnID) as [vs|]; [|discriminate].
  destruct (FnVoteSet.IsValid _ _ _ _ _ _ _); simpl; [|intros [= <- _]; left; reflexivity].
  destruct (cfg f) as [c|]; simpl; [|discriminate].
  destruct (FnVoteSet.HasConverged _ _ _); simpl.
  - destruct (aw && _).
    + destruct (FnVoteSet.GetAgreeVoteIndexForValidatorIndex vs own).
      * destruct (_ =? 0); [discriminate|].
        destruct (_ =? _); intros [= <- _]; right; exists vs; auto.
      * intros [= <- _]. left. reflexivity.
    + intros [= <- _]. right. exists vs. auto.
  - destruct (ReactorState.PreviousMaj23VoteSets st !! fnID) as [prev|].
    + destruct (FnVoteSet.Marshal prev); intros [= <- _]; right; exists vs; auto.
    + intros [= <- _]. right. exists vs. auto.
Qed.

Lemma nonceAt_committed (st : ReactorState.t) (fnID k : string) (vs : FnVoteSet.t)
    (vals : list Validator) :
  ReactorState.nonceAt (committed st fnID vs vals) k
  = if decide (fnID = k) then Int64.add (ReactorState.nonceAt st fnID) 1
    else ReactorState.nonceAt st k.
Proof.
  unfold committed, ReactorState.nonceAt. simpl.
  rewrite lookup_insert. destruct (decide (fnID = k)); reflexivity.
Qed.

(** C9 (amended).  A run of the commit routine never decreases
    CurrentNonces[FnID] (nonce below the int64 maximum).  When the current
    vote set passes the re-validation and has converged, and the
    submitter selection does not fail (the node is not a validator, or the
    Agree threshold is not met, or the node has a rank among the Agree
    voters), the run increments CurrentNonces[FnID] by exactly 1, stores
    the vote set into PreviousMaj23VoteSets[FnID], updates
    PreviousValidatorSet and clears CurrentVoteSets[FnID]; when the vote
    set has not converged CurrentNonces is unchanged. *)
Theorem handleCommit_nonce_steps
    (f : FnConsensusReactor) (fnID : string) (st : ReactorState.t) :
  state f = Some st ->
  Int64.min_int <= ReactorState.nonceAt st fnID < Int64.max_int ->
  (forall f' evs st' k,
      handleCommit f fnID = Ret (f', evs) -> state f' = Some st' ->
      ReactorState.nonceAt st k <= ReactorState.nonceAt st' k)
  /\ (forall fn vs c,
        fnRegistry f !! fnID = Some fn ->
        ReactorState.CurrentVoteSets st !! fnID = Some vs ->
        cfg f = Some c ->
        FnVoteSet.IsValid vs (chainID f) MaxContextSize true ExpiresIn
          (getValidatorSet f) (fnRegistry f) = true ->
        let vals := getValidatorSet f in
        let th := ReactorConfig.FnVoteSigningThreshold c in
        (FnVoteSet.HasConverged vs th vals = false ->
         exists evs st',
           handleCommit f fnID = Ret (setState st' f, evs)
           /\ ReactorState.CurrentNonces st' = ReactorState.CurrentNonces st)
        /\ (FnVoteSet.HasConverged vs th vals = true ->
            ((areWeValidator f vals).1 && FnVoteSet.IsAgree vs th vals = true ->
             is_Some (FnVoteSet.GetAgreeVoteIndexForValidatorIndex vs
                        (areWeValidator f vals).2)) ->
            exists evs st',
              handleCommit f fnID = Ret (setState st' f, evs)
              /\ ReactorState.nonceAt st' fnID = ReactorState.nonceAt st fnID + 1
              /\ ReactorState.PreviousMaj23VoteSets st' !! fnID = Some vs
              /\ ReactorState.PreviousValidatorSet st' = Some vals
              /\ ReactorState.CurrentVoteSets st' !! fnID = None)).
Proof.
  intros Hst Hrange. split.
  - intros f' evs st' k Hrun Hst'.
    destruct (handleCommit_outcomes f f' fnID evs st Hst Hrun)
      as [->|(vs & _ & [->| ->])].
    + rewrite Hst in Hst'. injection Hst' as <-. lia.
    + injection Hst' as <-. unfold timedOut, ReactorState.nonceAt. simpl. lia.
    + injection Hst' as <-. rewrite nonceAt_committed.
      destruct (decide (fnID = k)) as [<-|_]; [|lia].
      rewrite Int64_add_1 by exact Hrange. lia.
  - intros fn vs c Hfn Hcur Hcfg Hvalid vals th.
    pose proof (handleCommit_past_guards f fnID fn st vs c Hfn Hst Hcur Hcfg Hvalid) as Hrun.
    cbv zeta in Hrun. fold vals th in Hrun. split.
    + intros Hconv. rewrite Hconv in Hrun. simpl in Hrun.
      destruct (ReactorState.PreviousMaj23VoteSets st !! fnID) as [prev|].
      * destruct (FnVoteSet.Marshal prev); eexists _, _; (split; [exact Hrun | reflexivity]).
      * eexists _, _. split; [exact Hrun | reflexivity].
    + intros Hconv Hrank. rewrite Hconv in Hrun.
      change (negb true) with false in Hrun. cbv iota in Hrun.
      assert (Hst' : ReactorState.nonceAt (committed st fnID vs vals) fnID
                     = ReactorState.nonceAt st fnID + 1
                     /\ ReactorState.PreviousMaj23VoteSets (committed st fnID vs vals) !! fnID
                        = Some vs
                     /\ ReactorState.PreviousValidatorSet (committed st fnID vs vals)
                        = Some vals
                     /\ ReactorState.CurrentVoteSets (committed st fnID vs vals) !! fnID
                        = None).
      { rewrite nonceAt_committed, decide_True by reflexivity.
        rewrite Int64_add_1 by exact Hrange.
        unfold committed. simpl. rewrite lookup_insert_eq, lookup_delete_eq. auto. }
      destruct ((areWeValidator f vals).1 && FnVoteSet.IsAgree vs th vals) eqn:Eboth.
      * destruct (Hrank eq_refl) as [r Hr]. rewrite Hr in Hrun.
        apply GetAgreeVoteIndex_agreeRank in Hr as [_ Hr].
        apply agreeRank_bound in Hr as [Hr _].
        fold (FnVoteSet.NumberOfAgreeVotes vs) in Hr.
        destruct (FnVoteSet.NumberOfAgreeVotes vs =? 0) eqn:Hn0;
          [apply Z.eqb_eq in Hn0; lia|].
        destruct (Int64.rem _ _ =? r); eexists _, _; (split; [exact Hrun | exact Hst']).
      * eexists _, _. split; [exact Hrun | exact Hst'].
Qed.

End commit_nonce.

(** Scenario S3 at validator 1: the nonce goes from 1 to 2. *)
Lemma handleCommit_nonce_steps_witness :
  let vs := Fixture.voteSet "a" 1 100 Fixture.three
              [VoteTypeAgree; VoteTypeAgree; VoteTypeAgree] in
  let st := Fixture.withCurrent "f" vs 1 in
  let f := Fixture.reactor 1 Fixture.three Maj23SigningThreshold ∅ ∅ st in
  exists evs st',
    handleCommit (H := Fixture.env (141 * Second) None) f "f" = Ret (setState st' f, evs)
    /\ ReactorState.nonceAt st' "f" = 2.
Proof.
  intros vs st f.
  destruct (proj2 (handleCommit_nonce_steps (H := Fixture.env (141 * Second) None)
                     f "f" st eq_refl
                     ltac:(change (ReactorState.nonceAt st "f") with 1;
                           unfold Int64.min_int, Int64.max_int; lia))
              Fixture.fn vs
              {| ReactorConfig.OverrideValidatorSet := None;
                 ReactorConfig.FnVoteSigningThreshold := Maj23SigningThreshold |}
              eq_refl eq_refl eq_refl eq_refl) as [_ Hconv].
  destruct (Hconv eq_refl ltac:(intros _; exists 0; reflexivity))
    as (evs & st' & Hrun & Hnonce & _).
  exists evs, st'. split; [exact Hrun | exact Hnonce].
Defined.

(** C9 as stated fails when the routine runs on a converged vote set that
    no longer passes the re-validation, here 100 seconds after its
    creation: the routine returns at the guard, and the nonce is not
    incremented. *)
Lemma handleCommit_converged_expired_keeps_nonce :
  let vs := Fixture.voteSet "a" 1 100 Fixture.three
              [VoteTypeAgree; VoteTypeAgree; VoteTypeAgree] in
  let st := Fixture.withCurrent "f" vs 1 in
  let f := Fixture.reactor 1 Fixture.three Maj23SigningThreshold ∅ ∅ st in
  FnVoteSet.HasConverged (H := Fixture.env (200 * Second) None) vs
    Maj23SigningThreshold Fixture.three = true
  /\ handleCommit (H := Fixture.env (200 * Second) None) f "f" = Ret (f, [])
  /\ ~ (exists f' evs st',
          handleCommit (H := Fixture.env (200 * Second) None) f "f" = Ret (f', evs)
          /\ state f' = Some st'
          /\ ReactorState.nonceAt st' "f" = ReactorState.nonceAt st "f" + 1).
Proof.
  intros vs st f. split; [reflexivity|]. split; [reflexivity|].
  intros (f' & evs & st' & Hrun & Hst & Hnonce).
  vm_compute in Hrun. injection Hrun as <- <-.
  injection Hst as <-. vm_compute in Hnonce. discriminate Hnonce.
Qed.

(** The early return of the submitter selection.  Four validators, three
    Agree votes and the Disagree vote of validator 4: at validator 4 the
    vote set has converged and meets the Agree threshold, the rank lookup
    fails, and the routine returns before archiving or touching the
    nonce. *)
Lemma handleCommit_without_rank_returns_early :
  let vs := Fixture.voteSet "a" 1 100 Fixture.four
              [VoteTypeAgree; VoteTypeAgree; VoteTypeAgree; VoteTypeDisAgree] in
  let f := Fixture.reactor 4 Fixture.four Maj23SigningThreshold ∅ ∅
             (Fixture.withCurrent "f" vs 1) in
  FnVoteSet.HasConverged (H := Fixture.env (141 * Second) None) vs
    Maj23SigningThreshold Fixture.four = true
  /\ FnVoteSet.IsAgree (H := Fixture.env (141 * Second) None) vs
       Maj23SigningThreshold Fixture.four = true
  /\ FnVoteSet.GetAgreeVoteIndexForValidatorIndex vs 3 = None
  /\ handleCommit (H := Fixture.env (141 * Second) None) f "f" = Ret (f, []).
Proof.
  intros vs f. repeat split; reflexivity.
Qed.

(** ** Gossip *)

Lemma broadcast_spec (f : FnConsensusReactor) (skip : option string) (chID : Z)
    (msg : bytes) (e : Event) :
  e ∈ broadcast f skip chID msg <->
  exists p, e = PeerSend p chID msg /\ p ∈ connectedPeers f /\ skip <> Some p.
Proof.
  unfold broadcast. rewrite list_elem_of_fmap. split.
  - intros (p & -> & Hp). apply list_elem_of_filter in Hp as [Hskip Hp].
    apply elem_of_elements in Hp. eauto.
  - intros (p & -> & Hp & Hskip). exists p. split; [reflexivity|].
    apply list_elem_of_filter. split; [exact Hskip|]. apply elem_of_elements. exact Hp.
Qed.

Lemma broadcast_send (f : FnConsensusReactor) (skip : option string) (chID : Z)
    (msg : bytes) (p : string) :
  PeerSend p chID msg ∈ broadcast f skip chID msg <->
  p ∈ connectedPeers f /\ skip <> Some p.
Proof.
  rewrite broadcast_spec. split.
  - intros (q & [= ->] & Hq). exact Hq.
  - intros Hp. exists p. split; [reflexivity | exact Hp].
Qed.

(** ** The Maj23 channel *)

Section maj23.
Context `{FnVoteSet.Env} `{Host}.

Lemma Int64_sub_1 (n : Z) :
  Int64.min_int < n <= Int64.max_int -> Int64.sub n 1 = n - 1.
Proof.
  unfold Int64.sub, Int64.wrap, Int64.min_int, Int64.max_int. intros Hn.
  rewrite Z.mod_small by lia. lia.
Qed.

(** C6.  For a remote vote set that is valid (against the current
    validator set, or else against the previous one), expired and
    converged: with remote.Nonce >= CurrentNonces[FnID] it becomes
    PreviousMaj23VoteSets[FnID], CurrentNonces[FnID] becomes
    remote.Nonce + 1, PreviousValidatorSet and CurrentProposalInfo[FnID]
    are updated and, the state saved and the vote set serialised, it is
    sent to every connected peer on the Maj23 channel; with
    remote.Nonce = CurrentNonces[FnID] - 1 and no previous Maj23 stored it
    is stored, the nonces stay and nothing is sent; otherwise the state is
    left as it was and nothing is sent.  A missing CurrentNonces[FnID]
    counts as 1. *)
Theorem handleMaj23VoteSetChannel_catch_up
    (f : FnConsensusReactor) (sender : string) (msgBytes : bytes)
    (st : ReactorState.t) (remote : FnVoteSet.t) (c : ReactorConfig.t)
    (signedBy : list Validator) :
  state f = Some st ->
  FnVoteSet.Unmarshal msgBytes = Some remote ->
  cfg f = Some c ->
  let validFor vals :=
    FnVoteSet.IsValid remote (chainID f) MaxContextSize false ExpiresInForSync
      vals (fnRegistry f) in
  (validFor (getValidatorSet f) = true /\ signedBy = getValidatorSet f
   \/ validFor (getValidatorSet f) = false
      /\ ReactorState.PreviousValidatorSet st = Some signedBy
      /\ validFor signedBy = true) ->
  FnVoteSet.IsExpired remote ExpiresIn = true ->
  FnVoteSet.HasConverged remote (ReactorConfig.FnVoteSigningThreshold c) signedBy = true ->
  let fnID := FnVoteSet.GetFnID remote in
  let currentNonce := default 1 (ReactorState.CurrentNonces st !! fnID) in
  Int64.in_range (FnVoteSet.Nonce remote) ->
  Int64.in_range currentNonce ->
  let run := handleMaj23VoteSetChannel f sender msgBytes in
  (FnVoteSet.Nonce remote >= currentNonce ->
   exists st' evs,
     run = Ret (setState st' f, evs)
     /\ ReactorState.PreviousMaj23VoteSets st' !! fnID = Some remote
     /\ ReactorState.CurrentNonces st' !! fnID = Some (Int64.add (FnVoteSet.Nonce remote) 1)
     /\ (FnVoteSet.Nonce remote < Int64.max_int ->
         ReactorState.CurrentNonces st' !! fnID = Some (FnVoteSet.Nonce remote + 1))
     /\ ReactorState.PreviousValidatorSet st' = Some signedBy
     /\ ReactorState.CurrentProposalInfo st' !! fnID = Some (FnVoteSet.ProposalInfo remote)
     /\ (forall marshalledBytes,
            SaveReactorState st' = true ->
            FnVoteSet.Marshal remote = Some marshalledBytes ->
            evs = CallSaveReactorState st'
                  :: broadcast f None FnMaj23Channel marshalledBytes
            /\ forall p, PeerSend p FnMaj23Channel marshalledBytes ∈ evs
                         <-> p ∈ connectedPeers f))
  /\ (FnVoteSet.Nonce remote = currentNonce - 1 ->
      ReactorState.PreviousMaj23VoteSets st !! fnID = None ->
      exists st',
        run = Ret (setState st' f, [CallSaveReactorState st'])
        /\ ReactorState.PreviousMaj23VoteSets st' !! fnID = Some remote
        /\ ReactorState.CurrentNonces st' = ReactorState.CurrentNonces st)
  /\ (FnVoteSet.Nonce remote < currentNonce ->
      ~ (FnVoteSet.Nonce remote = currentNonce - 1
         /\ ReactorState.PreviousMaj23VoteSets st !! fnID = None) ->
      run = Ret (setState st f, [CallSaveReactorState st])).
Proof.
  intros Hst Hwire Hcfg validFor Hvalid Hexp Hconv fnID currentNonce Hrn Hcn run.
  assert (Hrun : run =
    let '(st', needToBroadcast) :=
      if FnVoteSet.Nonce remote <? currentNonce
      then
        if (FnVoteSet.Nonce remote =? Int64.sub currentNonce 1)
           && bool_decide (ReactorState.PreviousMaj23VoteSets st !! fnID = None)
        then (installMaj23 st fnID remote signedBy, false)
        else (st, false)
      else
        (ReactorState.setCurrentNonces
           (<[fnID := Int64.add (FnVoteSet.Nonce remote) 1]> (ReactorState.CurrentNonces st))
           (installMaj23 st fnID remote signedBy), true) in
    if negb (SaveReactorState st')
    then Ret (setState st' f, [CallSaveReactorState st'])
    else if negb needToBroadcast
    then Ret (setState st' f, [CallSaveReactorState st'])
    else
      match FnVoteSet.Marshal remote with
      | None => Ret (setState st' f, [CallSaveReactorState st'])
      | Some marshalledBytes =>
          Ret (setState st' f,
               CallSaveReactorState st' :: broadcast f None FnMaj23Channel marshalledBytes)
      end).
  { subst run. unfold handleMaj23VoteSetChannel, theState, theThreshold.
    rewrite Hst, Hcfg. simpl. rewrite Hwire.
    subst validFor fnID currentNonce. cbv beta in Hvalid.
    destruct Hvalid as [[Hv ->]|(Hv & Hprev & Hv')].
    - rewrite Hv. rewrite Hexp. simpl. rewrite Hconv. reflexivity.
    - rewrite Hv, Hprev, Hv'. rewrite Hexp. simpl. rewrite Hconv. reflexivity. }
  unfold Int64.in_range in Hrn, Hcn.
  repeat split.
  - (* the remote vote set is not behind *)
    intros Hge.
    assert (E : (FnVoteSet.Nonce remote <? currentNonce) = false) by (apply Z.ltb_ge; lia).
    rewrite E in Hrun.
    set (st' := ReactorState.setCurrentNonces _ _) in Hrun.
    assert (Hfields :
      ReactorState.PreviousMaj23VoteSets st' !! fnID = Some remote
      /\ ReactorState.CurrentNonces st' !! fnID = Some (Int64.add (FnVoteSet.Nonce remote) 1)
      /\ ReactorState.PreviousValidatorSet st' = Some signedBy
      /\ ReactorState.CurrentProposalInfo st' !! fnID = Some (FnVoteSet.ProposalInfo remote)).
    { subst st'. unfold installMaj23. simpl. rewrite !lookup_insert_eq. auto. }
    destruct Hfields as (Hm & Hn & Hp & Hi).
    assert (Hadd : FnVoteSet.Nonce remote < Int64.max_int ->
                   ReactorState.CurrentNonces st' !! fnID = Some (FnVoteSet.Nonce remote + 1))
      by (intros Hmax; rewrite Hn, Int64_add_1 by lia; reflexivity).
    destruct (SaveReactorState st') eqn:Esave; simpl in Hrun.
    + destruct (FnVoteSet.Marshal remote) as [m|] eqn:Em.
      * exists st', (CallSaveReactorState st' :: broadcast f None FnMaj23Channel m).
        do 6 (split; [assumption|]).
        intros mb _ Hmar. assert (mb = m) as -> by congruence.
        split; [reflexivity|].
        intros p. split.
        -- intros Hin. apply elem_of_cons in Hin as [Hin|Hin]; [discriminate Hin|].
           apply broadcast_send in Hin. tauto.
        -- intros Hin. apply elem_of_cons. right.
           apply broadcast_send. split; [exact Hin | discriminate].
      * exists st', [CallSaveReactorState st'].
        do 6 (split; [assumption|]).
        intros mb _ Hmar. congruence.
    + exists st', [CallSaveReactorState st'].
      do 6 (split; [assumption|]).
      intros mb Hsave. congruence.
  - (* one nonce behind, nothing stored yet *)
    intros Heq Hnone.
    assert (E : (FnVoteSet.Nonce remote <? currentNonce) = true) by (apply Z.ltb_lt; lia).
    rewrite E, Int64_sub_1 in Hrun by lia.
    rewrite (proj2 (Z.eqb_eq _ _) Heq), bool_decide_eq_true_2 in Hrun by exact Hnone.
    simpl in Hrun.
    exists (installMaj23 st fnID remote signedBy). split.
    + destruct (SaveReactorState _); exact Hrun.
    + unfold installMaj23. simpl. rewrite lookup_insert_eq. auto.
  - (* anything else behind: dropped *)
    intros Hlt Hnot.
    assert (E : (FnVoteSet.Nonce remote <? currentNonce) = true) by (apply Z.ltb_lt; lia).
    rewrite E, Int64_sub_1 in Hrun by lia.
    assert (E' : (FnVoteSet.Nonce remote =? currentNonce - 1)
                 && bool_decide (ReactorState.PreviousMaj23VoteSets st !! fnID = None)
                 = false).
    { apply andb_false_iff.
      destruct (Z.eqb_spec (FnVoteSet.Nonce remote) (currentNonce - 1)); [|auto].
      right. apply bool_decide_eq_false. tauto. }
    rewrite E' in Hrun. simpl in Hrun.
    destruct (SaveReactorState st); exact Hrun.
Qed.

End maj23.

(** Scenario S5: a node with empty state receives the Maj23 vote set of
    nonce 17; its nonce becomes 18 and the vote set goes out to its peers. *)
Lemma handleMaj23VoteSetChannel_catch_up_witness :
  let remote := Fixture.voteSet "a" 17 100 Fixture.three
                  [VoteTypeAgree; VoteTypeAgree; VoteTypeAgree] in
  let f := Fixture.reactor 3 Fixture.three Maj23SigningThreshold
             {[ "p1"; "p2" ]} ∅ ReactorState.empty in
  exists st' evs,
    handleMaj23VoteSetChannel (H := Fixture.env (200 * Second) (Some remote))
      (H0 := Fixture.host None) f "p1" []
    = Ret (setState st' f, evs)
    /\ ReactorState.CurrentNonces st' !! "f" = Some 18
    /\ ReactorState.PreviousMaj23VoteSets st' !! "f" = Some remote
    /\ PeerSend "p2" FnMaj23Channel (Fixture.b 0) ∈ evs.
Proof.
  intros remote f.
  destruct (handleMaj23VoteSetChannel_catch_up
              (H := Fixture.env (200 * Second) (Some remote)) (H0 := Fixture.host None)
              f "p1" [] ReactorState.empty remote
              {| ReactorConfig.OverrideValidatorSet := None;
                 ReactorConfig.FnVoteSigningThreshold := Maj23SigningThreshold |}
              Fixture.three eq_refl eq_refl eq_refl
              (or_introl (conj eq_refl eq_refl)) eq_refl eq_refl
              ltac:(change (Int64.in_range 17);
                    unfold Int64.in_range, Int64.min_int, Int64.max_int; lia)
              ltac:(change (Int64.in_range 1);
                    unfold Int64.in_range, Int64.min_int, Int64.max_int; lia))
    as [Hahead _].
  destruct (Hahead ltac:(change (17 >= 1); lia))
    as (st' & evs & Hrun & Hmaj & _ & Hnonce & _ & _ & Hsend).
  exists st', evs. split; [exact Hrun|].
  split; [apply Hnonce; change (17 < Int64.max_int); unfold Int64.max_int; lia|].
  split; [exact Hmaj|].
  destruct (Hsend (Fixture.b 0) eq_refl eq_refl) as [_ Hpeers].
  apply Hpeers. set_solver.
Defined.

(** ** Proposing *)

Section proposing.
Context `{FnVoteSet.Env} `{Host}.

(** C8.  When the vote set just created by [propose] meets the Agree
    threshold with the proposer's vote alone, SubmitMultiSignedMessage is
    called at once and the routine returns: the reactor, and with it the
    whole ReactorState, is the one it started from (the vote set is not in
    CurrentVoteSets, CurrentNonces[FnID] has not moved), and the only
    calls made are MapMessage and the submission: no commit routine is
    started, nothing is saved, nothing is sent. *)
Theorem propose_single_validator_shortcut
    (f : FnConsensusReactor) (fnID : string) (fn : Fn) (vals : list Validator)
    (currentProposalInfo : option ProposalInfo.t) (validatorIndex : Z)
    (st : ReactorState.t) (c : ReactorConfig.t)
    (ctx message signature : bytes) (id : string) (voteSet : FnVoteSet.t) :
  PrepareContext fn = Some (true, ctx) ->
  Z.of_nat (length ctx) <= MaxContextSize ->
  GetMessageAndSignature fn ctx = Some (message, signature) ->
  MapMessage fn ctx (calculateMessageHash message) message = true ->
  is_Some (fnRegistry f !! fnID) ->
  state f = Some st ->
  NewVoteSetID = Some id ->
  FnVoteSet.NewVoteSet id (default 1 (ReactorState.CurrentNonces st !! fnID)) (chainID f)
    ExpiresIn validatorIndex ctx
    (NewFnVotePayload fnID
       (NewFnExecutionResponse
          {| ind_Status := 0; ind_Error := ""; ind_Hash := calculateMessageHash message;
             ind_OracleSignature := signature |}
          validatorIndex vals))
    (privValidator f) vals currentProposalInfo = Some voteSet ->
  cfg f = Some c ->
  FnVoteSet.IsAgree voteSet (ReactorConfig.FnVoteSigningThreshold c) vals = true ->
  propose f fnID fn vals currentProposalInfo validatorIndex
  = Ret (f, [CallMapMessage fnID ctx (calculateMessageHash message) message;
             CallSubmitMultiSignedMessage fnID ctx
               (Hash (Response (FnVoteSet.Payload voteSet)))
               (OracleSignatures (Response (FnVoteSet.Payload voteSet)))]).
Proof.
  intros Hprep Hlen Hmsg Hmap Hreg Hst Hid Hnew Hcfg Hagree.
  unfold propose, theState, theThreshold, NewFnExecutionRequest.
  rewrite Hprep.
  assert (E : (Z.of_nat (length ctx) >? MaxContextSize) = false)
    by (rewrite Z.gtb_ltb; apply Z.ltb_ge; exact Hlen).
  rewrite E. simpl. rewrite Hmsg, Hmap. simpl.
  rewrite bool_decide_eq_true_2 by exact Hreg.
  rewrite Hst. simpl. rewrite Hid, Hnew, Hcfg. simpl. rewrite Hagree. reflexivity.
Qed.

End proposing.

(** Scenario S1: a single validator proposes; message 0xAA, oracle
    signature 0xBB.  The submission is made, the reactor is as before. *)
Lemma propose_single_validator_shortcut_witness :
  let f := Fixture.reactor 1 [Fixture.validator 1 1] Maj23SigningThreshold
             {[ "p1" ]} ∅ ReactorState.empty in
  propose (H := Fixture.env (100 * Second) None) (H0 := Fixture.host None)
    f "f" Fixture.fn [Fixture.validator 1 1] None 0
  = Ret (f, [CallMapMessage "f" (Fixture.b 7) (Fixture.b 170) (Fixture.b 170);
             CallSubmitMultiSignedMessage "f" (Fixture.b 7) (Fixture.b 170)
               [Fixture.b 187]]).
Proof.
  intros f.
  refine (propose_single_validator_shortcut
            (H := Fixture.env (100 * Second) None) (H0 := Fixture.host None)
            f "f" Fixture.fn [Fixture.validator 1 1] None 0 ReactorState.empty
            {| ReactorConfig.OverrideValidatorSet := None;
               ReactorConfig.FnVoteSigningThreshold := Maj23SigningThreshold |}
            (Fixture.b 7) (Fixture.b 170) (Fixture.b 187) "fresh" _
            eq_refl _ eq_refl eq_refl _ eq_refl eq_refl eq_refl eq_refl eq_refl).
  - vm_compute. discriminate.
  - exists Fixture.fn. reflexivity.
Defined.

(** ** Start-up *)

Section startup.
Context `{FnVoteSet.Env} `{Host}.

Lemma dropExpired_lookup (cur : gmap string FnVoteSet.t) (fnID k : string) :
  dropExpired cur fnID !! k
  = match cur !! k with
    | Some vs =>
        if bool_decide (fnID = k) && FnVoteSet.IsExpired vs ExpiresIn then None else Some vs
    | None => None
    end.
Proof.
  unfold dropExpired. destruct (decide (fnID = k)) as [->|Hne].
  - rewrite bool_decide_eq_true_2 by reflexivity.
    destruct (cur !! k) as [vs|] eqn:E; [|exact E]. simpl.
    destruct (FnVoteSet.IsExpired vs ExpiresIn); [apply lookup_delete_eq | exact E].
  - rewrite bool_decide_eq_false_2 by exact Hne. simpl.
    destruct (cur !! fnID) as [vs|].
    + destruct (FnVoteSet.IsExpired vs ExpiresIn).
      * rewrite lookup_delete_ne by exact Hne. destruct (cur !! k); reflexivity.
      * destruct (cur !! k); reflexivity.
    + destruct (cur !! k); reflexivity.
Qed.

Lemma foldl_dropExpired_lookup (fnIDs : list string) (cur : gmap string FnVoteSet.t)
    (k : string) :
  foldl dropExpired cur fnIDs !! k
  = match cur !! k with
    | Some vs =>
        if bool_decide (k ∈ fnIDs) && FnVoteSet.IsExpired vs ExpiresIn then None else Some vs
    | None => None
    end.
Proof.
  revert cur. induction fnIDs as [|a fnIDs IH]; intros cur.
  - simpl foldl. destruct (cur !! k); [|reflexivity].
    destruct (bool_decide (k ∈ [])) eqn:E; [|reflexivity].
    apply bool_decide_eq_true in E. apply elem_of_nil in E. destruct E.
  - simpl foldl. rewrite IH, dropExpired_lookup.
    destruct (cur !! k) as [vs|]; [|reflexivity].
    destruct (FnVoteSet.IsExpired vs ExpiresIn) eqn:Eexp.
    + rewrite !andb_true_r.
      destruct (bool_decide (a = k)) eqn:Ea.
      * apply bool_decide_eq_true in Ea.
        rewrite bool_decide_eq_true_2 by (apply elem_of_cons; auto). reflexivity.
      * apply bool_decide_eq_false in Ea. rewrite Eexp, andb_true_r.
        rewrite (bool_decide_ext (k ∈ a :: fnIDs) (k ∈ fnIDs)); [reflexivity|].
        rewrite elem_of_cons. split; [intros [->|Hin]; [contradiction | exact Hin] | auto].
    + rewrite !andb_false_r. rewrite Eexp, andb_false_r. reflexivity.
Qed.

(** C10.  On start-up every registered FnID whose persisted current vote
    set is expired with respect to ExpiresIn loses it from
    CurrentVoteSets, and the state is handed to SaveReactorState; the
    deleted vote set is not put into PreviousTimedOutVoteSets, whereas a
    progress tick on the same state does archive it there; the persisted
    vote sets that are not expired, those of unregistered FnIDs, and every
    other field of the state are unchanged. *)
Theorem OnStart_drops_expired_without_archiving
    (f : FnConsensusReactor) (loaded : ReactorState.t) :
  LoadReactorState = Some loaded ->
  exists st' evs err,
    OnStart f = (setState st' f, evs, err)
    /\ CallSaveReactorState st' ∈ evs
    /\ (forall fnID vs,
          ReactorState.CurrentVoteSets loaded !! fnID = Some vs ->
          ReactorState.CurrentVoteSets st' !! fnID
          = if bool_decide (is_Some (fnRegistry f !! fnID))
               && FnVoteSet.IsExpired vs ExpiresIn
            then None else Some vs)
    /\ (forall fnID,
          ReactorState.CurrentVoteSets loaded !! fnID = None ->
          ReactorState.CurrentVoteSets st' !! fnID = None)
    /\ ReactorState.PreviousTimedOutVoteSets st' = ReactorState.PreviousTimedOutVoteSets loaded
    /\ ReactorState.PreviousMaj23VoteSets st' = ReactorState.PreviousMaj23VoteSets loaded
    /\ ReactorState.CurrentNonces st' = ReactorState.CurrentNonces loaded
    /\ ReactorState.CurrentProposalInfo st' = ReactorState.CurrentProposalInfo loaded
    /\ ReactorState.PreviousValidatorSet st' = ReactorState.PreviousValidatorSet loaded
    /\ (forall vals fnID vs,
          ReactorState.CurrentVoteSets loaded !! fnID = Some vs ->
          FnVoteSet.IsExpired vs ExpiresIn = true ->
          ReactorState.PreviousTimedOutVoteSets (progressStep vals loaded fnID).1 !! fnID
          = Some vs
          /\ ReactorState.CurrentVoteSets (progressStep vals loaded fnID).1 !! fnID = None).
Proof.
  intros Hload. unfold OnStart. rewrite Hload.
  set (st' := ReactorState.setCurrentVoteSets _ loaded).
  assert (Hin : forall fnID : string,
             bool_decide (fnID ∈ elements (dom (fnRegistry f)))
             = bool_decide (is_Some (fnRegistry f !! fnID))).
  { intros fnID. apply bool_decide_ext. rewrite elem_of_elements, elem_of_dom. tauto. }
  assert (Hrest :
    (forall fnID vs,
        ReactorState.CurrentVoteSets loaded !! fnID = Some vs ->
        ReactorState.CurrentVoteSets st' !! fnID
        = if bool_decide (is_Some (fnRegistry f !! fnID)) && FnVoteSet.IsExpired vs ExpiresIn
          then None else Some vs)
    /\ (forall fnID,
          ReactorState.CurrentVoteSets loaded !! fnID = None ->
          ReactorState.CurrentVoteSets st' !! fnID = None)
    /\ ReactorState.PreviousTimedOutVoteSets st' = ReactorState.PreviousTimedOutVoteSets loaded
    /\ ReactorState.PreviousMaj23VoteSets st' = ReactorState.PreviousMaj23VoteSets loaded
    /\ ReactorState.CurrentNonces st' = ReactorState.CurrentNonces loaded
    /\ ReactorState.CurrentProposalInfo st' = ReactorState.CurrentProposalInfo loaded
    /\ ReactorState.PreviousValidatorSet st' = ReactorState.PreviousValidatorSet loaded
    /\ (forall vals fnID vs,
          ReactorState.CurrentVoteSets loaded !! fnID = Some vs ->
          FnVoteSet.IsExpired vs ExpiresIn = true ->
          ReactorState.PreviousTimedOutVoteSets (progressStep vals loaded fnID).1 !! fnID
          = Some vs
          /\ ReactorState.CurrentVoteSets (progressStep vals loaded fnID).1 !! fnID = None)).
  { split; [|split; [|do 5 (split; [reflexivity|])]].
    - intros fnID vs Hcur. subst st'. simpl.
      rewrite foldl_dropExpired_lookup, Hcur, Hin. reflexivity.
    - intros fnID Hcur. subst st'. simpl.
      rewrite foldl_dropExpired_lookup, Hcur. reflexivity.
    - intros vals fnID vs Hcur Hexp. unfold progressStep. rewrite Hcur, Hexp. simpl.
      split; [apply lookup_insert_eq | apply lookup_delete_eq]. }
  destruct (SaveReactorState st').
  - exists st', [CallSaveReactorState st'; GoProgressRoutine], None.
    split; [reflexivity|]. split; [apply elem_of_cons; auto | exact Hrest].
  - exists st', [CallSaveReactorState st'], (Some ErrSaveReactorState).
    split; [reflexivity|]. split; [apply elem_of_cons; auto | exact Hrest].
Qed.

End startup.

(** A restart 100 seconds after the creation of the persisted vote set:
    it is gone from CurrentVoteSets and absent from
    PreviousTimedOutVoteSets. *)
Lemma OnStart_drops_expired_without_archiving_witness :
  let vs := Fixture.voteSet "a" 1 100 Fixture.three
              [VoteTypeAgree; VoteTypeUnvoted; VoteTypeUnvoted] in
  let loaded := Fixture.withCurrent "f" vs 1 in
  let f := Fixture.reactor 1 Fixture.three Maj23SigningThreshold ∅ ∅ ReactorState.empty in
  exists st' evs err,
    OnStart (H := Fixture.env (200 * Second) None) (H0 := Fixture.host (Some loaded)) f
    = (setState st' f, evs, err)
    /\ ReactorState.CurrentVoteSets st' !! "f" = None
    /\ ReactorState.PreviousTimedOutVoteSets st' !! "f" = None.
Proof.
  intros vs loaded f.
  destruct (OnStart_drops_expired_without_archiving
              (H := Fixture.env (200 * Second) None) (H0 := Fixture.host (Some loaded))
              f loaded eq_refl)
    as (st' & evs & err & Hrun & _ & Hcur & _ & Harch & _).
  exists st', evs, err. split; [exact Hrun|]. split.
  - rewrite (Hcur "f" vs eq_refl). reflexivity.
  - rewrite Harch. reflexivity.
Defined.

(** ** The vote-set channel *)

Section votes.
Context `{FnVoteSet.Env} `{Host}.


Lemma run_bind_Ret {A B : Type} (a : A) (k : A -> Run B) : (Ret a ≫= k) = k a.
Proof. reflexivity. Qed.

(** The switch leaves the peers alone and sends nothing; its two flags
    depend on the comparison only. *)
Lemma decide_switch_flags (f : FnConsensusReactor) (st : ReactorState.t) (fnID : string)
    (remote : FnVoteSet.t) (current : option FnVoteSet.t) (currentNonce : Z)
    (vals : list Validator) (cmp : Z) (d : Decided) :
  decide_switch f st fnID remote current currentNonce vals cmp = Ret (inr d) ->
  connectedPeers (d_reactor d) = connectedPeers f
  /\ fnRegistry (d_reactor d) = fnRegistry f
  /\ Forall (fun e => ~ isPeerSend e) (d_events d)
  /\ ((cmp = 0
       /\ d_didWeContribute d = d_hasOurVoteSetChanged d
       /\ exists ours merged,
            ReactorState.CurrentVoteSets st !! fnID = Some ours
            /\ FnVoteSet.Merge ours vals remote = Some (d_hasOurVoteSetChanged d, merged)
            /\ d_currentVoteSet d = merged)
      \/ (cmp = 1 /\ d_didWeContribute d = false /\ d_hasOurVoteSetChanged d = true
          /\ d_currentVoteSet d = remote)
      \/ (cmp <> 0 /\ cmp <> 1
          /\ d_didWeContribute d = false /\ d_hasOurVoteSetChanged d = false
          /\ current = Some (d_currentVoteSet d))).
Proof.
  unfold decide_switch.
  destruct (Z.eqb_spec cmp 0) as [->|Hn0].
  - destruct (ReactorState.CurrentVoteSets st !! fnID) as [ours|]; [|discriminate].
    destruct (FnVoteSet.Merge ours vals remote) as [[ch merged]|] eqn:Em; [|discriminate].
    intros [= <-]. simpl.
    split; [reflexivity|]. split; [reflexivity|]. split; [constructor|].
    left. split; [reflexivity|]. split; [reflexivity|]. exists ours, merged. auto.
  - destruct (Z.eqb_spec cmp 1) as [->|Hn1].
    + assert (Hev : forall l : list Event,
                 Forall (fun e => ~ isPeerSend e) l ->
                 Forall (fun e => ~ isPeerSend e)
                   (l ++ [GoCommitRoutine fnID (commitDeadline remote)])).
      { intros l Hl. apply Forall_app. split; [exact Hl|]. repeat constructor. intros []. }
      destruct current as [ours|].
      * destruct (bool_decide (fnID ∈ commitRoutineQuitCh f)); simpl; [|discriminate].
        intros [= <-]. simpl.
        split; [reflexivity|]. split; [reflexivity|].
        split; [repeat constructor; intros []|].
        right. left. auto.
      * simpl. intros [= <-]. simpl.
        split; [reflexivity|]. split; [reflexivity|].
        split; [repeat constructor; intros []|].
        right. left. auto.
    + destruct (cmp =? -1).
      * destruct current as [ours|]; [|discriminate].
        intros [= <-]. simpl.
        split; [reflexivity|]. split; [reflexivity|]. split; [constructor|].
        right. right. auto.
      * destruct current as [ours|]; [|discriminate].
        intros [= <-]. simpl.
        split; [reflexivity|]. split; [reflexivity|]. split; [constructor|].
        right. right. auto.
Qed.

(** The vote: either the node does not vote and nothing moves, or its
    vote is added and both flags are raised. *)
Lemma addOwnVote_flags (fnID : string) (vals : list Validator) (aw : bool) (own : Z)
    (d d' : Decided) :
  addOwnVote fnID vals aw own d = Ret (inr d') ->
  let voting := aw && negb (FnVoteSet.HaveWeAlreadySigned (d_currentVoteSet d) own) in
  d_reactor d' = d_reactor d
  /\ (Forall (fun e => ~ isPeerSend e) (d_events d) ->
      Forall (fun e => ~ isPeerSend e) (d_events d'))
  /\ ((voting = false /\ d' = d)
      \/ (voting = true /\ d_didWeContribute d' = true /\ d_hasOurVoteSetChanged d' = true)).
Proof.
  unfold addOwnVote.
  destruct (aw && negb (FnVoteSet.HaveWeAlreadySigned (d_currentVoteSet d) own)); simpl.
  - destruct (fnRegistry (d_reactor d) !! fnID) as [fn|]; [|discriminate].
    destruct (GetMessageAndSignature fn _) as [[message signature]|]; [|discriminate].
    destruct (MapMessage fn _ _ _); simpl; [|discriminate].
    match goal with
    | |- context [match ?a with Some _ => _ | None => _ end] => destruct a as [voted|]
    end; [|discriminate].
    intros [= <-]. simpl. split; [reflexivity|]. split.
    + intros Hev. apply Forall_app. split; [exact Hev|]. repeat constructor. intros [].
    + right. auto.
  - intros [= <-]. split; [reflexivity|]. split; [auto|]. left. auto.
Qed.

(** The handler past its guards: a message that decodes to a valid vote
    set whose nonce is not behind. *)
Lemma handleVoteSetChannelMessage_past_guards
    (f : FnConsensusReactor) (sender : string) (msgBytes : bytes)
    (st0 : ReactorState.t) (remote : FnVoteSet.t) :
  state f = Some st0 ->
  FnVoteSet.Unmarshal msgBytes = Some remote ->
  FnVoteSet.IsValid remote (chainID f) MaxContextSize true ExpiresInForSync
    (getValidatorSet f) (fnRegistry f) = true ->
  let vals := getValidatorSet f in
  let fnID := FnVoteSet.GetFnID remote in
  let currentNonce := default 1 (ReactorState.CurrentNonces st0 !! fnID) in
  let st :=
    match ReactorState.CurrentNonces st0 !! fnID with
    | Some _ => st0
    | None =>
        ReactorState.setCurrentNonces (<[fnID := 1]> (ReactorState.CurrentNonces st0)) st0
    end in
  currentNonce <= FnVoteSet.Nonce remote ->
  handleVoteSetChannelMessage f sender msgBytes
  = (cmp ← compareVoteSets f remote (ReactorState.CurrentVoteSets st !! fnID)
             currentNonce vals;
     r ← decide_switch f st fnID remote (ReactorState.CurrentVoteSets st !! fnID)
           currentNonce vals cmp;
     match r with
     | inl out => Ret out
     | inr d =>
         r' ← addOwnVote fnID vals (areWeValidator f vals).1 (areWeValidator f vals).2 d;
         match r' with
         | inl out => Ret out
         | inr d' => Ret (gossip fnID sender d')
         end
     end).
Proof.
  intros Hst Hwire Hvalid vals fnID currentNonce st Hnonce.
  unfold handleVoteSetChannelMessage, theState. rewrite Hst.
  fold vals. destruct (areWeValidator f vals) as [aw own]. simpl.
  rewrite Hwire. subst vals. rewrite Hvalid. simpl. fold fnID.
  subst st currentNonce.
  destruct (ReactorState.CurrentNonces st0 !! fnID) as [n|]; simpl in *.
  - assert (E : (n >? FnVoteSet.Nonce remote) = false)
      by (rewrite Z.gtb_ltb; apply Z.ltb_ge; lia).
    rewrite E, andb_false_r. reflexivity.
  - assert (E : (1 >? FnVoteSet.Nonce remote) = false)
      by (rewrite Z.gtb_ltb; apply Z.ltb_ge; lia).
    rewrite E, andb_false_r. reflexivity.
Qed.

(** C7 (amended).  When the handler reaches its gossip step, the local
    vote set has changed exactly when this node added its own vote, or the
    sender's vote set replaced the local one, or a merge adopted a slot of
    the sender's.  Unchanged, nothing is sent.  Changed and serialised, it
    is sent on the vote-set channel to every connected peer, except that
    the sender is left out when the change was a replacement and this
    node added no vote; the sender is included when this node added its
    own vote, and also when the only change was the merge of the sender's
    payload. *)
Theorem handleVoteSetChannelMessage_gossip
    (f : FnConsensusReactor) (sender : string) (msgBytes : bytes)
    (st0 : ReactorState.t) (remote : FnVoteSet.t) (cmp : Z) (d d' : Decided) :
  state f = Some st0 ->
  FnVoteSet.Unmarshal msgBytes = Some remote ->
  FnVoteSet.IsValid remote (chainID f) MaxContextSize true ExpiresInForSync
    (getValidatorSet f) (fnRegistry f) = true ->
  let vals := getValidatorSet f in
  let fnID := FnVoteSet.GetFnID remote in
  let currentNonce := default 1 (ReactorState.CurrentNonces st0 !! fnID) in
  let st :=
    match ReactorState.CurrentNonces st0 !! fnID with
    | Some _ => st0
    | None =>
        ReactorState.setCurrentNonces (<[fnID := 1]> (ReactorState.CurrentNonces st0)) st0
    end in
  currentNonce <= FnVoteSet.Nonce remote ->
  compareVoteSets f remote (ReactorState.CurrentVoteSets st !! fnID) currentNonce vals
  = Ret cmp ->
  decide_switch f st fnID remote (ReactorState.CurrentVoteSets st !! fnID)
    currentNonce vals cmp = Ret (inr d) ->
  addOwnVote fnID vals (areWeValidator f vals).1 (areWeValidator f vals).2 d
  = Ret (inr d') ->
  let voting :=
    (areWeValidator f vals).1
    && negb (FnVoteSet.HaveWeAlreadySigned (d_currentVoteSet d) (areWeValidator f vals).2) in
  let mergedIn :=
    cmp = 0
    /\ exists ours merged,
         ReactorState.CurrentVoteSets st !! fnID = Some ours
         /\ FnVoteSet.Merge ours vals remote = Some (true, merged) in
  exists f' evs,
    handleVoteSetChannelMessage f sender msgBytes = Ret (f', evs)
    /\ (d_hasOurVoteSetChanged d' = true <-> voting = true \/ cmp = 1 \/ mergedIn)
    /\ (d_hasOurVoteSetChanged d' = false -> Forall (fun e => ~ isPeerSend e) evs)
    /\ (d_hasOurVoteSetChanged d' = true ->
        forall m,
          FnVoteSet.Marshal (d_currentVoteSet d') = Some m ->
          forall p,
            PeerSend p FnVoteSetChannel m ∈ evs <->
            p ∈ connectedPeers f /\ (p = sender -> voting = true \/ mergedIn)).
Proof.
  intros Hst Hwire Hvalid vals fnID currentNonce st Hnonce Hcmp Hswitch Hvote voting mergedIn.
  pose proof (handleVoteSetChannelMessage_past_guards f sender msgBytes st0 remote
                Hst Hwire Hvalid Hnonce) as Hrun.
  cbv zeta in Hrun. fold vals fnID currentNonce st in Hrun.
  rewrite Hcmp, run_bind_Ret, Hswitch, run_bind_Ret, Hvote, run_bind_Ret in Hrun.
  destruct (decide_switch_flags _ _ _ _ _ _ _ _ _ Hswitch) as (Hpeers & _ & Hev & Hflags).
  destruct (addOwnVote_flags _ _ _ _ _ _ Hvote) as (Hreactor & Hev' & Hvoted).
  fold voting in Hvoted. specialize (Hev' Hev).
  exists (gossip fnID sender d').1, (gossip fnID sender d').2.
  split; [rewrite Hrun; destruct (gossip fnID sender d'); reflexivity|].
  (* the flags at the gossip step *)
  assert (Hchanged : d_hasOurVoteSetChanged d' = true <-> voting = true \/ cmp = 1 \/ mergedIn).
  { destruct Hvoted as [[Hv ->]|(Hv & _ & Hc)].
    - rewrite Hv. split.
      + intros Hc. right.
        destruct Hflags as [(-> & _ & ours & merged & Hcur & Hm & _)
                           |[(-> & _)|(_ & _ & _ & Hc' & _)]].
        * right. split; [reflexivity|]. exists ours, merged. rewrite Hc in Hm. auto.
        * left. reflexivity.
        * congruence.
      + intros [Hf|[->|(-> & ours & merged & Hcur & Hm)]]; [discriminate Hf| |].
        * destruct Hflags as [(Hz & _)|[(_ & _ & Hc & _)|(_ & Hn1 & _)]];
            [discriminate Hz | exact Hc | congruence].
        * destruct Hflags as [(_ & _ & ours' & merged' & Hcur' & Hm' & _)
                             |[(Hz & _)|(Hn0 & _)]];
            [congruence | discriminate Hz | congruence].
    - split; [intros _; left; exact Hv | intros _; exact Hc]. }
  assert (Hcontrib : d_hasOurVoteSetChanged d' = true ->
                     (d_didWeContribute d' = true <-> voting = true \/ mergedIn)).
  { intros Hc. destruct Hvoted as [[Hv ->]|(Hv & Hd & _)].
    - rewrite Hv. split.
      + intros Hd. right.
        destruct Hflags as [(-> & Heq & ours & merged & Hcur & Hm & _)
                           |[(_ & Hd' & _)|(_ & _ & Hd' & _)]]; [|congruence|congruence].
        split; [reflexivity|]. exists ours, merged. rewrite Hc in Hm. auto.
      + intros [Hf|(-> & ours & merged & Hcur & Hm)]; [discriminate Hf|].
        destruct Hflags as [(_ & Heq & _)|[(Hz & _)|(Hn0 & _)]];
          [congruence | discriminate Hz | congruence].
    - split; [intros _; left; exact Hv | intros _; exact Hd]. }
  split; [exact Hchanged|].
  unfold gossip. split.
  - intros Hc. rewrite Hc. simpl. exact Hev'.
  - intros Hc m Hm p. rewrite Hc, Hm. simpl.
    rewrite elem_of_app, broadcast_send. simpl.
    rewrite Hreactor, Hpeers.
    specialize (Hcontrib Hc).
    split.
    + intros [Hin|[Hp Hskip]].
      * exfalso. rewrite Forall_forall in Hev'. exact (Hev' _ Hin I).
      * split; [exact Hp|]. intros ->.
        destruct (d_didWeContribute d'); [apply Hcontrib; reflexivity|].
        exfalso. apply Hskip. reflexivity.
    + intros [Hp Hsender]. right. split; [exact Hp|].
      destruct (d_didWeContribute d') eqn:Ed; simpl; [discriminate|].
      intros [= ->]. specialize (Hsender eq_refl).
      apply Hcontrib in Hsender. discriminate Hsender.
Qed.

End votes.

(** An observer with no current vote set receives a proposal from "p1":
    it replaces, does not vote, and passes the vote set on to "p2" only. *)
Lemma handleVoteSetChannelMessage_gossip_witness :
  let remote := Fixture.voteSet "a" 1 100 Fixture.three
                  [VoteTypeAgree; VoteTypeUnvoted; VoteTypeUnvoted] in
  let f := Fixture.reactor 9 Fixture.three Maj23SigningThreshold
             {[ "p1"; "p2" ]} ∅ ReactorState.empty in
  exists f' evs,
    handleVoteSetChannelMessage (H := Fixture.env (110 * Second) (Some remote))
      (H0 := Fixture.host None) f "p1" []
    = Ret (f', evs)
    /\ PeerSend "p2" FnVoteSetChannel (Fixture.b 0) ∈ evs
    /\ ~ PeerSend "p1" FnVoteSetChannel (Fixture.b 0) ∈ evs.
Proof.
  intros remote f.
  edestruct (handleVoteSetChannelMessage_gossip
               (H := Fixture.env (110 * Second) (Some remote)) (H0 := Fixture.host None)
               f "p1" [] ReactorState.empty remote)
    as (f' & evs & Hrun & Hchanged & _ & Hsent).
  - reflexivity.
  - reflexivity.
  - reflexivity.
  - change (1 <= 1). lia.
  - reflexivity.
  - reflexivity.
  - reflexivity.
  - exists f', evs. split; [exact Hrun|].
    specialize (Hsent eq_refl (Fixture.b 0) eq_refl).
    split.
    + apply Hsent. split; [set_solver | discriminate].
    + intros Hin. apply Hsent in Hin as [_ Hin].
      destruct (Hin eq_refl) as [Hv|[Hz _]]; [discriminate Hv | discriminate Hz].
Defined.

(** C7 as stated fails on a merge.  Validator 1 holds a vote set with its
    own vote; "p1" sends the same vote set carrying one more vote.  The
    only change is the merge of the sender's payload (the node has signed
    already and adds nothing), yet the merged vote set is sent back to the
    sender "p1" as well. *)
Lemma handleVoteSetChannelMessage_merge_echoes_to_sender :
  let ours := Fixture.voteSet "a" 1 100 Fixture.three
                [VoteTypeAgree; VoteTypeUnvoted; VoteTypeUnvoted] in
  let remote := Fixture.voteSet "a" 1 100 Fixture.three
                  [VoteTypeAgree; VoteTypeAgree; VoteTypeUnvoted] in
  let f := Fixture.reactor 1 Fixture.three Maj23SigningThreshold
             {[ "p1"; "p2" ]} {[ "f" ]} (Fixture.withCurrent "f" ours 1) in
  (areWeValidator f Fixture.three).1 = true
  /\ FnVoteSet.HaveWeAlreadySigned ours 0 = true
  /\ FnVoteSet.Merge (H := Fixture.env (110 * Second) (Some remote)) ours Fixture.three remote
     = Some (true, remote)
  /\ exists f' evs,
       handleVoteSetChannelMessage (H := Fixture.env (110 * Second) (Some remote))
         (H0 := Fixture.host None) f "p1" []
       = Ret (f', evs)
       /\ (state f' ≫= fun s => ReactorState.CurrentVoteSets s !! "f") = Some remote
       /\ PeerSend "p1" FnVoteSetChannel (Fixture.b 0) ∈ evs.
Proof.
  intros ours remote f.
  split; [reflexivity|]. split; [reflexivity|]. split; [vm_compute; reflexivity|].
  eexists _, _. split; [vm_compute; reflexivity|].
  split; [vm_compute; reflexivity|].
  repeat constructor.
Qed.

(** * Further properties of the reactor *)

(** ** Proposer rotation, all branches *)

Section rotation_all.
Context `{FnVoteSet.Env}.

Lemma sameAddresses_eq (a b : list bytes) :
  length a = length b -> (sameAddresses a b = true <-> a = b).
Proof.
  revert b. induction a as [|x a IH]; intros [|y b] Hlen; simpl in *; try discriminate.
  - tauto.
  - unfold bytes_Equal. case_bool_decide as Hxy.
    + subst y. rewrite IH by lia. split; [intros ->; reflexivity | intros [= ->]; reflexivity].
    + split; [discriminate | intros [= ? _]; contradiction].
Qed.


(** X2.  How the list is seeded.  A previous Maj23 vote set bound to
    another validator set gives the addresses of the current validators,
    one per validator and in their order; one bound to the current set
    gives its own active validators whenever no proposal info is stored or
    the stored list is a different one. *)
Theorem getNextProposalInfo_seeds
    (fnID : string) (st : ReactorState.t) (vals : list Validator) (last : FnVoteSet.t) :
  ReactorState.PreviousMaj23VoteSets st !! fnID = Some last ->
  (FnVoteSet.ValidatorsHash last <> FnVoteSet.ValidatorSetHash vals ->
   getNextProposalInfo fnID st vals
   = Some {| ProposalInfo.LastActiveValidators := Address <$> vals;
             ProposalInfo.CurrentTurn := 0 |}
   /\ length (Address <$> vals) = length vals)
  /\ (FnVoteSet.ValidatorsHash last = FnVoteSet.ValidatorSetHash vals ->
      (forall cpi, ReactorState.proposalInfoAt st fnID = Some cpi ->
                   ProposalInfo.LastActiveValidators cpi <> FnVoteSet.ActiveValidators last) ->
      getNextProposalInfo fnID st vals
      = Some {| ProposalInfo.LastActiveValidators := FnVoteSet.ActiveValidators last;
                ProposalInfo.CurrentTurn := 0 |}).
Proof.
  intros Hlast. unfold getNextProposalInfo. rewrite Hlast. split.
  - intros Hne. unfold bytes_Equal. rewrite bool_decide_eq_false_2 by exact Hne. simpl.
    split; [reflexivity | apply length_fmap].
  - intros Heq Hdiff. unfold bytes_Equal. rewrite bool_decide_eq_true_2 by exact Heq. simpl.
    destruct (ReactorState.proposalInfoAt st fnID) as [cpi|]; [|reflexivity].
    specialize (Hdiff cpi eq_refl).
    destruct (Nat.eqb_spec (length (FnVoteSet.ActiveValidators last))
                (length (ProposalInfo.LastActiveValidators cpi))) as [Hlen|Hlen]; simpl;
      [|reflexivity].
    destruct (sameAddresses _ _) eqn:Esame; [|reflexivity].
    apply sameAddresses_eq in Esame; [|exact Hlen]. congruence.
Qed.

End rotation_all.


(** The cursor stored for "f" lists two validators only: the three active
    validators of the last Maj23 vote set are adopted. *)
Lemma getNextProposalInfo_seeds_witness :
  let st := ReactorState.setCurrentProposalInfo
              {[ "f" := Some {| ProposalInfo.LastActiveValidators := [Fixture.b 1; Fixture.b 2];
                                ProposalInfo.CurrentTurn := 1 |} ]} Fixture.rotating in
  getNextProposalInfo (H := Fixture.env 0 None) "f" st Fixture.three
  = Some {| ProposalInfo.LastActiveValidators := [Fixture.b 1; Fixture.b 2; Fixture.b 3];
            ProposalInfo.CurrentTurn := 0 |}.
Proof.
  intros st.
  refine (proj2 (getNextProposalInfo_seeds (H := Fixture.env 0 None) "f" st Fixture.three
                   _ eq_refl) eq_refl _).
  intros cpi [= <-]. discriminate.
Defined.

(** ** Comparing vote sets, all branches *)

Section compare_all.
Context `{FnVoteSet.Env}.

(** X3.  With a configuration in place the comparison answers -1, 0 or 1,
    and it answers 0, the merge, exactly when there is a current vote set
    carrying the ID of the remote one. *)
Theorem compareVoteSets_merge_iff_same_ID
    (f : FnConsensusReactor) (c : ReactorConfig.t) (remote : FnVoteSet.t)
    (current : option FnVoteSet.t) (currentNonce : Z) (vals : list Validator) :
  cfg f = Some c ->
  exists r,
    compareVoteSets f remote current currentNonce vals = Ret r
    /\ (r = -1 \/ r = 0 \/ r = 1)
    /\ (r = 0 <-> exists cur, current = Some cur /\ FnVoteSet.ID cur = FnVoteSet.ID remote).
Proof.
  intros Hcfg. unfold compareVoteSets, theThreshold. rewrite Hcfg.
  destruct current as [cur|].
  - case_bool_decide as Hid.
    + exists 0. split; [reflexivity|]. split; [auto|]. split; [eauto | reflexivity].
    + simpl.
      assert (Hno : forall r, r <> 0 ->
                 (r = 0 <-> exists cur0, Some cur = Some cur0
                                         /\ FnVoteSet.ID cur0 = FnVoteSet.ID remote)).
      { intros r Hr. split; [contradiction | intros (cur0 & [= <-] & Hid'); contradiction]. }
      repeat match goal with
             | |- context [if ?b then _ else _] => destruct b
             end;
        (eexists; split; [reflexivity|]; split; [auto | apply Hno; discriminate]).
  - assert (Hno : forall r, r <> 0 ->
               (r = 0 <-> exists cur0, @None FnVoteSet.t = Some cur0
                                       /\ FnVoteSet.ID cur0 = FnVoteSet.ID remote)).
    { intros r Hr. split; [contradiction | intros (cur0 & Hc & _); discriminate Hc]. }
    destruct (currentNonce =? FnVoteSet.Nonce remote); simpl.
    + exists 1. split; [reflexivity|]. split; [auto | apply Hno; discriminate].
    + destruct (FnVoteSet.HasConverged _ _ _);
        (eexists; split; [reflexivity|]; split; [auto | apply Hno; discriminate]).
Qed.

(** X4.  Two nodes never swap their vote sets.  If a node holding [b]
    answers "replace" when shown [a], then a node with the same threshold
    and validator set holding [a] answers "keep" when shown [b]. *)
Theorem compareVoteSets_no_swap
    (f g : FnConsensusReactor) (c c' : ReactorConfig.t) (a b : FnVoteSet.t)
    (nonce nonce' : Z) (vals : list Validator) :
  cfg f = Some c -> cfg g = Some c' ->
  ReactorConfig.FnVoteSigningThreshold c = ReactorConfig.FnVoteSigningThreshold c' ->
  compareVoteSets f a (Some b) nonce vals = Ret 1 ->
  compareVoteSets g b (Some a) nonce' vals = Ret (-1).
Proof.
  intros Hf Hg Hth. unfold compareVoteSets, theThreshold. rewrite Hf, Hg, <- Hth. simpl.
  case_bool_decide as Hid; [discriminate|].
  rewrite bool_decide_eq_false_2 by congruence.
  destruct (FnVoteSet.IsAgree b _ vals), (FnVoteSet.IsDisagree b _ vals),
    (FnVoteSet.IsAgree a _ vals), (FnVoteSet.IsDisagree a _ vals); simpl;
    try discriminate; try reflexivity;
    repeat match goal with
           | |- context [?x <? ?y] => destruct (Z.ltb_spec x y)
           | |- context [?x >? ?y] => rewrite (Z.gtb_ltb x y)
           end; try discriminate; try reflexivity; lia.
Qed.

(** X5.  The order of precedence.  With no current vote set the remote one
    is taken when its nonce is the current nonce or when it has converged,
    and left otherwise.  With two vote sets of different IDs, a vote set
    at the threshold beats one below it, two below it leave the current
    one in place, and among two at the threshold the one at the Agree
    threshold beats the one that is not. *)
Theorem compareVoteSets_precedence
    (f : FnConsensusReactor) (c : ReactorConfig.t) (remote current : FnVoteSet.t)
    (currentNonce : Z) (vals : list Validator) :
  cfg f = Some c ->
  let th := ReactorConfig.FnVoteSigningThreshold c in
  let met vs := FnVoteSet.IsAgree vs th vals || FnVoteSet.IsDisagree vs th vals in
  (compareVoteSets f remote None currentNonce vals
   = Ret (if (currentNonce =? FnVoteSet.Nonce remote) || FnVoteSet.HasConverged remote th vals
          then 1 else -1))
  /\ (FnVoteSet.ID current <> FnVoteSet.ID remote ->
      let result := compareVoteSets f remote (Some current) currentNonce vals in
      (met current = true -> met remote = false -> result = Ret (-1))
      /\ (met current = false -> met remote = true -> result = Ret 1)
      /\ (met current = false -> met remote = false -> result = Ret (-1))
      /\ (met current = true -> met remote = true ->
          FnVoteSet.IsAgree current th vals = true ->
          FnVoteSet.IsAgree remote th vals = false -> result = Ret (-1))
      /\ (met current = true -> met remote = true ->
          FnVoteSet.IsAgree current th vals = false ->
          FnVoteSet.IsAgree remote th vals = true -> result = Ret 1)).
Proof.
  intros Hcfg th met. unfold compareVoteSets, theThreshold. rewrite Hcfg. fold th. split.
  - destruct (currentNonce =? FnVoteSet.Nonce remote); simpl; [reflexivity|].
    destruct (FnVoteSet.HasConverged remote th vals); reflexivity.
  - intros Hid. rewrite bool_decide_eq_false_2 by exact Hid. simpl. fold th.
    subst met. cbv beta.
    repeat split; intros;
      destruct (FnVoteSet.IsAgree current th vals), (FnVoteSet.IsDisagree current th vals),
        (FnVoteSet.IsAgree remote th vals), (FnVoteSet.IsDisagree remote th vals);
      simpl in *; try discriminate; reflexivity.
Qed.

End compare_all.

(** Two proposals at the Agree threshold with the same counts: the node
    holding the older one replaces it, the node holding the newer keeps it. *)
Lemma compareVoteSets_no_swap_witness :
  let f := Fixture.reactor 1 Fixture.three Maj23SigningThreshold ∅ ∅ ReactorState.empty in
  let agree := [VoteTypeAgree; VoteTypeAgree; VoteTypeAgree] in
  compareVoteSets (H := Fixture.env 0 None) f
    (Fixture.voteSet "a" 1 100 Fixture.three agree)
    (Some (Fixture.voteSet "b" 1 150 Fixture.three agree)) 1 Fixture.three
  = Ret (-1).
Proof.
  intros f agree.
  exact (compareVoteSets_no_swap (H := Fixture.env 0 None) f f _ _
           (Fixture.voteSet "b" 1 150 Fixture.three agree)
           (Fixture.voteSet "a" 1 100 Fixture.three agree)
           1 1 Fixture.three eq_refl eq_refl eq_refl eq_refl).
Defined.

Lemma compareVoteSets_merge_iff_same_ID_witness :
  exists r,
    compareVoteSets (H := Fixture.env 0 None)
      (Fixture.reactor 1 Fixture.three Maj23SigningThreshold ∅ ∅ ReactorState.empty)
      (Fixture.voteSet "a" 1 100 Fixture.three [VoteTypeAgree; VoteTypeAgree; VoteTypeUnvoted])
      (Some (Fixture.voteSet "a" 1 100 Fixture.three
               [VoteTypeAgree; VoteTypeUnvoted; VoteTypeUnvoted]))
      1 Fixture.three = Ret r
    /\ r = 0.
Proof.
  destruct (compareVoteSets_merge_iff_same_ID (H := Fixture.env 0 None)
              (Fixture.reactor 1 Fixture.three Maj23SigningThreshold ∅ ∅ ReactorState.empty)
              _
              (Fixture.voteSet "a" 1 100 Fixture.three
                 [VoteTypeAgree; VoteTypeAgree; VoteTypeUnvoted])
              (Some (Fixture.voteSet "a" 1 100 Fixture.three
                       [VoteTypeAgree; VoteTypeUnvoted; VoteTypeUnvoted]))
              1 Fixture.three eq_refl) as (r & Hrun & _ & Hzero).
  exists r. split; [exact Hrun|]. apply Hzero. eexists. split; reflexivity.
Defined.

(** A node without a current vote set, at nonce 1, is shown a vote set of
    nonce 3 that has not converged: it leaves it. *)
Lemma compareVoteSets_precedence_witness :
  compareVoteSets (H := Fixture.env 0 None)
    (Fixture.reactor 1 Fixture.three Maj23SigningThreshold ∅ ∅ ReactorState.empty)
    (Fixture.voteSet "a" 3 100 Fixture.three [VoteTypeAgree; VoteTypeUnvoted; VoteTypeUnvoted])
    None 1 Fixture.three
  = Ret (-1).
Proof.
  exact (proj1 (compareVoteSets_precedence (H := Fixture.env 0 None)
                  (Fixture.reactor 1 Fixture.three Maj23SigningThreshold ∅ ∅ ReactorState.empty)
                  _
                  (Fixture.voteSet "a" 3 100 Fixture.three
                     [VoteTypeAgree; VoteTypeUnvoted; VoteTypeUnvoted])
                  (Fixture.voteSet "a" 3 100 Fixture.three
                     [VoteTypeAgree; VoteTypeUnvoted; VoteTypeUnvoted])
                  1 Fixture.three eq_refl)).
Defined.

(** ** The commit routine, remaining behaviour *)

Section commit_all.
Context `{FnVoteSet.Env}.

(** X6.  A current vote set that passes the re-validation and has not
    converged is retired: it goes to PreviousTimedOutVoteSets, the current
    slot is cleared, the nonces and the last Maj23 vote sets stay.  When a
    last Maj23 vote set is stored and serialises, it is sent to every
    connected peer on the Maj23 channel before the state is saved; nothing
    is submitted. *)
Theorem handleCommit_not_converged
    (f : FnConsensusReactor) (fnID : string) (fn : Fn) (st : ReactorState.t)
    (vs : FnVoteSet.t) (c : ReactorConfig.t) :
  fnRegistry f !! fnID = Some fn ->
  state f = Some st ->
  ReactorState.CurrentVoteSets st !! fnID = Some vs ->
  cfg f = Some c ->
  FnVoteSet.IsValid vs (chainID f) MaxContextSize true ExpiresIn
    (getValidatorSet f) (fnRegistry f) = true ->
  FnVoteSet.HasConverged vs (ReactorConfig.FnVoteSigningThreshold c) (getValidatorSet f)
  = false ->
  exists st' evs,
    handleCommit f fnID = Ret (setState st' f, evs)
    /\ ReactorState.PreviousTimedOutVoteSets st' !! fnID = Some vs
    /\ ReactorState.CurrentVoteSets st' !! fnID = None
    /\ ReactorState.CurrentNonces st' = ReactorState.CurrentNonces st
    /\ ReactorState.PreviousMaj23VoteSets st' = ReactorState.PreviousMaj23VoteSets st
    /\ (forall id ctx h sigs, ~ CallSubmitMultiSignedMessage id ctx h sigs ∈ evs)
    /\ (ReactorState.PreviousMaj23VoteSets st !! fnID = None ->
        evs = [CallSaveReactorState st'])
    /\ (forall prev m,
          ReactorState.PreviousMaj23VoteSets st !! fnID = Some prev ->
          FnVoteSet.Marshal prev = Some m ->
          evs = broadcast f None FnMaj23Channel m ++ [CallSaveReactorState st']
          /\ forall p, PeerSend p FnMaj23Channel m ∈ evs <-> p ∈ connectedPeers f).
Proof.
  intros Hfn Hst Hcur Hcfg Hvalid Hconv.
  pose proof (handleCommit_past_guards f fnID fn st vs c Hfn Hst Hcur Hcfg Hvalid) as Hrun.
  cbv zeta in Hrun. rewrite Hconv in Hrun. change (negb false) with true in Hrun.
  cbv iota in Hrun.
  assert (Hprev : ReactorState.PreviousMaj23VoteSets (timedOut st fnID vs)
                  = ReactorState.PreviousMaj23VoteSets st) by reflexivity.
  rewrite Hprev in Hrun.
  exists (timedOut st fnID vs).
  assert (Hfields :
    ReactorState.PreviousTimedOutVoteSets (timedOut st fnID vs) !! fnID = Some vs
    /\ ReactorState.CurrentVoteSets (timedOut st fnID vs) !! fnID = None).
  { unfold timedOut. simpl. rewrite lookup_insert_eq, lookup_delete_eq. auto. }
  destruct Hfields as [Harch Hgone].
  assert (Hnosend : forall (l : list Event) id ctx h sigs,
             (forall e, e ∈ l -> isPeerSend e) ->
             ~ CallSubmitMultiSignedMessage id ctx h sigs
               ∈ l ++ [CallSaveReactorState (timedOut st fnID vs)]).
  { intros l id ctx h sigs Hl Hin. apply elem_of_app in Hin as [Hin|Hin].
    - exact (Hl _ Hin).
    - apply list_elem_of_singleton in Hin. discriminate Hin. }
  destruct (ReactorState.PreviousMaj23VoteSets st !! fnID) as [prev|] eqn:Eprev.
  - destruct (FnVoteSet.Marshal prev) as [m|] eqn:Em.
    + exists (broadcast f None FnMaj23Channel m ++ [CallSaveReactorState (timedOut st fnID vs)]).
      split; [exact Hrun|]. do 4 (split; [first [assumption | reflexivity]|]).
      split; [|split; [discriminate|]].
      * intros id ctx h sigs. apply Hnosend.
        intros e He. apply broadcast_spec in He as (p & -> & _). exact I.
      * intros prev' m' [= <-] Hm'. assert (m' = m) as -> by congruence.
        split; [reflexivity|]. intros p. rewrite elem_of_app, broadcast_send. split.
        -- intros [[Hp _]|Hin]; [exact Hp|].
           apply list_elem_of_singleton in Hin. discriminate Hin.
        -- intros Hp. left. split; [exact Hp | discriminate].
    + exists []. split; [exact Hrun|]. do 4 (split; [first [assumption | reflexivity]|]).
      split; [|split; [discriminate|]].
      * intros id ctx h sigs Hin. apply elem_of_nil in Hin. exact Hin.
      * intros prev' m' [= <-] Hm'. congruence.
  - exists [CallSaveReactorState (timedOut st fnID vs)].
    split; [exact Hrun|]. do 4 (split; [first [assumption | reflexivity]|]).
    split; [|split; [reflexivity | discriminate]].
    intros id ctx h sigs Hin. apply list_elem_of_singleton in Hin. discriminate Hin.
Qed.

(** X7.  The commit routine of one FnID, cancelled or fired, leaves the
    entries of every other FnID as they were in all the maps of the state,
    and never writes CurrentProposalInfo; peers, registry, quit channels
    and configuration of the reactor are not touched either. *)
Theorem commitRoutine_frame
    (f f' : FnConsensusReactor) (fnID : string) (timerFired : bool) (evs : list Event)
    (st st' : ReactorState.t) :
  state f = Some st ->
  commitRoutine f fnID timerFired = Ret (f', evs) ->
  state f' = Some st' ->
  (forall k, k <> fnID ->
     ReactorState.CurrentVoteSets st' !! k = ReactorState.CurrentVoteSets st !! k
     /\ ReactorState.PreviousMaj23VoteSets st' !! k = ReactorState.PreviousMaj23VoteSets st !! k
     /\ ReactorState.PreviousTimedOutVoteSets st' !! k
        = ReactorState.PreviousTimedOutVoteSets st !! k
     /\ ReactorState.CurrentNonces st' !! k = ReactorState.CurrentNonces st !! k)
  /\ ReactorState.CurrentProposalInfo st' = ReactorState.CurrentProposalInfo st
  /\ connectedPeers f' = connectedPeers f
  /\ fnRegistry f' = fnRegistry f
  /\ commitRoutineQuitCh f' = commitRoutineQuitCh f
  /\ cfg f' = cfg f.
Proof.
  intros Hst Hrun Hst'. unfold commitRoutine in Hrun.
  assert (Hcases : f' = f
                   \/ exists vs,
                        f' = setState (timedOut st fnID vs) f
                        \/ f' = setState (committed st fnID vs (getValidatorSet f)) f).
  { destruct timerFired.
    - destruct (handleCommit_outcomes f f' fnID evs st Hst Hrun) as [->|(vs & _ & Hor)];
        [left; reflexivity | right; exists vs; exact Hor].
    - injection Hrun as <- _. left. reflexivity. }
  destruct Hcases as [->|(vs & [->| ->])].
  - rewrite Hst in Hst'. injection Hst' as <-. repeat split; reflexivity.
  - injection Hst' as <-. unfold timedOut. simpl.
    split; [|repeat split; reflexivity].
    intros k Hk. rewrite lookup_delete_ne, lookup_insert_ne by congruence. auto.
  - injection Hst' as <-. unfold committed. simpl.
    split; [|repeat split; reflexivity].
    intros k Hk. rewrite lookup_delete_ne, !lookup_insert_ne by congruence. auto.
Qed.

(** X8.  Nothing but an agreed vote set is ever submitted.  Whenever the
    commit routine calls SubmitMultiSignedMessage, the node is a validator
    of the current set, the call carries the execution context, the hash
    and the oracle signatures of the current vote set of that FnID, and
    this vote set passed the re-validation, has converged and meets the
    Agree threshold. *)
Theorem commitRoutine_submits_only_agreed
    (f f' : FnConsensusReactor) (fnID : string) (timerFired : bool) (evs : list Event)
    (id : string) (ctx h : bytes) (sigs : list bytes) :
  commitRoutine f fnID timerFired = Ret (f', evs) ->
  CallSubmitMultiSignedMessage id ctx h sigs ∈ evs ->
  exists st vs c,
    state f = Some st /\ cfg f = Some c
    /\ ReactorState.CurrentVoteSets st !! fnID = Some vs
    /\ CallSubmitMultiSignedMessage id ctx h sigs = submitEvent fnID vs
    /\ (areWeValidator f (getValidatorSet f)).1 = true
    /\ FnVoteSet.IsValid vs (chainID f) MaxContextSize true ExpiresIn
         (getValidatorSet f) (fnRegistry f) = true
    /\ FnVoteSet.HasConverged vs (ReactorConfig.FnVoteSigningThreshold c) (getValidatorSet f)
       = true
    /\ FnVoteSet.IsAgree vs (ReactorConfig.FnVoteSigningThreshold c) (getValidatorSet f)
       = true.
Proof.
  unfold commitRoutine. destruct timerFired.
  2:{ intros [= <- <-] Hin. apply elem_of_nil in Hin. destruct Hin. }
  unfold handleCommit, theState, theThreshold, saveAndReturn.
  destruct (fnRegistry f !! fnID);
    [|intros [= <- <-] Hin; apply elem_of_nil in Hin; destruct Hin].
  destruct (areWeValidator f (getValidatorSet f)) as [aw own]. simpl.
  destruct (state f) as [st|]; simpl; [|discriminate].
  destruct (ReactorState.CurrentVoteSets st !! fnID) as [vs|] eqn:Ecur; [|discriminate].
  destruct (FnVoteSet.IsValid _ _ _ _ _ _ _) eqn:Evalid; simpl;
    [|intros [= <- <-] Hin; apply elem_of_nil in Hin; destruct Hin].
  destruct (cfg f) as [c|]; simpl; [|discriminate].
  destruct (FnVoteSet.HasConverged _ _ _) eqn:Econv; simpl.
  - destruct aw; simpl.
    + destruct (FnVoteSet.IsAgree _ _ _) eqn:Eagree.
      * destruct (FnVoteSet.GetAgreeVoteIndexForValidatorIndex vs own);
          [|intros [= <- <-] Hin; apply elem_of_nil in Hin; destruct Hin].
        destruct (_ =? 0); [discriminate|].
        destruct (_ =? _); intros [= <- <-] Hin.
        -- apply elem_of_cons in Hin as [Hin|Hin].
           ++ exists st, vs, c. repeat split; first [reflexivity | assumption].
           ++ apply list_elem_of_singleton in Hin. discriminate Hin.
        -- apply list_elem_of_singleton in Hin. discriminate Hin.
      * intros [= <- <-] Hin. apply list_elem_of_singleton in Hin. discriminate Hin.
    + intros [= <- <-] Hin. apply list_elem_of_singleton in Hin. discriminate Hin.
  - destruct (ReactorState.PreviousMaj23VoteSets st !! fnID) as [prev|].
    + destruct (FnVoteSet.Marshal prev); intros [= <- <-] Hin.
      * apply elem_of_app in Hin as [Hin|Hin].
        -- apply broadcast_spec in Hin as (p & Hp & _). discriminate Hp.
        -- apply list_elem_of_singleton in Hin. discriminate Hin.
      * apply elem_of_nil in Hin. destruct Hin.
    + intros [= <- <-] Hin. apply list_elem_of_singleton in Hin. discriminate Hin.
Qed.

End commit_all.

(** One vote out of three at commit time, a Maj23 vote set of nonce 1 in
    store: the vote set times out and the stored one goes to "p1". *)
Lemma handleCommit_not_converged_witness :
  let vs := Fixture.voteSet "b" 2 100 Fixture.three
              [VoteTypeAgree; VoteTypeUnvoted; VoteTypeUnvoted] in
  let prev := Fixture.voteSet "a" 1 30 Fixture.three
                [VoteTypeAgree; VoteTypeAgree; VoteTypeAgree] in
  let st := ReactorState.setPreviousMaj23VoteSets {[ "f" := prev ]}
              (Fixture.withCurrent "f" vs 2) in
  let f := Fixture.reactor 1 Fixture.three Maj23SigningThreshold {[ "p1" ]} ∅ st in
  exists st' evs,
    handleCommit (H := Fixture.env (141 * Second) None) f "f" = Ret (setState st' f, evs)
    /\ ReactorState.PreviousTimedOutVoteSets st' !! "f" = Some vs
    /\ ReactorState.CurrentNonces st' !! "f" = Some 2
    /\ PeerSend "p1" FnMaj23Channel (Fixture.b 0) ∈ evs.
Proof.
  intros vs prev st f.
  destruct (handleCommit_not_converged (H := Fixture.env (141 * Second) None)
              f "f" Fixture.fn st vs
              {| ReactorConfig.OverrideValidatorSet := None;
                 ReactorConfig.FnVoteSigningThreshold := Maj23SigningThreshold |}
              eq_refl eq_refl eq_refl eq_refl eq_refl eq_refl)
    as (st' & evs & Hrun & Harch & _ & Hnonce & _ & _ & _ & Hsend).
  exists st', evs. split; [exact Hrun|]. split; [exact Harch|].
  split; [rewrite Hnonce; reflexivity|].
  destruct (Hsend prev (Fixture.b 0) eq_refl eq_refl) as [_ Hpeers].
  apply Hpeers. set_solver.
Defined.

(** Scenario S3 with a second FnID "g" at nonce 7: the commit of "f"
    leaves the nonce of "g" alone. *)
Lemma commitRoutine_frame_witness :
  let vs := Fixture.voteSet "a" 1 100 Fixture.three
              [VoteTypeAgree; VoteTypeAgree; VoteTypeAgree] in
  let st := ReactorState.setCurrentNonces {[ "f" := 1; "g" := 7 ]}
              (Fixture.withCurrent "f" vs 1) in
  let f := Fixture.reactor 1 Fixture.three Maj23SigningThreshold ∅ ∅ st in
  exists f' evs st',
    commitRoutine (H := Fixture.env (141 * Second) None) f "f" true = Ret (f', evs)
    /\ state f' = Some st'
    /\ ReactorState.CurrentNonces st' !! "f" = Some 2
    /\ ReactorState.CurrentNonces st' !! "g" = Some 7.
Proof.
  intros vs st f.
  eexists _, _, _. split; [reflexivity|]. split; [reflexivity|]. split; [reflexivity|].
  destruct (commitRoutine_frame (H := Fixture.env (141 * Second) None)
              f _ "f" true _ st _ eq_refl eq_refl eq_refl) as [Hother _].
  destruct (Hother "g" ltac:(discriminate)) as (_ & _ & _ & Hnonce).
  rewrite Hnonce. reflexivity.
Defined.

(** Scenario S3 at the validator of index 1: what it submits is the
    content of a vote set at the Agree threshold. *)
Lemma commitRoutine_submits_only_agreed_witness :
  let vs := Fixture.voteSet "a" 1 100 Fixture.three
              [VoteTypeAgree; VoteTypeAgree; VoteTypeAgree] in
  let f := Fixture.reactor 2 Fixture.three Maj23SigningThreshold ∅ ∅
             (Fixture.withCurrent "f" vs 1) in
  exists st vs' c,
    state f = Some st
    /\ ReactorState.CurrentVoteSets st !! "f" = Some vs'
    /\ cfg f = Some c
    /\ FnVoteSet.IsAgree (H := Fixture.env (141 * Second) None) vs'
         (ReactorConfig.FnVoteSigningThreshold c) (getValidatorSet f) = true.
Proof.
  intros vs f.
  pose (st' := committed (Fixture.withCurrent "f" vs 1) "f" vs Fixture.three).
  assert (Hrun : commitRoutine (H := Fixture.env (141 * Second) None) f "f" true
                 = Ret (setState st' f, [submitEvent "f" vs; CallSaveReactorState st']))
    by reflexivity.
  destruct (commitRoutine_submits_only_agreed (H := Fixture.env (141 * Second) None)
              f _ "f" true _ "f" (Fixture.b 7) (Fixture.b 170)
              [Fixture.b 187; Fixture.b 187; Fixture.b 187] Hrun
              ltac:(apply elem_of_cons; left; reflexivity))
    as (st & vs' & c & Hst & Hcfg & Hcur & _ & _ & _ & _ & Hagree).
  exists st, vs', c. auto.
Defined.

(** ** The Maj23 channel, remaining behaviour *)

Section maj23_all.
Context `{FnVoteSet.Env} `{Host}.

(** X9.  What the Maj23 handler refuses.  A message that does not decode,
    a vote set valid neither for the current nor for the previous
    validator set, a vote set that is still active (not expired with
    respect to ExpiresIn) and a vote set that has not converged for the
    set that signed it are all dropped: the reactor is as before and no
    call is made, not even the save. *)
Theorem handleMaj23VoteSetChannel_rejects
    (f : FnConsensusReactor) (sender : string) (msgBytes : bytes) (st : ReactorState.t) :
  state f = Some st ->
  let run := handleMaj23VoteSetChannel f sender msgBytes in
  let validFor remote vals :=
    FnVoteSet.IsValid remote (chainID f) MaxContextSize false ExpiresInForSync
      vals (fnRegistry f) in
  (FnVoteSet.Unmarshal msgBytes = None -> run = Ret (f, []))
  /\ (forall remote,
        FnVoteSet.Unmarshal msgBytes = Some remote ->
        validFor remote (getValidatorSet f) = false ->
        (forall prev, ReactorState.PreviousValidatorSet st = Some prev ->
                      validFor remote prev = false) ->
        run = Ret (f, []))
  /\ (forall remote,
        FnVoteSet.Unmarshal msgBytes = Some remote ->
        FnVoteSet.IsExpired remote ExpiresIn = false ->
        run = Ret (f, []))
  /\ (forall remote c signedBy,
        FnVoteSet.Unmarshal msgBytes = Some remote ->
        cfg f = Some c ->
        (validFor remote (getValidatorSet f) = true /\ signedBy = getValidatorSet f
         \/ validFor remote (getValidatorSet f) = false
            /\ ReactorState.PreviousValidatorSet st = Some signedBy
            /\ validFor remote signedBy = true) ->
        FnVoteSet.HasConverged remote (ReactorConfig.FnVoteSigningThreshold c) signedBy
        = false ->
        run = Ret (f, [])).
Proof.
  intros Hst run validFor. subst run.
  unfold handleMaj23VoteSetChannel, theState. rewrite Hst.
  rewrite run_bind_Ret. repeat split.
  - intros ->. reflexivity.
  - intros remote -> Hcur Hprev. subst validFor. cbv beta in *. rewrite Hcur.
    destruct (ReactorState.PreviousValidatorSet st) as [prev|]; [|reflexivity].
    rewrite (Hprev prev eq_refl). reflexivity.
  - intros remote -> Hactive. rewrite Hactive.
    repeat match goal with
           | |- context [match ?x with Some _ => _ | None => _ end] =>
               destruct x; try reflexivity
           | |- context [if ?b then _ else _] => destruct b; try reflexivity
           end.
  - intros remote c signedBy -> Hcfg Hvalid Hconv. subst validFor. cbv beta in *.
    unfold theThreshold. rewrite Hcfg.
    destruct Hvalid as [[Hv ->]|(Hv & Hprev & Hv')].
    + rewrite Hv. destruct (FnVoteSet.IsExpired remote ExpiresIn); [|reflexivity].
      simpl. rewrite Hconv. reflexivity.
    + rewrite Hv, Hprev, Hv'. destruct (FnVoteSet.IsExpired remote ExpiresIn); [|reflexivity].
      simpl. rewrite Hconv. reflexivity.
Qed.

(** Whatever the handler returns, the reactor is untouched, or the state
    is one of the three the vote set of the message can lead to. *)
Lemma handleMaj23VoteSetChannel_outcomes
    (f f' : FnConsensusReactor) (sender : string) (msgBytes : bytes)
    (evs : list Event) (st : ReactorState.t) :
  state f = Some st ->
  handleMaj23VoteSetChannel f sender msgBytes = Ret (f', evs) ->
  (f' = f /\ evs = [])
  \/ exists remote signedBy st',
       FnVoteSet.Unmarshal msgBytes = Some remote
       /\ f' = setState st' f
       /\ (exists m, evs = [CallSaveReactorState st']
                     \/ evs = CallSaveReactorState st' :: broadcast f None FnMaj23Channel m)
       /\ let fnID := FnVoteSet.GetFnID remote in
          let currentNonce := default 1 (ReactorState.CurrentNonces st !! fnID) in
          (st' = st
           \/ (st' = installMaj23 st fnID remote signedBy)
           \/ (currentNonce <= FnVoteSet.Nonce remote
               /\ st' = ReactorState.setCurrentNonces
                          (<[fnID := Int64.add (FnVoteSet.Nonce remote) 1]>
                             (ReactorState.CurrentNonces st))
                          (installMaj23 st fnID remote signedBy))).
Proof.
  intros Hst. unfold handleMaj23VoteSetChannel, theState, theThreshold. rewrite Hst.
  rewrite run_bind_Ret.
  destruct (FnVoteSet.Unmarshal msgBytes) as [remote|]; [|intros [= <- <-]; auto].
  match goal with
  | |- context [match ?x with Some _ => _ | None => _ end = _] =>
      destruct x as [signedBy|]
  end; [|intros [= <- <-]; auto].
  destruct (FnVoteSet.IsExpired remote ExpiresIn); simpl; [|intros [= <- <-]; auto].
  destruct (cfg f) as [c|]; simpl; [|discriminate].
  destruct (FnVoteSet.HasConverged _ _ _); simpl; [|intros [= <- <-]; auto].
  set (fnID := FnVoteSet.GetFnID remote).
  set (currentNonce := default 1 (ReactorState.CurrentNonces st !! fnID)).
  intros Hrun. right. exists remote, signedBy.
  destruct (Z.ltb_spec (FnVoteSet.Nonce remote) currentNonce) as [Hlt|Hge].
  - destruct (_ && _); simpl in Hrun.
    + destruct (SaveReactorState _); simpl in Hrun; injection Hrun as <- <-;
        (eexists; split; [reflexivity|]; split; [reflexivity|];
         split; [exists []; left; reflexivity | right; left; reflexivity]).
    + destruct (SaveReactorState _); simpl in Hrun; injection Hrun as <- <-;
        (eexists; split; [reflexivity|]; split; [reflexivity|];
         split; [exists []; left; reflexivity | left; reflexivity]).
  - simpl in Hrun.
    destruct (SaveReactorState _); simpl in Hrun.
    + destruct (FnVoteSet.Marshal remote) as [m|]; injection Hrun as <- <-.
      * eexists; split; [reflexivity|]; split; [reflexivity|].
        split; [exists m; right; reflexivity | right; right; split; [exact Hge | reflexivity]].
      * eexists; split; [reflexivity|]; split; [reflexivity|].
        split; [exists []; left; reflexivity | right; right; split; [exact Hge | reflexivity]].
    + injection Hrun as <- <-.
      eexists; split; [reflexivity|]; split; [reflexivity|].
      split; [exists []; left; reflexivity | right; right; split; [exact Hge | reflexivity]].
Qed.


End maj23_all.

(** A vote set created 20 seconds ago is still active: dropped. *)
Lemma handleMaj23VoteSetChannel_rejects_witness :
  let remote := Fixture.voteSet "a" 17 100 Fixture.three
                  [VoteTypeAgree; VoteTypeAgree; VoteTypeAgree] in
  let f := Fixture.reactor 3 Fixture.three Maj23SigningThreshold
             {[ "p1"; "p2" ]} ∅ ReactorState.empty in
  handleMaj23VoteSetChannel (H := Fixture.env (120 * Second) (Some remote))
    (H0 := Fixture.host None) f "p1" []
  = Ret (f, []).
Proof.
  intros remote f.
  exact (proj1 (proj2 (proj2
           (handleMaj23VoteSetChannel_rejects
              (H := Fixture.env (120 * Second) (Some remote)) (H0 := Fixture.host None)
              f "p1" [] ReactorState.empty eq_refl))) remote eq_refl eq_refl).
Defined.


(** ** The vote-set channel, remaining behaviour *)

Section votes_all.
Context `{FnVoteSet.Env} `{Host}.

Lemma decide_switch_steps (f : FnConsensusReactor) (st : ReactorState.t) (fnID : string)
    (remote : FnVoteSet.t) (current : option FnVoteSet.t) (currentNonce : Z)
    (vals : list Validator) (cmp : Z) :
  match decide_switch f st fnID remote current currentNonce vals cmp with
  | Ret (inl (f', evs)) => evs = []
  | Ret (inr d) =>
      Forall isLocalStep (d_events d) /\ connectedPeers (d_reactor d) = connectedPeers f
  | Panic => True
  end.
Proof.
  unfold decide_switch.
  destruct (cmp =? 0).
  - destruct (ReactorState.CurrentVoteSets st !! fnID) as [ours|]; [|exact I].
    destruct (FnVoteSet.Merge ours vals remote) as [[ch merged]|]; simpl; auto.
  - destruct (cmp =? 1).
    + destruct current as [ours|]; simpl.
      * destruct (bool_decide (fnID ∈ commitRoutineQuitCh f)); simpl; [|exact I].
        split; [repeat constructor | reflexivity].
      * split; [repeat constructor | reflexivity].
    + destruct (cmp =? -1); destruct current as [ours|]; simpl; auto.
Qed.

Lemma addOwnVote_steps (fnID : string) (vals : list Validator) (aw : bool) (own : Z)
    (d : Decided) :
  Forall isLocalStep (d_events d) ->
  match addOwnVote fnID vals aw own d with
  | Ret (inl (f', evs)) => Forall isLocalStep evs
  | Ret (inr d') => Forall isLocalStep (d_events d') /\ d_reactor d' = d_reactor d
  | Panic => True
  end.
Proof.
  intros Hd. unfold addOwnVote, stopped.
  destruct (aw && _); [|auto].
  destruct (fnRegistry (d_reactor d) !! fnID) as [fn|]; [|exact I].
  destruct (GetMessageAndSignature fn _) as [[message signature]|].
  2:{ rewrite app_nil_r. exact Hd. }
  assert (Hm : forall e, isLocalStep e -> Forall isLocalStep (d_events d ++ [e]))
    by (intros e He; apply Forall_app; split; [exact Hd | repeat constructor; exact He]).
  destruct (MapMessage fn _ _ _); simpl; [|apply Hm; exact I].
  match goal with
  | |- context [match ?a with Some _ => _ | None => _ end] => destruct a as [voted|]
  end; simpl; [split; [apply Hm; exact I | reflexivity] | apply Hm; exact I].
Qed.

(** The calls of a run of the handler: local steps, and messages on the
    vote-set channel to connected peers. *)
Lemma handleVoteSetChannelMessage_events
    (f f' : FnConsensusReactor) (sender : string) (msgBytes : bytes) (evs : list Event) :
  handleVoteSetChannelMessage f sender msgBytes = Ret (f', evs) ->
  forall e, e ∈ evs ->
    isLocalStep e
    \/ exists p m, e = PeerSend p FnVoteSetChannel m /\ p ∈ connectedPeers f.
Proof.
  unfold handleVoteSetChannelMessage.
  destruct (areWeValidator f (getValidatorSet f)) as [aw own].
  assert (Hnil : forall g, Ret (g, @nil Event) = Ret (f', evs) ->
             forall e, e ∈ evs ->
               isLocalStep e
               \/ exists p m, e = PeerSend p FnVoteSetChannel m /\ p ∈ connectedPeers f).
  { intros g [= _ <-] e He. apply elem_of_nil in He. destruct He. }
  destruct (FnVoteSet.Unmarshal msgBytes) as [remote|]; [|apply Hnil].
  destruct (FnVoteSet.IsValid _ _ _ _ _ _ _); simpl; [|apply Hnil].
  unfold theState. destruct (state f) as [st0|]; [|discriminate]. rewrite run_bind_Ret.
  set (fnID := FnVoteSet.GetFnID remote).
  destruct (match ReactorState.CurrentNonces st0 !! fnID with
            | Some n => (n, st0)
            | None => (1, ReactorState.setCurrentNonces
                            (<[fnID := 1]> (ReactorState.CurrentNonces st0)) st0)
            end) as [currentNonce st].
  destruct (_ && _); [apply Hnil|].
  destruct (compareVoteSets _ _ _ _ _) as [cmp|]; [|discriminate]. rewrite run_bind_Ret.
  pose proof (decide_switch_steps f st fnID remote
                (ReactorState.CurrentVoteSets st !! fnID) currentNonce
                (getValidatorSet f) cmp) as Hsw.
  destruct (decide_switch _ _ _ _ _ _ _ _) as [[[g l]|d]|]; [| |discriminate];
    rewrite run_bind_Ret.
  { subst l. apply Hnil. }
  destruct Hsw as [Hd Hpeers].
  pose proof (addOwnVote_steps fnID (getValidatorSet f) aw own d Hd) as Hv.
  destruct (addOwnVote _ _ _ _ _) as [[[g l]|d']|]; [| |discriminate];
    rewrite run_bind_Ret.
  { intros [= _ <-] e He. left. rewrite Forall_forall in Hv. exact (Hv e He). }
  destruct Hv as [Hd' Hreactor].
  unfold gossip.
  assert (Hlocal : forall g, Ret (g, d_events d') = Ret (f', evs) ->
             forall e, e ∈ evs ->
               isLocalStep e
               \/ exists p m, e = PeerSend p FnVoteSetChannel m /\ p ∈ connectedPeers f).
  { intros g [= _ <-] e He. left. rewrite Forall_forall in Hd'. exact (Hd' e He). }
  destruct (negb (d_hasOurVoteSetChanged d')); [apply Hlocal|].
  destruct (FnVoteSet.Marshal (d_currentVoteSet d')) as [m|]; [|apply Hlocal].
  intros [= _ <-] e He. apply elem_of_app in He as [He|He].
  - left. rewrite Forall_forall in Hd'. exact (Hd' e He).
  - right. apply broadcast_spec in He as (p & -> & Hp & _).
    exists p, m. split; [reflexivity|]. simpl in Hp. rewrite Hreactor, Hpeers in Hp. exact Hp.
Qed.

(** X11.  What the vote-set handler drops without a trace: a message that
    does not decode, and a vote set that fails the validation (with the
    expiration check against ExpiresInForSync).  A valid vote set whose
    nonce is behind the current one is dropped too: no call is made and no
    vote set is touched, the only write being the nonce 1 put in for an
    FnID that had none. *)
Theorem handleVoteSetChannelMessage_drops
    (f : FnConsensusReactor) (sender : string) (msgBytes : bytes) :
  let run := handleVoteSetChannelMessage f sender msgBytes in
  (FnVoteSet.Unmarshal msgBytes = None -> run = Ret (f, []))
  /\ (forall remote,
        FnVoteSet.Unmarshal msgBytes = Some remote ->
        FnVoteSet.IsValid remote (chainID f) MaxContextSize true ExpiresInForSync
          (getValidatorSet f) (fnRegistry f) = false ->
        run = Ret (f, []))
  /\ (forall remote st0,
        FnVoteSet.Unmarshal msgBytes = Some remote ->
        FnVoteSet.IsValid remote (chainID f) MaxContextSize true ExpiresInForSync
          (getValidatorSet f) (fnRegistry f) = true ->
        state f = Some st0 ->
        let fnID := FnVoteSet.GetFnID remote in
        FnVoteSet.Nonce remote < default 1 (ReactorState.CurrentNonces st0 !! fnID) ->
        exists st,
          run = Ret (setState st f, [])
          /\ ReactorState.CurrentNonces st
             = <[fnID := default 1 (ReactorState.CurrentNonces st0 !! fnID)]>
                 (ReactorState.CurrentNonces st0)
          /\ ReactorState.CurrentVoteSets st = ReactorState.CurrentVoteSets st0
          /\ ReactorState.PreviousMaj23VoteSets st = ReactorState.PreviousMaj23VoteSets st0
          /\ ReactorState.PreviousTimedOutVoteSets st
             = ReactorState.PreviousTimedOutVoteSets st0
          /\ ReactorState.CurrentProposalInfo st = ReactorState.CurrentProposalInfo st0).
Proof.
  intros run. subst run. unfold handleVoteSetChannelMessage.
  destruct (areWeValidator f (getValidatorSet f)) as [aw own].
  split; [intros ->; reflexivity|]. split.
  - intros remote Hwire Hvalid. rewrite Hwire, Hvalid. reflexivity.
  - intros remote st0 Hwire Hvalid Hst. cbv zeta. intros Hstale.
    set (fnID := FnVoteSet.GetFnID remote) in *.
    rewrite Hwire, Hvalid. simpl.
    unfold theState. rewrite Hst, run_bind_Ret. fold fnID.
    destruct (ReactorState.CurrentNonces st0 !! fnID) as [n|] eqn:En; simpl in Hstale.
    + exists st0.
      assert (E : negb (n =? FnVoteSet.Nonce remote) && (n >? FnVoteSet.Nonce remote) = true).
      { apply andb_true_iff. split.
        - apply negb_true_iff, Z.eqb_neq. lia.
        - rewrite Z.gtb_ltb. apply Z.ltb_lt. lia. }
      rewrite E. split; [reflexivity|].
      split; [rewrite insert_id by exact En; reflexivity|]. repeat split; reflexivity.
    + eexists.
      assert (E : negb (1 =? FnVoteSet.Nonce remote) && (1 >? FnVoteSet.Nonce remote) = true).
      { apply andb_true_iff. split.
        - apply negb_true_iff, Z.eqb_neq. lia.
        - rewrite Z.gtb_ltb. apply Z.ltb_lt. lia. }
      rewrite E. split; [reflexivity|]. repeat split; reflexivity.
Qed.

(** X12.  The handler never saves the state it changes: no run of it
    calls SaveReactorState, nor submits anything; what it sends goes on
    the vote-set channel, to connected peers only. *)
Theorem handleVoteSetChannelMessage_never_saves
    (f f' : FnConsensusReactor) (sender : string) (msgBytes : bytes) (evs : list Event) :
  handleVoteSetChannelMessage f sender msgBytes = Ret (f', evs) ->
  (forall s, ~ CallSaveReactorState s ∈ evs)
  /\ (forall id ctx h sigs, ~ CallSubmitMultiSignedMessage id ctx h sigs ∈ evs)
  /\ (forall p ch m, PeerSend p ch m ∈ evs -> ch = FnVoteSetChannel /\ p ∈ connectedPeers f).
Proof.
  intros Hrun.
  pose proof (handleVoteSetChannelMessage_events f f' sender msgBytes evs Hrun) as Hev.
  split; [|split].
  - intros s Hin. destruct (Hev _ Hin) as [[]|(p & m & Hp & _)]. discriminate Hp.
  - intros id ctx h sigs Hin. destruct (Hev _ Hin) as [[]|(p & m & Hp & _)]. discriminate Hp.
  - intros p ch m Hin.
    destruct (Hev _ Hin) as [[]|(q & m' & [= -> -> ->] & Hq)]. split; [reflexivity | exact Hq].
Qed.

End votes_all.

(** A vote set of nonce 1 reaches a node that is already at nonce 5. *)
Lemma handleVoteSetChannelMessage_drops_witness :
  let remote := Fixture.voteSet "a" 1 100 Fixture.three
                  [VoteTypeAgree; VoteTypeUnvoted; VoteTypeUnvoted] in
  let st0 := ReactorState.setCurrentNonces {[ "f" := 5 ]} ReactorState.empty in
  let f := Fixture.reactor 2 Fixture.three Maj23SigningThreshold {[ "p1" ]} ∅ st0 in
  exists st,
    handleVoteSetChannelMessage (H := Fixture.env (110 * Second) (Some remote))
      (H0 := Fixture.host None) f "p1" []
    = Ret (setState st f, [])
    /\ ReactorState.CurrentVoteSets st = ∅.
Proof.
  intros remote st0 f.
  destruct (proj2 (proj2 (handleVoteSetChannelMessage_drops
                            (H := Fixture.env (110 * Second) (Some remote))
                            (H0 := Fixture.host None) f "p1" []))
              remote st0 eq_refl eq_refl eq_refl ltac:(change (1 < 5); lia))
    as (st & Hrun & _ & Hcur & _).
  exists st. split; [exact Hrun | exact Hcur].
Defined.

(** The replacement of the observer above: the state changes, and nothing
    is saved. *)
Lemma handleVoteSetChannelMessage_never_saves_witness :
  let remote := Fixture.voteSet "a" 1 100 Fixture.three
                  [VoteTypeAgree; VoteTypeUnvoted; VoteTypeUnvoted] in
  let f := Fixture.reactor 9 Fixture.three Maj23SigningThreshold
             {[ "p1"; "p2" ]} ∅ ReactorState.empty in
  exists f' evs,
    handleVoteSetChannelMessage (H := Fixture.env (110 * Second) (Some remote))
      (H0 := Fixture.host None) f "p1" []
    = Ret (f', evs)
    /\ (state f' ≫= fun s => ReactorState.CurrentVoteSets s !! "f") = Some remote
    /\ forall s, ~ CallSaveReactorState s ∈ evs.
Proof.
  intros remote f.
  eexists _, _. split; [reflexivity|]. split; [reflexivity|].
  exact (proj1 (handleVoteSetChannelMessage_never_saves
                  (H := Fixture.env (110 * Second) (Some remote)) (H0 := Fixture.host None)
                  f _ "p1" [] _ eq_refl)).
Defined.

Section votes_replace.
Context `{FnVoteSet.Env} `{Host}.

(** X13.  The replacement.  When the comparison answers 1 and the node
    does not vote (it is no validator, or its slot in the remote vote set
    is taken), the remote vote set becomes the current one of its FnID,
    CurrentNonces[FnID] becomes the remote nonce, CurrentProposalInfo[FnID]
    the remote proposal info; a commit routine is started for the FnID
    with its deadline 41 seconds after the CreationTime of the remote vote
    set, the quit channel of the routine of a vote set that was replaced
    being closed first. *)
Theorem handleVoteSetChannelMessage_replace
    (f : FnConsensusReactor) (sender : string) (msgBytes : bytes)
    (st0 : ReactorState.t) (remote : FnVoteSet.t) :
  state f = Some st0 ->
  FnVoteSet.Unmarshal msgBytes = Some remote ->
  FnVoteSet.IsValid remote (chainID f) MaxContextSize true ExpiresInForSync
    (getValidatorSet f) (fnRegistry f) = true ->
  let vals := getValidatorSet f in
  let fnID := FnVoteSet.GetFnID remote in
  let currentNonce := default 1 (ReactorState.CurrentNonces st0 !! fnID) in
  let current := ReactorState.CurrentVoteSets st0 !! fnID in
  currentNonce <= FnVoteSet.Nonce remote ->
  compareVoteSets f remote current currentNonce vals = Ret 1 ->
  (current = None \/ fnID ∈ commitRoutineQuitCh f) ->
  (areWeValidator f vals).1
  && negb (FnVoteSet.HaveWeAlreadySigned remote (areWeValidator f vals).2) = false ->
  exists f' evs st',
    handleVoteSetChannelMessage f sender msgBytes = Ret (f', evs)
    /\ state f' = Some st'
    /\ ReactorState.CurrentVoteSets st' !! fnID = Some remote
    /\ ReactorState.CurrentNonces st' !! fnID = Some (FnVoteSet.Nonce remote)
    /\ ReactorState.CurrentProposalInfo st' !! fnID = Some (FnVoteSet.ProposalInfo remote)
    /\ fnID ∈ commitRoutineQuitCh f'
    /\ GoCommitRoutine fnID (FnVoteSet.CreationTime remote * Second + 41 * Second) ∈ evs
    /\ (is_Some current -> CloseQuitCh fnID ∈ evs).
Proof.
  intros Hst Hwire Hvalid vals fnID currentNonce current Hnonce Hcmp Hquit Hvote.
  pose proof (handleVoteSetChannelMessage_past_guards f sender msgBytes st0 remote
                Hst Hwire Hvalid Hnonce) as Hrun.
  cbv zeta in Hrun. fold vals fnID currentNonce in Hrun.
  set (st := match ReactorState.CurrentNonces st0 !! fnID with
             | Some _ => st0
             | None => ReactorState.setCurrentNonces
                         (<[fnID := 1]> (ReactorState.CurrentNonces st0)) st0
             end) in Hrun.
  assert (Hcur : ReactorState.CurrentVoteSets st !! fnID = current)
    by (subst st current; destruct (ReactorState.CurrentNonces st0 !! fnID); reflexivity).
  rewrite Hcur, Hcmp, run_bind_Ret in Hrun.
  set (st' := ReactorState.setCurrentProposalInfo
                (<[fnID := FnVoteSet.ProposalInfo remote]> (ReactorState.CurrentProposalInfo st))
                (ReactorState.setCurrentNonces
                   (<[fnID := FnVoteSet.Nonce remote]> (ReactorState.CurrentNonces st))
                   (ReactorState.setCurrentVoteSets
                      (<[fnID := remote]> (ReactorState.CurrentVoteSets st)) st))).
  assert (Hswitch : exists closed,
             decide_switch f st fnID remote current currentNonce vals 1
             = Ret (inr {| d_reactor := setQuitCh ({[fnID]} ∪ commitRoutineQuitCh f) f;
                           d_state := st'; d_currentVoteSet := remote;
                           d_currentNonce := ReactorState.nonceAt st' fnID;
                           d_didWeContribute := false; d_hasOurVoteSetChanged := true;
                           d_events :=
                             closed ++ [GoCommitRoutine fnID (commitDeadline remote)] |})
             /\ (is_Some current -> CloseQuitCh fnID ∈ closed)).
  { unfold decide_switch. simpl.
    destruct Hquit as [Hnone|Hin].
    - rewrite Hnone. exists []. split; [reflexivity|]. intros [? Hs]. discriminate Hs.
    - destruct current as [cur|].
      + rewrite bool_decide_eq_true_2 by exact Hin. exists [CloseQuitCh fnID].
        split; [reflexivity|]. intros _. apply elem_of_cons. left. reflexivity.
      + exists []. split; [reflexivity|]. intros [? Hs]. discriminate Hs. }
  destruct Hswitch as (closed & Hswitch & Hclosed).
  rewrite Hswitch, run_bind_Ret in Hrun.
  unfold addOwnVote in Hrun. simpl d_currentVoteSet in Hrun.
  rewrite Hvote, run_bind_Ret in Hrun.
  assert (Hdeadline : commitDeadline remote = FnVoteSet.CreationTime remote * Second + 41 * Second)
    by (unfold commitDeadline, ExpiresInForSync, CommitRoutineExecutionBuffer,
          CommitRoutineExecutionBufferSeconds; lia).
  assert (Hfields :
    ReactorState.CurrentVoteSets st' !! fnID = Some remote
    /\ ReactorState.CurrentNonces st' !! fnID = Some (FnVoteSet.Nonce remote)
    /\ ReactorState.CurrentProposalInfo st' !! fnID = Some (FnVoteSet.ProposalInfo remote)).
  { subst st'. simpl. rewrite !lookup_insert_eq. auto. }
  destruct Hfields as (Hf1 & Hf2 & Hf3).
  assert (Hgo : GoCommitRoutine fnID (FnVoteSet.CreationTime remote * Second + 41 * Second)
                ∈ closed ++ [GoCommitRoutine fnID (commitDeadline remote)])
    by (rewrite <- Hdeadline; apply elem_of_app; right;
        apply list_elem_of_singleton; reflexivity).
  assert (Hcl : is_Some current ->
                CloseQuitCh fnID ∈ closed ++ [GoCommitRoutine fnID (commitDeadline remote)])
    by (intros Hsome; apply elem_of_app; left; exact (Hclosed Hsome)).
  assert (Hq : fnID ∈ ({[fnID]} ∪ commitRoutineQuitCh f : gset string))
    by (apply elem_of_union; left; apply elem_of_singleton; reflexivity).
  unfold gossip in Hrun. simpl in Hrun.
  destruct (FnVoteSet.Marshal remote) as [m|].
  - eexists _, _, st'. split; [exact Hrun|]. split; [reflexivity|].
    do 3 (split; [assumption|]). split; [exact Hq|]. split.
    + apply elem_of_app. left. exact Hgo.
    + intros Hsome. apply elem_of_app. left. exact (Hcl Hsome).
  - eexists _, _, st'. split; [exact Hrun|]. split; [reflexivity|].
    do 3 (split; [assumption|]). split; [exact Hq|]. split; [exact Hgo | exact Hcl].
Qed.

(** X14.  A replacement needs the quit channel of the vote set it
    replaces.  When the comparison answers 1 while a current vote set
    exists for which no commit routine was registered (a vote set restored
    by OnStart, which starts none), the handler closes a nil channel: the
    run panics. *)
Theorem handleVoteSetChannelMessage_replace_without_quit_channel
    (f : FnConsensusReactor) (sender : string) (msgBytes : bytes)
    (st0 : ReactorState.t) (remote cur : FnVoteSet.t) :
  state f = Some st0 ->
  FnVoteSet.Unmarshal msgBytes = Some remote ->
  FnVoteSet.IsValid remote (chainID f) MaxContextSize true ExpiresInForSync
    (getValidatorSet f) (fnRegistry f) = true ->
  let vals := getValidatorSet f in
  let fnID := FnVoteSet.GetFnID remote in
  let currentNonce := default 1 (ReactorState.CurrentNonces st0 !! fnID) in
  currentNonce <= FnVoteSet.Nonce remote ->
  ReactorState.CurrentVoteSets st0 !! fnID = Some cur ->
  compareVoteSets f remote (Some cur) currentNonce vals = Ret 1 ->
  fnID ∉ commitRoutineQuitCh f ->
  handleVoteSetChannelMessage f sender msgBytes = Panic.
Proof.
  intros Hst Hwire Hvalid vals fnID currentNonce Hnonce Hcur0 Hcmp Hquit.
  pose proof (handleVoteSetChannelMessage_past_guards f sender msgBytes st0 remote
                Hst Hwire Hvalid Hnonce) as Hrun.
  cbv zeta in Hrun. fold vals fnID currentNonce in Hrun.
  set (st := match ReactorState.CurrentNonces st0 !! fnID with
             | Some _ => st0
             | None => ReactorState.setCurrentNonces
                         (<[fnID := 1]> (ReactorState.CurrentNonces st0)) st0
             end) in Hrun.
  assert (Hcur : ReactorState.CurrentVoteSets st !! fnID = Some cur)
    by (subst st; destruct (ReactorState.CurrentNonces st0 !! fnID); exact Hcur0).
  rewrite Hcur, Hcmp, run_bind_Ret in Hrun.
  unfold decide_switch in Hrun. simpl in Hrun.
  rewrite bool_decide_eq_false_2 in Hrun by exact Hquit. exact Hrun.
Qed.

End votes_replace.

(** The observer takes the proposal created at second 100: the commit
    routine is due at second 141. *)
Lemma handleVoteSetChannelMessage_replace_witness :
  let remote := Fixture.voteSet "a" 1 100 Fixture.three
                  [VoteTypeAgree; VoteTypeUnvoted; VoteTypeUnvoted] in
  let f := Fixture.reactor 9 Fixture.three Maj23SigningThreshold
             {[ "p1"; "p2" ]} ∅ ReactorState.empty in
  exists f' evs st',
    handleVoteSetChannelMessage (H := Fixture.env (110 * Second) (Some remote))
      (H0 := Fixture.host None) f "p1" []
    = Ret (f', evs)
    /\ state f' = Some st'
    /\ ReactorState.CurrentVoteSets st' !! "f" = Some remote
    /\ GoCommitRoutine "f" (141 * Second) ∈ evs.
Proof.
  intros remote f.
  destruct (handleVoteSetChannelMessage_replace
              (H := Fixture.env (110 * Second) (Some remote)) (H0 := Fixture.host None)
              f "p1" [] ReactorState.empty remote eq_refl eq_refl eq_refl
              ltac:(change (1 <= 1); lia) eq_refl (or_introl eq_refl) eq_refl)
    as (f' & evs & st' & Hrun & Hst & Hcur & _ & _ & _ & Hgo & _).
  exists f', evs, st'. auto.
Defined.

(** A node restarts 10 seconds after it stored the proposal "a": OnStart
    keeps the vote set and starts no commit routine.  A rival proposal "b"
    at the Agree threshold then arrives: the replacement panics. *)
Lemma handleVoteSetChannelMessage_replace_without_quit_channel_witness :
  let cur := Fixture.voteSet "a" 1 100 Fixture.three
               [VoteTypeAgree; VoteTypeUnvoted; VoteTypeUnvoted] in
  let remote := Fixture.voteSet "b" 1 100 Fixture.three
                  [VoteTypeAgree; VoteTypeAgree; VoteTypeAgree] in
  let loaded := Fixture.withCurrent "f" cur 1 in
  let f0 := Fixture.reactor 9 Fixture.three Maj23SigningThreshold
              {[ "p1" ]} ∅ ReactorState.empty in
  let f := (OnStart (H := Fixture.env (110 * Second) (Some remote))
              (H0 := Fixture.host (Some loaded)) f0).1.1 in
  state f = Some loaded
  /\ handleVoteSetChannelMessage (H := Fixture.env (110 * Second) (Some remote))
       (H0 := Fixture.host (Some loaded)) f "p1" []
     = Panic.
Proof.
  intros cur remote loaded f0 f.
  assert (Hst : state f = Some loaded) by (vm_compute; reflexivity).
  split; [exact Hst|].
  apply (handleVoteSetChannelMessage_replace_without_quit_channel
           (H := Fixture.env (110 * Second) (Some remote)) (H0 := Fixture.host (Some loaded))
           f "p1" [] loaded remote cur Hst eq_refl eq_refl).
  - change (1 <= 1). lia.
  - reflexivity.
  - reflexivity.
  - vm_compute. intros Hin. 
    apply (proj1 (elem_of_empty (C := gset string) "f")).
    exact Hin.
Defined.

(** ** Dispatch of the inbound messages *)

Section receive.
Context `{FnVoteSet.Env} `{Host}.

Lemma Receive_sends
    (f f' : FnConsensusReactor) (chID : Z) (sender : string) (msgBytes : bytes)
    (evs : list Event) :
  Receive f chID sender msgBytes = Ret (f', evs) ->
  forall p ch m, PeerSend p ch m ∈ evs -> ch = chID /\ p ∈ connectedPeers f.
Proof.
  unfold Receive.
  destruct (Z.eqb_spec chID FnVoteSetChannel) as [->|Hv].
  - intros Hrun p ch m Hin.
    destruct (handleVoteSetChannelMessage_events f f' sender msgBytes evs Hrun _ Hin)
      as [[]|(q & m' & [= -> -> ->] & Hq)].
    split; [reflexivity | exact Hq].
  - destruct (Z.eqb_spec chID FnMaj23Channel) as [->|Hm].
    + intros Hrun p ch m Hin.
      destruct (state f) as [st|] eqn:Hst.
      2:{ unfold handleMaj23VoteSetChannel, theState in Hrun. rewrite Hst in Hrun.
          discriminate Hrun. }
      destruct (handleMaj23VoteSetChannel_outcomes f f' sender msgBytes evs st Hst Hrun)
        as [[_ ->]|(remote & signedBy & st' & _ & _ & (m' & [-> | ->]) & _)].
      * apply elem_of_nil in Hin. destruct Hin.
      * apply list_elem_of_singleton in Hin. discriminate Hin.
      * apply elem_of_cons in Hin as [Hin|Hin]; [discriminate Hin|].
        apply broadcast_spec in Hin as (q & [= -> -> ->] & Hq & _). auto.
    + intros [= <- <-] p ch m Hin. apply elem_of_nil in Hin. destruct Hin.
Qed.

(** X15.  The reactor answers on the channel it was addressed on.  Every
    message sent during a run of Receive goes to a connected peer on the
    channel of the inbound message, and a message on any channel other
    than the vote-set and the Maj23 channel changes nothing and triggers
    nothing. *)
Theorem Receive_answers_on_same_channel
    (f f' : FnConsensusReactor) (chID : Z) (sender : string) (msgBytes : bytes)
    (evs : list Event) :
  Receive f chID sender msgBytes = Ret (f', evs) ->
  (forall p ch m, PeerSend p ch m ∈ evs -> ch = chID /\ p ∈ connectedPeers f)
  /\ (chID <> FnVoteSetChannel -> chID <> FnMaj23Channel -> f' = f /\ evs = []).
Proof.
  intros Hrun. split; [exact (Receive_sends f f' chID sender msgBytes evs Hrun)|].
  intros Hv Hm. unfold Receive in Hrun.
  destruct (Z.eqb_spec chID FnVoteSetChannel) as [E|_]; [contradiction|].
  destruct (Z.eqb_spec chID FnMaj23Channel) as [E|_]; [contradiction|].
  injection Hrun as <- <-. auto.
Qed.

(** X16.  The three declared channels carry distinct IDs and the same
    receive capacity, but only two of them are served: a message on a
    declared channel that is neither the vote-set nor the Maj23 channel,
    and the ProposalInfo sync channel is one, is dropped by Receive. *)
Theorem Receive_serves_two_of_the_declared_channels
    (f : FnConsensusReactor) (sender : string) (msgBytes : bytes) :
  NoDup (ch_ID <$> GetChannels)
  /\ (forall d, d ∈ GetChannels -> ch_RecvMessageCapacity d = maxMsgSize)
  /\ FnProposalInfoSyncChannel ∈ (ch_ID <$> GetChannels)
  /\ (forall d, d ∈ GetChannels ->
        ch_ID d <> FnVoteSetChannel -> ch_ID d <> FnMaj23Channel ->
        ch_ID d = FnProposalInfoSyncChannel
        /\ Receive f (ch_ID d) sender msgBytes = Ret (f, [])).
Proof.
  split; [|split; [|split]].
  - unfold GetChannels, FnMaj23Channel, FnVoteSetChannel, FnProposalInfoSyncChannel.
    simpl. apply (bool_decide_unpack _). vm_compute. exact I.
  - intros d Hd. unfold GetChannels in Hd.
    repeat (apply elem_of_cons in Hd as [->|Hd]; [reflexivity|]).
    apply elem_of_nil in Hd. destruct Hd.
  - unfold GetChannels. simpl. set_solver.
  - intros d Hd Hv Hm. unfold GetChannels in Hd.
    apply elem_of_cons in Hd as [->|Hd]; [contradiction Hm; reflexivity|].
    apply elem_of_cons in Hd as [->|Hd]; [contradiction Hv; reflexivity|].
    apply elem_of_cons in Hd as [->|Hd]; [split; reflexivity|].
    apply elem_of_nil in Hd. destruct Hd.
Qed.

End receive.

(** The catch-up of scenario S5 through Receive: the answer to "p2" is on
    the Maj23 channel. *)
Lemma Receive_answers_on_same_channel_witness :
  let remote := Fixture.voteSet "a" 17 100 Fixture.three
                  [VoteTypeAgree; VoteTypeAgree; VoteTypeAgree] in
  let f := Fixture.reactor 3 Fixture.three Maj23SigningThreshold
             {[ "p1"; "p2" ]} ∅ ReactorState.empty in
  exists f' evs,
    Receive (H := Fixture.env (200 * Second) (Some remote)) (H0 := Fixture.host None)
      f FnMaj23Channel "p1" []
    = Ret (f', evs)
    /\ forall p ch m, PeerSend p ch m ∈ evs -> ch = FnMaj23Channel /\ p ∈ connectedPeers f.
Proof.
  intros remote f.
  eexists _, _. split; [reflexivity|].
  exact (proj1 (Receive_answers_on_same_channel
                  (H := Fixture.env (200 * Second) (Some remote)) (H0 := Fixture.host None)
                  f _ FnMaj23Channel "p1" [] _ eq_refl)).
Defined.

(** ** Proposing *)

Section proposing_all.
Context `{FnVoteSet.Env} `{Host}.

(** X17.  What a proposal leaves behind.  A run of propose either leaves
    the reactor as it was, having made at most the MapMessage call and,
    for a vote set that already meets the Agree threshold, the submission;
    or it stores the new vote set under the FnID only: the stored vote set
    carries the current nonce (1 when none is recorded) and does not meet
    the Agree threshold, the nonces, the archives and the proposal infos
    are not written, the quit channel of the FnID is registered, the
    commit routine is started before the state is saved, nothing is
    submitted, and the vote set goes to connected peers on the vote-set
    channel only. *)
Theorem propose_stores_or_leaves
    (f f' : FnConsensusReactor) (fnID : string) (fn : Fn)
    (currentValidators : list Validator) (currentProposalInfo : option ProposalInfo.t)
    (validatorIndex : Z) (evs : list Event) :
  propose f fnID fn currentValidators currentProposalInfo validatorIndex = Ret (f', evs) ->
  (f' = f
   /\ (evs = []
       \/ exists ctx hash message,
            evs = [CallMapMessage fnID ctx hash message]
            \/ exists sigs, evs = [CallMapMessage fnID ctx hash message;
                                   CallSubmitMultiSignedMessage fnID ctx hash sigs]))
  \/ (exists st th voteSet ctx hash message sends,
        state f = Some st
        /\ cfg f = Some th
        /\ FnVoteSet.Nonce voteSet = default 1 (ReactorState.CurrentNonces st !! fnID)
        /\ FnVoteSet.IsAgree voteSet (ReactorConfig.FnVoteSigningThreshold th)
             currentValidators = false
        /\ f' = setState (ReactorState.setCurrentVoteSets (<[fnID := voteSet]> (ReactorState.CurrentVoteSets st)) st)
                  (setQuitCh ({[fnID]} ∪ commitRoutineQuitCh f) f)
        /\ evs = [CallMapMessage fnID ctx hash message;
                  GoCommitRoutine fnID (commitDeadline voteSet);
                  CallSaveReactorState
                    (ReactorState.setCurrentVoteSets (<[fnID := voteSet]> (ReactorState.CurrentVoteSets st)) st)]
                 ++ sends
        /\ forall e, e ∈ sends ->
             exists p m, e = PeerSend p FnVoteSetChannel m /\ p ∈ connectedPeers f).
Proof.
  unfold propose, theState, theThreshold.
  destruct (PrepareContext fn) as [[shouldExecuteFn ctx]|]; [|intros [= <- <-]; auto].
  destruct (Z.of_nat (length ctx) >? MaxContextSize); [intros [= <- <-]; auto|].
  destruct shouldExecuteFn; simpl negb; cbv iota; [|intros [= <- <-]; auto].
  destruct (GetMessageAndSignature fn ctx) as [[message signature]|];
    [|intros [= <- <-]; auto].
  cbv zeta.
  destruct (MapMessage fn ctx (calculateMessageHash message) message); simpl negb; cbv iota;
    [|intros [= <- <-]; left; split; [reflexivity|right; eauto 6]].
  destruct (NewFnExecutionRequest fnID (fnRegistry f)) as [executionRequest|];
    [|intros [= <- <-]; left; split; [reflexivity|right; eauto 6]].
  destruct (state f) as [st|] eqn:Hst; [|discriminate].
  rewrite run_bind_Ret.
  destruct NewVoteSetID as [newVoteSetID|];
    [|intros [= <- <-]; left; split; [reflexivity|right; eauto 6]].
  destruct (FnVoteSet.NewVoteSet _ _ _ _ _ _ _ _ _ _) as [voteSet|] eqn:Hnew;
    [|intros [= <- <-]; left; split; [reflexivity|right; eauto 6]].
  destruct (cfg f) as [th|] eqn:Hcfg; [|discriminate].
  rewrite run_bind_Ret.
  destruct (FnVoteSet.IsAgree voteSet _ currentValidators) eqn:Hagree.
  { intros [= <- <-]. left. split; [reflexivity|]. right.
    assert (Hhash : Hash (Response (FnVoteSet.Payload voteSet)) = calculateMessageHash message).
    { unfold FnVoteSet.NewVoteSet in Hnew.
      destruct (negb _) in Hnew; [discriminate|]. cbv zeta in Hnew.
      destruct (SignBytes _ _) in Hnew; [|discriminate].
      injection Hnew as <-. reflexivity. }
    rewrite Hhash. eauto 8. }
  assert (Hnonce : FnVoteSet.Nonce voteSet = default 1 (ReactorState.CurrentNonces st !! fnID)).
  { unfold FnVoteSet.NewVoteSet in Hnew.
    destruct (negb _) in Hnew; [discriminate|]. cbv zeta in Hnew.
    destruct (SignBytes _ _) in Hnew; [|discriminate].
    injection Hnew as <-. reflexivity. }
  intros Hrun. right.
  exists st, th, voteSet, ctx, (calculateMessageHash message), message.
  destruct (SaveReactorState _); simpl negb in Hrun; cbv iota in Hrun.
  2:{ injection Hrun as <- <-. exists []. repeat (split; [reflexivity || assumption|]).
      intros e He. apply elem_of_nil in He. destruct He. }
  destruct (FnVoteSet.Marshal voteSet) as [marshalledBytes|].
  2:{ injection Hrun as <- <-. exists []. repeat (split; [reflexivity || assumption|]).
      intros e He. apply elem_of_nil in He. destruct He. }
  injection Hrun as <- <-. eexists.
  repeat (split; [reflexivity || assumption|]).
  intros e He. destruct e as [| |p ch m| | | |];
    try (apply broadcast_spec in He as (q & Hq & _); discriminate Hq).
  apply broadcast_spec in He as (q & [= -> -> ->] & Hq & _). eauto.
Qed.

End proposing_all.

(** Validator 1 of three proposes: the vote set is stored and gossiped. *)
Lemma propose_stores_or_leaves_witness :
  let f := Fixture.reactor 1 Fixture.three Maj23SigningThreshold
             {[ "p1" ]} ∅ ReactorState.empty in
  exists f' evs,
    propose (H := Fixture.env (100 * Second) None) (H0 := Fixture.host None)
      f "f" Fixture.fn Fixture.three None 0 = Ret (f', evs)
    /\ ReactorState.CurrentNonces <$> state f' = Some ∅
    /\ "f" ∈ commitRoutineQuitCh f'
    /\ length evs = 4%nat.
Proof.
  intros f.
  destruct (propose (H := Fixture.env (100 * Second) None) (H0 := Fixture.host None)
              f "f" Fixture.fn Fixture.three None 0) as [[f' evs]|] eqn:Hrun;
    [|vm_compute in Hrun; discriminate Hrun].
  exists f', evs. split; [reflexivity|].
  destruct (propose_stores_or_leaves
              (H := Fixture.env (100 * Second) None) (H0 := Fixture.host None)
              f f' "f" Fixture.fn Fixture.three None 0 evs Hrun)
    as [[-> _]|(st & th & voteSet & ctx & hash & message & sends
                & Hst & _ & _ & _ & -> & -> & _)].
  - vm_compute in Hrun. discriminate Hrun.
  - injection Hst as <-. split; [reflexivity|]. split; [set_solver|].
    apply (f_equal (fun r => match r with
                             | Ret (_, l) => length l
                             | Panic => 0%nat
                             end)) in Hrun.
    vm_compute in Hrun. symmetry. exact Hrun.
Defined.

(** ** Restarting *)

(** X18.  A restart is stable.  When OnStart has loaded a state, a second
    OnStart at the same clock that loads the state the first one saved
    yields the reactor of the first one: nothing more is dropped.  The
    progress routine is started exactly when no error is returned, and a
    failed load leaves the reactor as it was with no call to
    SaveReactorState. *)
Theorem OnStart_restart_is_stable `{FnVoteSet.Env} (first second : Host)
    (f : FnConsensusReactor) :
  let r := OnStart (H0 := first) f in
  (GoProgressRoutine ∈ r.1.2 <-> r.2 = None)
  /\ (LoadReactorState (Host := first) = None ->
      r = (f, [], Some ErrLoadReactorState))
  /\ (is_Some (LoadReactorState (Host := first)) ->
      LoadReactorState (Host := second) = state r.1.1 ->
      (OnStart (H0 := second) r.1.1).1.1 = r.1.1).
Proof.
  unfold OnStart.
  destruct (LoadReactorState (Host := first)) as [loaded|].
  2:{ cbn. split; [|split; [reflexivity|intros [? Hs]; discriminate Hs]].
      split; [intros Hin; apply elem_of_nil in Hin; destruct Hin | discriminate]. }
  set (cur := foldl dropExpired (ReactorState.CurrentVoteSets loaded)
                (elements (dom (fnRegistry f)))).
  assert (Hstable : foldl dropExpired cur (elements (dom (fnRegistry f))) = cur).
  { apply map_eq. intros k. rewrite foldl_dropExpired_lookup.
    destruct (cur !! k) as [vs|] eqn:Hk; [|reflexivity].
    subst cur. rewrite foldl_dropExpired_lookup in Hk.
    destruct (ReactorState.CurrentVoteSets loaded !! k) as [vs'|]; [|discriminate Hk].
    destruct (bool_decide _ && FnVoteSet.IsExpired vs' ExpiresIn) eqn:E; [discriminate Hk|].
    injection Hk as ->. rewrite E. reflexivity. }
  split; [|split; [discriminate|]].
  - destruct (SaveReactorState (Host := first) _); cbn.
    + split; [reflexivity|]. intros _. apply elem_of_cons. right.
      apply elem_of_cons. left. reflexivity.
    + split; [|discriminate]. intros Hin.
      apply list_elem_of_singleton in Hin. discriminate Hin.
  - intros _ Hload.
    assert (Hfirst :
      forall (evs : list Event) (err : option error),
        (setState (ReactorState.setCurrentVoteSets cur loaded) f, evs, err).1.1
        = setState (ReactorState.setCurrentVoteSets cur loaded) f) by reflexivity.
    destruct (SaveReactorState (Host := first) _); rewrite Hfirst in Hload |- *;
      cbn in Hload; rewrite Hload; cbn [fnRegistry setState ReactorState.CurrentVoteSets
                                         ReactorState.setCurrentVoteSets];
      fold cur; rewrite Hstable;
      destruct (SaveReactorState (Host := second) _); reflexivity.
Qed.

Lemma OnStart_restart_is_stable_witness :
  let expired := Fixture.voteSet "a" 1 0 Fixture.three
                   [VoteTypeAgree; VoteTypeUnvoted; VoteTypeUnvoted] in
  let loaded := Fixture.withCurrent "f" expired 1 in
  let f := Fixture.reactor 1 Fixture.three Maj23SigningThreshold ∅ ∅ ReactorState.empty in
  let r := OnStart (H := Fixture.env (100 * Second) None) (H0 := Fixture.host (Some loaded)) f in
  (OnStart (H := Fixture.env (100 * Second) None) (H0 := Fixture.host (state r.1.1))
     r.1.1).1.1 = r.1.1.
Proof.
  intros expired loaded f r.
  refine (proj2 (proj2 (OnStart_restart_is_stable
                          (H := Fixture.env (100 * Second) None)
                          (Fixture.host (Some loaded)) (Fixture.host (state r.1.1)) f))
            _ eq_refl).
  exists loaded. reflexivity.
Defined.

(** ** The timer of the progress routine *)

Lemma Int64_wrap_small (z : Z) :
  Int64.min_int <= z <= Int64.max_int -> Int64.wrap z = z.
Proof.
  unfold Int64.wrap, Int64.min_int, Int64.max_int. intros Hz.
  rewrite Z.mod_small by lia. lia.
Qed.

Section timer.
Context `{FnVoteSet.Env} `{Host}.

(** X19.  The progress routine wakes up on a multiple of 61 seconds, each
    validator half a second after the one before it.  For a clock at or
    after the epoch, the base sleep is between 1 and 61 whole seconds (61,
    not 0, when the clock already stands on a multiple of 61) and ends on
    a second divisible by 61; a validator of index i sleeps (i + 1) * 500ms
    longer than the base, so the sleep grows strictly with the index, and
    a node that is no validator sleeps as long as the validator of
    index 0. *)
Theorem calculateProgressRoutineSleepTime_aligned (i j : Z) :
  0 <= FnVoteSet.Now ->
  FnVoteSet.Now / Second <= Int64.max_int ->
  0 <= i < j -> j < 2 ^ 32 ->
  let base := calculateProgressRoutineSleepTime true i - (i + 1) * BaseProposalDelay in
  Second <= base <= 61 * Second
  /\ base mod Second = 0
  /\ (FnVoteSet.Now / Second + base / Second) mod 61 = 0
  /\ (FnVoteSet.Now / Second mod 61 = 0 -> base = 61 * Second)
  /\ calculateProgressRoutineSleepTime true j
     = calculateProgressRoutineSleepTime true i + (j - i) * BaseProposalDelay
  /\ calculateProgressRoutineSleepTime false i = calculateProgressRoutineSleepTime true 0.
Proof.
  intros Hnow Hmax Hij Hj.
  assert (Hsec : Second = 1000000000) by reflexivity.
  assert (Hdelay : BaseProposalDelay = 500000000) by reflexivity.
  assert (Hmaxint : Int64.max_int = 9223372036854775807) by reflexivity.
  assert (Hminint : Int64.min_int = -9223372036854775808) by reflexivity.
  assert (Hpow : 2 ^ 32 = 4294967296) by reflexivity.
  assert (Hepoch : 0 <= FnVoteSet.Now / Second) by (apply Z.div_pos; lia).
  set (epoch := FnVoteSet.Now / Second) in *.
  assert (Hrem : Int64.rem epoch ProgressIntervalInSeconds = epoch mod 61).
  { unfold Int64.rem. change ProgressIntervalInSeconds with 61.
    apply Z.rem_mod_nonneg; lia. }
  assert (Hmod : 0 <= epoch mod 61 < 61) by (apply Z.mod_pos_bound; lia).
  assert (Hcalc : forall (v : bool) (k : Z), 0 <= k < 2 ^ 32 ->
            calculateProgressRoutineSleepTime v k
            = (61 - epoch mod 61) * Second
              + (if v then k + 1 else 1) * BaseProposalDelay).
  { intros v k Hk. unfold calculateProgressRoutineSleepTime. cbv zeta. fold epoch.
    rewrite Hrem. change ProgressIntervalInSeconds with 61.
    unfold Int64.sub, Int64.add, mul64.
    rewrite (Int64_wrap_small (61 - epoch mod 61)) by lia.
    rewrite (Int64_wrap_small ((61 - epoch mod 61) * Second)) by lia.
    destruct v; simpl negb; cbv iota.
    - rewrite (Int64_wrap_small (k + 1)) by lia.
      rewrite (Int64_wrap_small ((k + 1) * BaseProposalDelay)) by lia.
      apply Int64_wrap_small. lia.
    - rewrite Z.mul_1_l. apply Int64_wrap_small. lia. }
  cbv zeta. rewrite !Hcalc by lia.
  replace ((61 - epoch mod 61) * Second + (i + 1) * BaseProposalDelay
           - (i + 1) * BaseProposalDelay)
    with ((61 - epoch mod 61) * Second) by lia.
  split; [lia|]. split; [apply Z.mod_mul; lia|].
  split.
  { rewrite Z.div_mul by lia.
    replace (epoch + (61 - epoch mod 61)) with (epoch - epoch mod 61 + 1 * 61) by lia.
    rewrite Z.mod_add by lia.
    rewrite Zminus_mod, Z.mod_mod, Z.sub_diag by lia. reflexivity. }
  split; [intros ->; lia|]. split; lia.
Qed.

End timer.

(** At 100 s after the epoch the next multiple of 61 is 22 s away. *)
Lemma calculateProgressRoutineSleepTime_aligned_witness :
  calculateProgressRoutineSleepTime (H := Fixture.env (100 * Second) None) true 2
  = calculateProgressRoutineSleepTime (H := Fixture.env (100 * Second) None) true 1
    + (2 - 1) * BaseProposalDelay.
Proof.
  refine (proj1 (proj2 (proj2 (proj2 (proj2
            (calculateProgressRoutineSleepTime_aligned
               (H := Fixture.env (100 * Second) None) 1 2 _ _ _ _)))))).
  - vm_compute. discriminate.
  - vm_compute. discriminate.
  - lia.
  - vm_compute. reflexivity.
Defined.

(** ** The validator override *)



Section override.


End override.


(** ** The tick of the progress routine *)

Section tick.
Context `{FnVoteSet.Env} `{Host}.

Lemma getNextProposalInfo_local (fnID : string) (s s' : ReactorState.t)
    (vals : list Validator) :
  ReactorState.CurrentProposalInfo s !! fnID = ReactorState.CurrentProposalInfo s' !! fnID ->
  ReactorState.PreviousMaj23VoteSets s !! fnID
  = ReactorState.PreviousMaj23VoteSets s' !! fnID ->
  getNextProposalInfo fnID s vals = getNextProposalInfo fnID s' vals.
Proof.
  intros Hinfo Hmaj. unfold getNextProposalInfo, ReactorState.proposalInfoAt.
  rewrite Hinfo, Hmaj. reflexivity.
Qed.

Lemma progressStep_spec (vals : list Validator) (s : ReactorState.t) (a : string) :
  ReactorState.PreviousMaj23VoteSets (progressStep vals s a).1
  = ReactorState.PreviousMaj23VoteSets s
  /\ ReactorState.CurrentNonces (progressStep vals s a).1 = ReactorState.CurrentNonces s
  /\ ReactorState.PreviousValidatorSet (progressStep vals s a).1
     = ReactorState.PreviousValidatorSet s
  /\ (progressStep vals s a).2
     = match ReactorState.CurrentVoteSets s !! a with
       | Some vs => FnVoteSet.IsExpired vs ExpiresIn
       | None => true
       end
  /\ (forall k, k <> a ->
        ReactorState.CurrentVoteSets (progressStep vals s a).1 !! k
        = ReactorState.CurrentVoteSets s !! k
        /\ ReactorState.PreviousTimedOutVoteSets (progressStep vals s a).1 !! k
           = ReactorState.PreviousTimedOutVoteSets s !! k
        /\ ReactorState.CurrentProposalInfo (progressStep vals s a).1 !! k
           = ReactorState.CurrentProposalInfo s !! k)
  /\ ReactorState.CurrentVoteSets (progressStep vals s a).1 !! a
     = match ReactorState.CurrentVoteSets s !! a with
       | Some vs => if FnVoteSet.IsExpired vs ExpiresIn then None else Some vs
       | None => None
       end
  /\ ReactorState.PreviousTimedOutVoteSets (progressStep vals s a).1 !! a
     = match ReactorState.CurrentVoteSets s !! a with
       | Some vs => if FnVoteSet.IsExpired vs ExpiresIn then Some vs
                    else ReactorState.PreviousTimedOutVoteSets s !! a
       | None => ReactorState.PreviousTimedOutVoteSets s !! a
       end
  /\ ReactorState.CurrentProposalInfo (progressStep vals s a).1 !! a
     = match ReactorState.CurrentVoteSets s !! a with
       | Some vs => if FnVoteSet.IsExpired vs ExpiresIn
                    then Some (getNextProposalInfo a s vals)
                    else ReactorState.CurrentProposalInfo s !! a
       | None => Some (getNextProposalInfo a s vals)
       end.
Proof.
  unfold progressStep.
  destruct (ReactorState.CurrentVoteSets s !! a) as [vs|] eqn:Hcur;
    [destruct (FnVoteSet.IsExpired vs ExpiresIn) eqn:Hexp|]; cbn.
  - do 4 (split; [reflexivity|]). split; [|split; [|split]].
    + intros k Hk. rewrite lookup_delete_ne, !lookup_insert_ne by congruence. auto.
    + apply lookup_delete_eq.
    + apply lookup_insert_eq.
    + rewrite lookup_insert_eq. reflexivity.
  - do 4 (split; [reflexivity|]). split; [auto|]. split; [exact Hcur|]. split; reflexivity.
  - do 4 (split; [reflexivity|]). split; [|split; [|split]].
    + intros k Hk. rewrite lookup_insert_ne by congruence. auto.
    + exact Hcur.
    + reflexivity.
    + apply lookup_insert_eq.
Qed.

Lemma progressLoopStep_eq (vals : list Validator) (acc : ReactorState.t * list string)
    (a : string) :
  progressLoopStep vals acc a
  = ((progressStep vals acc.1 a).1,
     if (progressStep vals acc.1 a).2 then acc.2 ++ [a] else acc.2).
Proof. unfold progressLoopStep. destruct (progressStep vals acc.1 a). reflexivity. Qed.

Lemma progressLoop_spec (vals : list Validator) (l : list string) :
  NoDup l ->
  forall (s : ReactorState.t) (acc : list string),
    let r := foldl (progressLoopStep vals) (s, acc) l in
    ReactorState.PreviousMaj23VoteSets r.1 = ReactorState.PreviousMaj23VoteSets s
    /\ ReactorState.CurrentNonces r.1 = ReactorState.CurrentNonces s
    /\ ReactorState.PreviousValidatorSet r.1 = ReactorState.PreviousValidatorSet s
    /\ (forall k, k ∉ l ->
          ReactorState.CurrentVoteSets r.1 !! k = ReactorState.CurrentVoteSets s !! k
          /\ ReactorState.PreviousTimedOutVoteSets r.1 !! k
             = ReactorState.PreviousTimedOutVoteSets s !! k
          /\ ReactorState.CurrentProposalInfo r.1 !! k
             = ReactorState.CurrentProposalInfo s !! k)
    /\ (forall k, k ∈ l ->
          ReactorState.CurrentVoteSets r.1 !! k
          = (ReactorState.CurrentVoteSets (progressStep vals s k).1) !! k
          /\ ReactorState.PreviousTimedOutVoteSets r.1 !! k
             = ReactorState.PreviousTimedOutVoteSets (progressStep vals s k).1 !! k
          /\ ReactorState.CurrentProposalInfo r.1 !! k
             = ReactorState.CurrentProposalInfo (progressStep vals s k).1 !! k)
    /\ (forall k, k ∈ r.2 <-> k ∈ acc \/ (k ∈ l /\ (progressStep vals s k).2 = true)).
Proof.
  induction 1 as [|a l Hnotin Hnodup IH]; intros s acc.
  - cbn. do 3 (split; [reflexivity|]). split; [auto|].
    split; [intros k Hk; apply elem_of_nil in Hk; destruct Hk|].
    intros k. split; [auto|]. intros [Hk|[Hk _]]; [exact Hk|].
    apply elem_of_nil in Hk. destruct Hk.
  - cbn zeta. simpl foldl. rewrite progressLoopStep_eq. cbn [fst snd].
    specialize (IH (progressStep vals s a).1
                   (if (progressStep vals s a).2 then acc ++ [a] else acc)).
    cbn zeta in IH.
    set (r := foldl (progressLoopStep vals) _ l) in *.
    destruct IH as (Hmaj & Hnon & Hpvs & Hout & Hin & Hel).
    destruct (progressStep_spec vals s a)
      as (Smaj & Snon & Spvs & Sel & Sother & Scur & Sto & Sinfo).
    split; [congruence|]. split; [congruence|]. split; [congruence|].
    split; [|split].
    + intros k Hk. rewrite not_elem_of_cons in Hk. destruct Hk as [Hka Hkl].
      destruct (Hout k Hkl) as (-> & -> & ->). apply Sother. exact Hka.
    + intros k Hk. apply elem_of_cons in Hk as [->|Hk].
      * apply Hout. exact Hnotin.
      * assert (Hka : k <> a) by (intros ->; contradiction).
        destruct (Hin k Hk) as (-> & -> & ->).
        destruct (Sother k Hka) as (Ecur & Eto & Einfo).
        destruct (progressStep_spec vals s k)
          as (_ & _ & _ & _ & _ & -> & -> & ->).
        destruct (progressStep_spec vals (progressStep vals s a).1 k)
          as (_ & _ & _ & _ & _ & -> & -> & ->).
        rewrite Ecur, Eto, Einfo.
        rewrite (getNextProposalInfo_local k (progressStep vals s a).1 s vals Einfo)
          by (rewrite Smaj; reflexivity).
        auto.
    + intros k. rewrite Hel. rewrite elem_of_cons.
      assert (Hacc : k ∈ (if (progressStep vals s a).2 then acc ++ [a] else acc)
                     <-> k ∈ acc \/ (k = a /\ (progressStep vals s a).2 = true)).
      { destruct (progressStep vals s a).2.
        - rewrite elem_of_app, list_elem_of_singleton. tauto.
        - split; [auto|]. intros [Hk|[_ Hk]]; [exact Hk|discriminate Hk]. }
      rewrite Hacc.
      assert (Hsame : k ∈ l ->
                (progressStep vals (progressStep vals s a).1 k).2
                = (progressStep vals s k).2).
      { intros Hk. assert (Hka : k <> a) by (intros ->; contradiction).
        destruct (progressStep_spec vals s k) as (_ & _ & _ & -> & _).
        destruct (progressStep_spec vals (progressStep vals s a).1 k)
          as (_ & _ & _ & -> & _).
        destruct (Sother k Hka) as (-> & _). reflexivity. }
      split.
      * intros [[Hk|[-> Hk]]|[Hk Hk']]; [auto|auto|].
        right. split; [auto|]. rewrite <- (Hsame Hk). exact Hk'.
      * intros [Hk|[[->|Hk] Hk']]; [auto|auto|].
        right. split; [exact Hk|]. rewrite (Hsame Hk). exact Hk'.
Qed.

(** X21.  What a tick of the progress routine does to the state.  For
    every registered FnID: an expired current vote set is moved to
    PreviousTimedOutVoteSets and the FnID gets its next proposal info; a
    current vote set that is not expired is left where it is, with its
    proposal info, and the FnID is not proposed for; an FnID with no
    current vote set gets its next proposal info.  The next proposal info
    is the one computed on the state before the tick.  Entries of
    unregistered FnIDs, the nonces, the committed vote sets and the
    previous validator set are untouched, the state is saved once, and an
    FnID is handed to the proposal step only if it is registered and has
    no current vote set left; when the save succeeds every such FnID is
    handed over, when it fails none is. *)
Theorem progressTickLocked_archives_expired
    (f f' : FnConsensusReactor) (eligible : list string) (evs : list Event) :
  progressTickLocked f = Ret (f', eligible, evs) ->
  exists st st',
    state f = Some st /\ f' = setState st' f /\ evs = [CallSaveReactorState st']
    /\ ReactorState.PreviousMaj23VoteSets st' = ReactorState.PreviousMaj23VoteSets st
    /\ ReactorState.CurrentNonces st' = ReactorState.CurrentNonces st
    /\ ReactorState.PreviousValidatorSet st' = ReactorState.PreviousValidatorSet st
    /\ (forall k, fnRegistry f !! k = None ->
          ReactorState.CurrentVoteSets st' !! k = ReactorState.CurrentVoteSets st !! k
          /\ ReactorState.PreviousTimedOutVoteSets st' !! k
             = ReactorState.PreviousTimedOutVoteSets st !! k
          /\ ReactorState.CurrentProposalInfo st' !! k
             = ReactorState.CurrentProposalInfo st !! k)
    /\ (forall k, is_Some (fnRegistry f !! k) ->
          match ReactorState.CurrentVoteSets st !! k with
          | Some vs =>
              if FnVoteSet.IsExpired vs ExpiresIn
              then ReactorState.CurrentVoteSets st' !! k = None
                   /\ ReactorState.PreviousTimedOutVoteSets st' !! k = Some vs
                   /\ ReactorState.CurrentProposalInfo st' !! k
                      = Some (getNextProposalInfo k st (getValidatorSet f))
              else ReactorState.CurrentVoteSets st' !! k = Some vs
                   /\ ReactorState.PreviousTimedOutVoteSets st' !! k
                      = ReactorState.PreviousTimedOutVoteSets st !! k
                   /\ ReactorState.CurrentProposalInfo st' !! k
                      = ReactorState.CurrentProposalInfo st !! k
                   /\ k ∉ eligible
          | None =>
              ReactorState.CurrentVoteSets st' !! k = None
              /\ ReactorState.PreviousTimedOutVoteSets st' !! k
                 = ReactorState.PreviousTimedOutVoteSets st !! k
              /\ ReactorState.CurrentProposalInfo st' !! k
                 = Some (getNextProposalInfo k st (getValidatorSet f))
          end)
    /\ (forall k, k ∈ eligible ->
          is_Some (fnRegistry f !! k) /\ ReactorState.CurrentVoteSets st' !! k = None)
    /\ (if SaveReactorState st'
        then forall k, is_Some (fnRegistry f !! k) ->
                       ReactorState.CurrentVoteSets st' !! k = None -> k ∈ eligible
        else eligible = []).
Proof.
  unfold progressTickLocked, theState. cbv zeta.
  destruct (state f) as [st|]; [|discriminate].
  rewrite run_bind_Ret.
  set (l := sortStrings (elements (dom (fnRegistry f)))).
  assert (Hperm : l ≡ₚ elements (dom (fnRegistry f))) by apply merge_sort_Permutation.
  assert (Hnodup : NoDup l) by (rewrite Hperm; apply NoDup_elements).
  assert (Hreg : forall k, k ∈ l <-> is_Some (fnRegistry f !! k)).
  { intros k. rewrite Hperm, elem_of_elements, elem_of_dom. reflexivity. }
  pose proof (progressLoop_spec (getValidatorSet f) l Hnodup st []) as Hloop.
  cbv zeta in Hloop.
  destruct (foldl (progressLoopStep (getValidatorSet f)) (st, []) l) as [st' el].
  cbn [fst snd] in Hloop.
  destruct Hloop as (Hmaj & Hnon & Hpvs & Hout & Hin & Hel).
  assert (Hkey : forall k, is_Some (fnRegistry f !! k) ->
            match ReactorState.CurrentVoteSets st !! k with
            | Some vs =>
                if FnVoteSet.IsExpired vs ExpiresIn
                then ReactorState.CurrentVoteSets st' !! k = None
                     /\ ReactorState.PreviousTimedOutVoteSets st' !! k = Some vs
                     /\ ReactorState.CurrentProposalInfo st' !! k
                        = Some (getNextProposalInfo k st (getValidatorSet f))
                else ReactorState.CurrentVoteSets st' !! k = Some vs
                     /\ ReactorState.PreviousTimedOutVoteSets st' !! k
                        = ReactorState.PreviousTimedOutVoteSets st !! k
                     /\ ReactorState.CurrentProposalInfo st' !! k
                        = ReactorState.CurrentProposalInfo st !! k
                     /\ k ∉ el
            | None =>
                ReactorState.CurrentVoteSets st' !! k = None
                /\ ReactorState.PreviousTimedOutVoteSets st' !! k
                   = ReactorState.PreviousTimedOutVoteSets st !! k
                /\ ReactorState.CurrentProposalInfo st' !! k
                   = Some (getNextProposalInfo k st (getValidatorSet f))
            end).
  { intros k Hk. apply Hreg in Hk.
    destruct (Hin k Hk) as (Ecur & Eto & Einfo).
    destruct (progressStep_spec (getValidatorSet f) st k)
      as (_ & _ & _ & Sel & _ & Scur & Sto & Sinfo).
    rewrite Scur in Ecur. rewrite Sto in Eto. rewrite Sinfo in Einfo.
    destruct (ReactorState.CurrentVoteSets st !! k) as [vs|]; [|auto].
    destruct (FnVoteSet.IsExpired vs ExpiresIn); [auto|].
    do 3 (split; [assumption|]).
    rewrite Hel, Sel. intros [Hnil|[_ Hfalse]]; [|discriminate Hfalse].
    apply elem_of_nil in Hnil. destruct Hnil. }
  assert (Hfrom : forall k, k ∈ el ->
            is_Some (fnRegistry f !! k) /\ ReactorState.CurrentVoteSets st' !! k = None).
  { intros k Hk. apply Hel in Hk as [Hk|[Hk Helig]]; [apply elem_of_nil in Hk; destruct Hk|].
    split; [apply Hreg; exact Hk|].
    destruct (Hin k Hk) as (-> & _).
    destruct (progressStep_spec (getValidatorSet f) st k)
      as (_ & _ & _ & Sel & _ & -> & _).
    rewrite Sel in Helig.
    destruct (ReactorState.CurrentVoteSets st !! k) as [vs|]; [|reflexivity].
    rewrite Helig. reflexivity. }
  assert (Hto : forall k, is_Some (fnRegistry f !! k) ->
            ReactorState.CurrentVoteSets st' !! k = None -> k ∈ el).
  { intros k Hk Hnone. apply Hel. right. split; [apply Hreg; exact Hk|].
    apply Hreg in Hk. destruct (Hin k Hk) as (Ecur & _).
    destruct (progressStep_spec (getValidatorSet f) st k)
      as (_ & _ & _ & -> & _ & Scur & _).
    rewrite Scur, Hnone in Ecur.
    destruct (ReactorState.CurrentVoteSets st !! k) as [vs|]; [|reflexivity].
    destruct (FnVoteSet.IsExpired vs ExpiresIn); [reflexivity|discriminate Ecur]. }
  assert (Hunreg : forall k, fnRegistry f !! k = None -> k ∉ l).
  { intros k Hk Hl. apply Hreg in Hl. rewrite Hk in Hl. destruct Hl as [? Hl].
    discriminate Hl. }
  destruct (SaveReactorState st') eqn:Hsave; intros [= <- <- <-];
    exists st, st'; rewrite Hsave;
    (do 6 (split; [reflexivity || assumption|]));
    (split; [intros k Hk; apply Hout, Hunreg, Hk|]).
  - split; [exact Hkey|]. split; [exact Hfrom|exact Hto].
  - split; [|split; [|reflexivity]].
    + intros k Hk. specialize (Hkey k Hk).
      destruct (ReactorState.CurrentVoteSets st !! k) as [vs|]; [|exact Hkey].
      destruct (FnVoteSet.IsExpired vs ExpiresIn); [exact Hkey|].
      destruct Hkey as (? & ? & ? & _). do 3 (split; [assumption|]).
      intros Hnil. apply elem_of_nil in Hnil. destruct Hnil.
    + intros k Hk. apply elem_of_nil in Hk. destruct Hk.
Qed.

End tick.

(** At 100 s the vote set created at second 0 is expired: the tick
    archives it and hands the FnID to the proposal step. *)
Lemma progressTickLocked_archives_expired_witness :
  let expired := Fixture.voteSet "a" 1 0 Fixture.three
                   [VoteTypeAgree; VoteTypeUnvoted; VoteTypeUnvoted] in
  let f := Fixture.reactor 1 Fixture.three Maj23SigningThreshold ∅ ∅
             (Fixture.withCurrent "f" expired 1) in
  exists f' eligible evs,
    progressTickLocked (H := Fixture.env (100 * Second) None) (H0 := Fixture.host None) f
    = Ret (f', eligible, evs)
    /\ forall k, k ∈ eligible -> is_Some (fnRegistry f !! k).
Proof.
  intros expired f.
  destruct (progressTickLocked (H := Fixture.env (100 * Second) None)
              (H0 := Fixture.host None) f) as [[[f' eligible] evs]|] eqn:Hrun;
    [|vm_compute in Hrun; discriminate Hrun].
  exists f', eligible, evs. split; [reflexivity|].
  destruct (progressTickLocked_archives_expired
              (H := Fixture.env (100 * Second) None) (H0 := Fixture.host None)
              f f' eligible evs Hrun)
    as (st & st' & _ & _ & _ & _ & _ & _ & _ & _ & Hfrom & _).
  intros k Hk. exact (proj1 (Hfrom k Hk)).
Defined.

(** ** A Maj23 vote set that comes back *)

Section maj23_replay.
Context `{FnVoteSet.Env} `{Host}.



End maj23_replay.


(** ** Peers *)

(** X23.  Peers come and go without a trace.  Adding a peer twice is
    adding it once, removing a peer that was added to a reactor that did
    not know it gives the reactor back, every broadcast of the reactor
    with the peer added reaches it, and once a peer is removed no run of
    Receive sends anything to it, on any channel. *)
Theorem RemovePeer_silences `{FnVoteSet.Env} `{Host}
    (f : FnConsensusReactor) (peer : string) :
  AddPeer (AddPeer f peer) peer = AddPeer f peer
  /\ (peer ∉ connectedPeers f -> RemovePeer (AddPeer f peer) peer = f)
  /\ (forall chID msg, PeerSend peer chID msg ∈ broadcast (AddPeer f peer) None chID msg)
  /\ (forall chID sender msgBytes f' evs,
        Receive (RemovePeer f peer) chID sender msgBytes = Ret (f', evs) ->
        forall ch m, PeerSend peer ch m ∉ evs).
Proof.
  split; [|split; [|split]].
  - unfold AddPeer, setPeers. cbn. f_equal.
    rewrite (assoc_L (∪)), union_idemp_L. reflexivity.
  - intros Hnot. destruct f. unfold RemovePeer, AddPeer, setPeers. cbn in *.
    f_equal. apply set_eq. intros x.
    rewrite elem_of_difference, elem_of_union, elem_of_singleton. split.
    + intros [[->|Hx] Hne]; [contradiction Hne; reflexivity|exact Hx].
    + intros Hx. split; [right; exact Hx|]. intros ->. contradiction.
  - intros chID msg. apply broadcast_spec. exists peer.
    split; [reflexivity|]. split; [|discriminate].
    unfold AddPeer. cbn. apply elem_of_union_l, elem_of_singleton. reflexivity.
  - intros chID sender msgBytes f' evs Hrun ch m Hin.
    apply (Receive_sends _ _ _ _ _ _ Hrun) in Hin as [_ Hin].
    unfold RemovePeer in Hin. cbn in Hin.
    apply elem_of_difference in Hin as [_ Hne]. apply Hne, elem_of_singleton. reflexivity.
Qed.

(** ** Before and after the start *)

(** X24.  A reactor must be started, and configured, before it is spoken
    to.  On a reactor as the constructor returns it every message on the
    Maj23 channel makes Receive panic, since the state is nil until
    OnStart.  Once OnStart has loaded a state, a reactor built with a
    configuration never panics on that channel, while one built with the
    nil configuration, which the constructor accepts, panics on every
    message that decodes to a valid and expired vote set. *)
Theorem Receive_needs_OnStart `{FnVoteSet.Env} `{Host}
    (chain : string) (pv : PrivValidator) (registry : FnRegistry)
    (tm : list Validator) (config : option ReactorConfig.t) (f : FnConsensusReactor) :
  NewFnConsensusReactor chain pv registry tm config = inl f ->
  (forall sender msgBytes, Receive f FnMaj23Channel sender msgBytes = Panic)
  /\ (is_Some LoadReactorState ->
      is_Some config ->
      forall sender msgBytes,
        Receive (OnStart f).1.1 FnMaj23Channel sender msgBytes <> Panic)
  /\ (is_Some LoadReactorState ->
      config = None ->
      forall sender msgBytes remote,
        FnVoteSet.Unmarshal msgBytes = Some remote ->
        FnVoteSet.IsValid remote chain MaxContextSize false ExpiresInForSync tm registry
        = true ->
        FnVoteSet.IsExpired remote ExpiresIn = true ->
        Receive (OnStart f).1.1 FnMaj23Channel sender msgBytes = Panic).
Proof.
  unfold NewFnConsensusReactor. destruct (negb (ReactorConfig.IsValid config)); [discriminate|].
  intros [= <-]. split; [reflexivity|].
  assert (Hstart : is_Some LoadReactorState ->
            exists st, (OnStart
                          {| connectedPeers := ∅; state := None; chainID := chain;
                             fnRegistry := registry; privValidator := pv;
                             commitRoutineQuitCh := ∅; staticValidators := None;
                             tmValidators := tm; cfg := config |}).1.1
                       = {| connectedPeers := ∅; state := Some st; chainID := chain;
                            fnRegistry := registry; privValidator := pv;
                            commitRoutineQuitCh := ∅; staticValidators := None;
                            tmValidators := tm; cfg := config |}).
  { intros [loaded Hload]. unfold OnStart. rewrite Hload. cbv zeta.
    destruct (SaveReactorState _); eexists; reflexivity. }
  split.
  - intros Hload [c ->] sender msgBytes. destruct (Hstart Hload) as [st ->].
    unfold Receive. change (FnMaj23Channel =? FnVoteSetChannel) with false.
    change (FnMaj23Channel =? FnMaj23Channel) with true. cbv iota.
    unfold handleMaj23VoteSetChannel, theState, theThreshold. cbn [state cfg].
    rewrite run_bind_Ret.
    destruct (FnVoteSet.Unmarshal msgBytes) as [remote|]; [|discriminate].
    cbv zeta.
    match goal with
    | |- context [match ?x with Some _ => _ | None => _ end] =>
        destruct x as [signedBy|]
    end; [|discriminate].
    destruct (negb (FnVoteSet.IsExpired remote ExpiresIn)); [discriminate|].
    rewrite run_bind_Ret.
    destruct (negb (FnVoteSet.HasConverged _ _ _)); [discriminate|].
    destruct (FnVoteSet.Nonce remote <? _); [destruct (_ && _)|];
      (destruct (negb (SaveReactorState _)); [discriminate|]); cbn [negb];
      try discriminate.
    destruct (FnVoteSet.Marshal remote); discriminate.
  - intros Hload -> sender msgBytes remote Hun Hvalid Hexp.
    destruct (Hstart Hload) as [st ->].
    unfold Receive. change (FnMaj23Channel =? FnVoteSetChannel) with false.
    change (FnMaj23Channel =? FnMaj23Channel) with true. cbv iota.
    unfold handleMaj23VoteSetChannel, theState, theThreshold.
    cbn [state cfg chainID fnRegistry]. rewrite run_bind_Ret, Hun. cbv zeta.
    change (getValidatorSet _) with tm. rewrite Hvalid, Hexp. reflexivity.
Qed.

Lemma Receive_needs_OnStart_witness :
  let remote := Fixture.voteSet "a" 17 100 Fixture.three
                  [VoteTypeAgree; VoteTypeAgree; VoteTypeAgree] in
  Receive (H := Fixture.env (200 * Second) (Some remote))
    (H0 := Fixture.host (Some ReactorState.empty))
    (OnStart (H := Fixture.env (200 * Second) (Some remote))
       (H0 := Fixture.host (Some ReactorState.empty))
       {| connectedPeers := ∅; state := None; chainID := Fixture.chain;
          fnRegistry := Fixture.registry; privValidator := Fixture.signer 1;
          commitRoutineQuitCh := ∅; staticValidators := None;
          tmValidators := Fixture.three; cfg := None |}).1.1
    FnMaj23Channel "p1" [] = Panic.
Proof.
  intros remote.
  refine (proj2 (proj2 (Receive_needs_OnStart
                          (H := Fixture.env (200 * Second) (Some remote))
                          (H0 := Fixture.host (Some ReactorState.empty))
                          Fixture.chain (Fixture.signer 1) Fixture.registry Fixture.three
                          None _ eq_refl))
            _ eq_refl "p1" [] remote eq_refl _ _).
  - exists ReactorState.empty. reflexivity.
  - vm_compute. reflexivity.
  - vm_compute. reflexivity.
Defined.

(** ** Vote-set identifiers *)

Lemma hexDigit_inj (n m : N) :
  (n < 16)%N -> (m < 16)%N -> hexDigit n = hexDigit m -> n = m.
Proof.
  intros Hn Hm.
  assert (En : n ∈ N.of_nat <$> seq 0 16).
  { apply list_elem_of_fmap. exists (N.to_nat n). split; [lia|].
    apply elem_of_seq. lia. }
  assert (Em : m ∈ N.of_nat <$> seq 0 16).
  { apply list_elem_of_fmap. exists (N.to_nat m). split; [lia|].
    apply elem_of_seq. lia. }
  cbn in En, Em.
  repeat (apply elem_of_cons in En as [->|En]);
    try (apply elem_of_nil in En; destruct En);
    repeat (apply elem_of_cons in Em as [->|Em]);
    try (apply elem_of_nil in Em; destruct Em);
    intros Hd; first [reflexivity | vm_compute in Hd; discriminate Hd].
Qed.

Lemma EncodeToString_byte_inj (x y : Byte.byte) :
  hexDigit (N.shiftr (Byte.to_N x) 4) = hexDigit (N.shiftr (Byte.to_N y) 4) ->
  hexDigit (N.land (Byte.to_N x) 15) = hexDigit (N.land (Byte.to_N y) 15) ->
  x = y.
Proof.
  pose proof (Byte.to_N_bounded x) as Hx. pose proof (Byte.to_N_bounded y) as Hy.
  rewrite !N.shiftr_div_pow2. change 15%N with (N.ones 4). rewrite !N.land_ones.
  change (2 ^ 4)%N with 16%N.
  intros Hhi Hlo.
  apply hexDigit_inj in Hhi;
    [|apply N.Div0.div_lt_upper_bound; lia|apply N.Div0.div_lt_upper_bound; lia].
  apply hexDigit_inj in Hlo; [|apply N.mod_lt; lia|apply N.mod_lt; lia].
  assert (HN : Byte.to_N x = Byte.to_N y).
  { rewrite (N.div_mod (Byte.to_N x) 16), (N.div_mod (Byte.to_N y) 16) by lia.
    rewrite Hhi, Hlo. reflexivity. }
  pose proof (Byte.of_to_N x) as Ex. pose proof (Byte.of_to_N y) as Ey.
  rewrite HN in Ex. congruence.
Qed.

(** X25.  Vote-set identifiers.  generateVoteSetID fails exactly when the
    random source fails; otherwise the identifier has two characters per
    random byte, 64 for the 32 bytes asked for, and two different random
    buffers never give the same identifier. *)
Theorem generateVoteSetID_hex (randRead randRead' : Z -> option bytes) :
  (generateVoteSetID randRead = None <-> randRead VoteSetIDSize = None)
  /\ (forall buf, randRead VoteSetIDSize = Some buf ->
        exists id, generateVoteSetID randRead = Some id
                   /\ String.length id = (2 * length buf)%nat
                   /\ (Z.of_nat (length buf) = VoteSetIDSize -> String.length id = 64%nat))
  /\ (forall buf buf' id,
        randRead VoteSetIDSize = Some buf -> randRead' VoteSetIDSize = Some buf' ->
        generateVoteSetID randRead = Some id -> generateVoteSetID randRead' = Some id ->
        buf = buf').
Proof.
  assert (Hlen : forall buf, String.length (EncodeToString buf) = (2 * length buf)%nat).
  { induction buf as [|x buf IH]; [reflexivity|]. cbn [EncodeToString String.length length].
    rewrite IH. lia. }
  assert (Hinj : forall a b', EncodeToString a = EncodeToString b' -> a = b').
  { induction a as [|x a IH]; intros [|y b']; cbn [EncodeToString]; intros Heq;
      try discriminate Heq; [reflexivity|].
    injection Heq as Hhi Hlo Hrest.
    f_equal; [|exact (IH _ Hrest)].
    apply EncodeToString_byte_inj; [|exact Hlo].
    exact Hhi. }
  unfold generateVoteSetID. split; [|split].
  - destruct (randRead VoteSetIDSize); split; (discriminate || reflexivity).
  - intros buf ->. eexists. split; [reflexivity|]. split; [apply Hlen|].
    intros Hsize. rewrite Hlen. unfold VoteSetIDSize in Hsize. lia.
  - intros buf buf' id -> -> [= <-] [= Heq]. symmetry. exact (Hinj _ _ Heq).
Qed.

(** ** A node that is no validator *)

Section observer.
Context `{FnVoteSet.Env} `{Host}.

(** X26.  A node that is not in the validator set only relays.  While it
    handles a vote-set message it never calls MapMessage, and the current
    vote set it holds afterwards for any FnID is the one it held before,
    or, for the FnID of the message, the vote set received or the merge
    of the one it held with the one received. *)
Theorem handleVoteSetChannelMessage_observer
    (f f' : FnConsensusReactor) (sender : string) (msgBytes : bytes) (evs : list Event)
    (st0 st' : ReactorState.t) :
  (areWeValidator f (getValidatorSet f)).1 = false ->
  handleVoteSetChannelMessage f sender msgBytes = Ret (f', evs) ->
  state f = Some st0 ->
  state f' = Some st' ->
  (forall id ctx h m, CallMapMessage id ctx h m ∉ evs)
  /\ forall k,
       ReactorState.CurrentVoteSets st' !! k = ReactorState.CurrentVoteSets st0 !! k
       \/ exists remote,
            FnVoteSet.Unmarshal msgBytes = Some remote
            /\ k = FnVoteSet.GetFnID remote
            /\ (ReactorState.CurrentVoteSets st' !! k = Some remote
                \/ exists ours changed merged,
                     ReactorState.CurrentVoteSets st0 !! k = Some ours
                     /\ FnVoteSet.Merge ours (getValidatorSet f) remote
                        = Some (changed, merged)
                     /\ ReactorState.CurrentVoteSets st' !! k = Some merged).
Proof.
  intros Hobs Hrun Hst Hst'. unfold handleVoteSetChannelMessage in Hrun.
  destruct (areWeValidator f (getValidatorSet f)) as [aw own]. cbn in Hobs. subst aw.
  assert (Hnil : forall g, state g = Some st0 -> Ret (g, @nil Event) = Ret (f', evs) ->
            (forall id ctx h m, CallMapMessage id ctx h m ∉ evs)
            /\ forall k,
                 ReactorState.CurrentVoteSets st' !! k
                 = ReactorState.CurrentVoteSets st0 !! k
                 \/ exists remote,
                      FnVoteSet.Unmarshal msgBytes = Some remote
                      /\ k = FnVoteSet.GetFnID remote
                      /\ (ReactorState.CurrentVoteSets st' !! k = Some remote
                          \/ exists ours changed merged,
                               ReactorState.CurrentVoteSets st0 !! k = Some ours
                               /\ FnVoteSet.Merge ours (getValidatorSet f) remote
                                  = Some (changed, merged)
                               /\ ReactorState.CurrentVoteSets st' !! k = Some merged)).
  { intros g Hg [= <- <-]. rewrite Hg in Hst'. injection Hst' as <-.
    split; [intros id ctx h m Hin; apply elem_of_nil in Hin; destruct Hin|auto]. }
  destruct (FnVoteSet.Unmarshal msgBytes) as [remote|]; [|exact (Hnil f Hst Hrun)].
  destruct (FnVoteSet.IsValid _ _ _ _ _ _ _); simpl negb in Hrun; cbv iota in Hrun;
    [|exact (Hnil f Hst Hrun)].
  unfold theState in Hrun. rewrite Hst, run_bind_Ret in Hrun.
  set (fnID := FnVoteSet.GetFnID remote) in *.
  assert (Hcur : ReactorState.CurrentVoteSets
                   (match ReactorState.CurrentNonces st0 !! fnID with
                    | Some n => (n, st0)
                    | None => (1, ReactorState.setCurrentNonces
                                    (<[fnID := 1]> (ReactorState.CurrentNonces st0)) st0)
                    end).2
                 = ReactorState.CurrentVoteSets st0)
    by (destruct (ReactorState.CurrentNonces st0 !! fnID); reflexivity).
  destruct (match ReactorState.CurrentNonces st0 !! fnID with
            | Some n => (n, st0)
            | None => (1, ReactorState.setCurrentNonces
                            (<[fnID := 1]> (ReactorState.CurrentNonces st0)) st0)
            end) as [currentNonce st].
  cbn [snd] in Hcur.
  assert (Hout : forall (g : FnConsensusReactor) (s : ReactorState.t) (l : list Event),
            (forall id ctx h m, CallMapMessage id ctx h m ∉ l) ->
            (ReactorState.CurrentVoteSets s = ReactorState.CurrentVoteSets st0
             \/ ReactorState.CurrentVoteSets s
                = <[fnID := remote]> (ReactorState.CurrentVoteSets st0)
             \/ exists ours changed merged,
                  ReactorState.CurrentVoteSets st0 !! fnID = Some ours
                  /\ FnVoteSet.Merge ours (getValidatorSet f) remote = Some (changed, merged)
                  /\ ReactorState.CurrentVoteSets s
                     = <[fnID := merged]> (ReactorState.CurrentVoteSets st0)) ->
            Ret (setState s g, l) = Ret (f', evs) ->
            (forall id ctx h m, CallMapMessage id ctx h m ∉ evs)
            /\ forall k,
                 ReactorState.CurrentVoteSets st' !! k
                 = ReactorState.CurrentVoteSets st0 !! k
                 \/ exists remote0,
                      Some remote = Some remote0
                      /\ k = FnVoteSet.GetFnID remote0
                      /\ (ReactorState.CurrentVoteSets st' !! k = Some remote0
                          \/ exists ours changed merged,
                               ReactorState.CurrentVoteSets st0 !! k = Some ours
                               /\ FnVoteSet.Merge ours (getValidatorSet f) remote0
                                  = Some (changed, merged)
                               /\ ReactorState.CurrentVoteSets st' !! k = Some merged)).
  { intros g s l Hl Hs [= <- <-]. cbn in Hst'. injection Hst' as <-.
    split; [exact Hl|]. intros k.
    destruct Hs as [->|[->|(ours & changed & merged & Hours & Hmerge & ->)]]; [auto| |].
    - destruct (decide (k = fnID)) as [->|Hne].
      + right. exists remote. split; [reflexivity|]. split; [reflexivity|].
        left. apply lookup_insert_eq.
      + left. apply lookup_insert_ne. congruence.
    - destruct (decide (k = fnID)) as [->|Hne].
      + right. exists remote. split; [reflexivity|]. split; [reflexivity|].
        right. exists ours, changed, merged. rewrite lookup_insert_eq. auto.
      + left. apply lookup_insert_ne. congruence. }
  destruct (_ && _).
  { apply (Hout f st []); [|left; exact Hcur|exact Hrun].
    intros id ctx h m Hin. apply elem_of_nil in Hin. destruct Hin. }
  destruct (compareVoteSets _ _ _ _ _) as [cmp|]; [|discriminate Hrun].
  rewrite run_bind_Ret in Hrun.
  assert (Hsw :
    match decide_switch f st fnID remote (ReactorState.CurrentVoteSets st !! fnID)
            currentNonce (getValidatorSet f) cmp with
    | Ret (inl (g, l)) => g = setState st f /\ l = []
    | Ret (inr d) =>
        (forall id ctx h m, CallMapMessage id ctx h m ∉ d_events d)
        /\ (ReactorState.CurrentVoteSets (d_state d) = ReactorState.CurrentVoteSets st0
            \/ ReactorState.CurrentVoteSets (d_state d)
               = <[fnID := remote]> (ReactorState.CurrentVoteSets st0)
            \/ exists ours changed merged,
                 ReactorState.CurrentVoteSets st0 !! fnID = Some ours
                 /\ FnVoteSet.Merge ours (getValidatorSet f) remote = Some (changed, merged)
                 /\ ReactorState.CurrentVoteSets (d_state d)
                    = <[fnID := merged]> (ReactorState.CurrentVoteSets st0))
    | Panic => True
    end).
  { unfold decide_switch. rewrite Hcur.
    destruct (cmp =? 0).
    - destruct (ReactorState.CurrentVoteSets st0 !! fnID) as [ours|] eqn:Hours; [|exact I].
      destruct (FnVoteSet.Merge ours _ remote) as [[changed merged]|] eqn:Hmerge;
        [|split; reflexivity].
      cbn. split; [intros id ctx h m Hin; apply elem_of_nil in Hin; destruct Hin|].
      right. right. exists ours, changed, merged. auto.
    - destruct (cmp =? 1).
      + assert (Hev : forall closed : list Event,
                  (closed = [] \/ closed = [CloseQuitCh fnID]) ->
                  forall id ctx h m,
                    CallMapMessage id ctx h m
                    ∉ closed ++ [GoCommitRoutine fnID (commitDeadline remote)]).
        { intros closed [->| ->] id ctx h m Hin; cbn in Hin;
            repeat (apply elem_of_cons in Hin as [Hin|Hin]; [discriminate Hin|]);
            apply elem_of_nil in Hin; destruct Hin. }
        destruct (ReactorState.CurrentVoteSets st0 !! fnID) as [ours|].
        * destruct (bool_decide (fnID ∈ commitRoutineQuitCh f)); [|exact I].
          cbn. split; [apply (Hev [CloseQuitCh fnID]); auto|].
          right. left. reflexivity.
        * cbn. split; [apply (Hev []); auto|].
          right. left. reflexivity.
      + destruct (cmp =? -1);
          (destruct (ReactorState.CurrentVoteSets st0 !! fnID) as [ours|];
           [|first [exact I | split; reflexivity]]);
          cbn; (split; [intros id ctx h m Hin; apply elem_of_nil in Hin; destruct Hin|]);
          left; exact Hcur. }
  destruct (decide_switch _ _ _ _ _ _ _ _) as [[[g l]|d]|]; [| |discriminate Hrun];
    rewrite run_bind_Ret in Hrun.
  { destruct Hsw as [-> ->]. apply (Hout f st []); [|left; exact Hcur|exact Hrun].
    intros id ctx h m Hin. apply elem_of_nil in Hin. destruct Hin. }
  destruct Hsw as [Hev Hstate].
  unfold addOwnVote in Hrun. cbn [andb] in Hrun. rewrite run_bind_Ret in Hrun.
  unfold gossip in Hrun.
  destruct (negb (d_hasOurVoteSetChanged d));
    [exact (Hout _ _ _ Hev Hstate Hrun)|].
  destruct (FnVoteSet.Marshal (d_currentVoteSet d)) as [m|];
    [|exact (Hout _ _ _ Hev Hstate Hrun)].
  refine (Hout _ _ _ _ Hstate Hrun).
  intros id ctx h m' Hin. apply elem_of_app in Hin as [Hin|Hin]; [exact (Hev _ _ _ _ Hin)|].
  apply broadcast_spec in Hin as (p & Hp & _). discriminate Hp.
Qed.

End observer.

(** Node 9 is no validator: it takes the vote set over and calls nothing. *)
Lemma handleVoteSetChannelMessage_observer_witness :
  let remote := Fixture.voteSet "a" 1 100 Fixture.three
                  [VoteTypeAgree; VoteTypeUnvoted; VoteTypeUnvoted] in
  let f := Fixture.reactor 9 Fixture.three Maj23SigningThreshold
             {[ "p1"; "p2" ]} ∅ ReactorState.empty in
  exists f' evs st',
    handleVoteSetChannelMessage (H := Fixture.env (110 * Second) (Some remote))
      (H0 := Fixture.host None) f "p1" [] = Ret (f', evs)
    /\ state f' = Some st'
    /\ (forall id ctx h m, CallMapMessage id ctx h m ∉ evs)
    /\ ReactorState.CurrentVoteSets st' !! "f" = Some remote.
Proof.
  intros remote f.
  destruct (handleVoteSetChannelMessage (H := Fixture.env (110 * Second) (Some remote))
              (H0 := Fixture.host None) f "p1" []) as [[f' evs]|] eqn:Hrun;
    [|vm_compute in Hrun; discriminate Hrun].
  destruct (state f') as [st'|] eqn:Hst';
    [|apply (f_equal (fun r => match r with
                               | Ret (g, _) => bool_decide (is_Some (state g))
                               | Panic => false
                               end)) in Hrun;
      rewrite Hst' in Hrun; vm_compute in Hrun; discriminate Hrun].
  exists f', evs, st'. split; [reflexivity|]. split; [exact Hst'|].
  destruct (handleVoteSetChannelMessage_observer
              (H := Fixture.env (110 * Second) (Some remote)) (H0 := Fixture.host None)
              f f' "p1" [] evs ReactorState.empty st' eq_refl Hrun eq_refl Hst')
    as [Hcalls _].
  split; [exact Hcalls|].
  apply (f_equal (fun r => match r with
                           | Ret (g, _) =>
                               (fun s => ReactorState.CurrentVoteSets s !! "f") <$> state g
                           | Panic => None
                           end)) in Hrun.
  rewrite Hst' in Hrun. cbn [fmap option_fmap option_map] in Hrun.
  injection Hrun as Hrun. rewrite <- Hrun. vm_compute. reflexivity.
Defined.

(** A peer that joins and leaves. *)
Lemma RemovePeer_silences_witness :
  let f := Fixture.reactor 1 Fixture.three Maj23SigningThreshold
             {[ "p1" ]} ∅ ReactorState.empty in
  RemovePeer (AddPeer f "p9") "p9" = f.
Proof.
  intros f.
  refine (proj1 (proj2 (RemovePeer_silences (H := Fixture.env 0 None)
                          (H0 := Fixture.host None) f "p9")) _).
  apply (bool_decide_unpack _). vm_compute. exact I.
Defined.

(** Thirty-two bytes 0x07 give sixty-four characters. *)
Lemma generateVoteSetID_hex_witness :
  exists id,
    generateVoteSetID (fun n => Some (replicate (Z.to_nat n) Byte.x07)) = Some id
    /\ String.length id = 64%nat.
Proof.
  destruct (proj1 (proj2 (generateVoteSetID_hex
                            (fun n => Some (replicate (Z.to_nat n) Byte.x07))
                            (fun n => None)))
              (replicate 32 Byte.x07) eq_refl) as (id & Hid & _ & Hlen).
  exists id. split; [exact Hid|]. apply Hlen. reflexivity.
Defined.
